(** * Habitat trace core: events, Chrome trace writer, tracer session

    A shallow embedding of [core/trace/event.py], [core/trace/writer.py] and
    [core/trace/tracer.py], and the properties of the trace core stated over
    it; with them the global tracer of [core/trace/__init__.py] and the
    dependency environment of [core/components/deps_env.py].

    Conventions of the embedding.
    - A Python [str] is a [string] whose characters are its code points
      (code points below 256).
    - A Python [float] holding a time in microseconds is a rational [Q];
      [int(x)] is truncation toward zero.  Rounding of float arithmetic is
      not modelled.
    - A [dict] whose order is observable (event arguments, the dictionary
      given to [json.dumps]) is an association list in insertion order; the
      registries of the tracer, which are only looked up, are [gmap]s.
    - What the code reads from its surroundings (the clock, the identity of
      the running thread and task, [uuid.uuid4()]) is passed in as an [Env].
    - The file system is a finite map from paths to file contents; a write
      through an open handle appends to the content of its path.
    - A call returns an [outcome]: a value, or a raised exception.  The state
      is returned in both cases, since a call that raises keeps the writes
      it made before raising.
    - Locks are not modelled: each operation is one atomic step. *)

From Stdlib Require Import ZArith QArith String Ascii List Lia DecimalString.
From stdpp Require Import gmap strings list fin_maps.

Set Warnings "-register-all".

Local Open Scope Z_scope.

(* ===================================================================== *)
(** * Python primitives                                                   *)
(* ===================================================================== *)

(** Exceptions that the modelled code raises or lets through. *)
Inductive exn : Type :=
| RuntimeError (msg : string)
| TypeError (msg : string)
| HostError (name : string).   (* any exception of the caller's own work *)

Inductive outcome (A : Type) : Type :=
| Returned (a : A)
| Raised (e : exn).
Arguments Returned {A} a.
Arguments Raised {A} e.

(** [str(n)] for an [int]. *)
Definition py_str_int (n : Z) : string := NilZero.string_of_int (Z.to_int n).

(** [int(x)] for a float: truncation toward zero. *)
Definition py_int (x : Q) : Z := Z.quot (Qnum x) (Z.pos (Qden x)).

(** [x or 0] for an optional integer: [None] and [0] both give [0]. *)
Definition or_0 (x : option Z) : Z :=
  match x with
  | Some n => if n =? 0 then 0 else n
  | None => 0
  end.

Definition code (c : ascii) : Z := Z.of_N (N_of_ascii c).
Definition chr (n : Z) : ascii := ascii_of_N (Z.to_N n).

Definition quote_char : ascii := chr 34.
Definition backslash_char : ascii := chr 92.

Definition str1 (c : ascii) : string := String c EmptyString.

Definition hex_digit (n : Z) : ascii :=
  if n <? 10 then chr (48 + n) else chr (87 + n).

(** [str.encode()]: UTF-8, one byte below 128 and two bytes up to 255. *)
Fixpoint encode (s : string) : list Z :=
  match s with
  | EmptyString => []
  | String c s' =>
      let n := code c in
      if n <? 128 then n :: encode s'
      else Z.lor 192 (Z.shiftr n 6) :: Z.lor 128 (Z.land n 63) :: encode s'
  end.

(* ===================================================================== *)
(** * hashlib.md5                                                         *)
(* ===================================================================== *)

Module MD5.

Definition w32 (x : Z) : Z := x mod 2 ^ 32.

Definition rotl (x c : Z) : Z :=
  Z.lor (w32 (Z.shiftl x c)) (Z.shiftr x (32 - c)).

Definition not32 (x : Z) : Z := 4294967295 - x.

Definition shifts : list Z :=
  [7; 12; 17; 22; 7; 12; 17; 22; 7; 12; 17; 22; 7; 12; 17; 22;
   5; 9; 14; 20; 5; 9; 14; 20; 5; 9; 14; 20; 5; 9; 14; 20;
   4; 11; 16; 23; 4; 11; 16; 23; 4; 11; 16; 23; 4; 11; 16; 23;
   6; 10; 15; 21; 6; 10; 15; 21; 6; 10; 15; 21; 6; 10; 15; 21].

Definition K : list Z :=
  [0xd76aa478; 0xe8c7b756; 0x242070db; 0xc1bdceee; 0xf57c0faf; 0x4787c62a;
   0xa8304613; 0xfd469501; 0x698098d8; 0x8b44f7af; 0xffff5bb1; 0x895cd7be;
   0x6b901122; 0xfd987193; 0xa679438e; 0x49b40821; 0xf61e2562; 0xc040b340;
   0x265e5a51; 0xe9b6c7aa; 0xd62f105d; 0x02441453; 0xd8a1e681; 0xe7d3fbc8;
   0x21e1cde6; 0xc33707d6; 0xf4d50d87; 0x455a14ed; 0xa9e3e905; 0xfcefa3f8;
   0x676f02d9; 0x8d2a4c8a; 0xfffa3942; 0x8771f681; 0x6d9d6122; 0xfde5380c;
   0xa4beea44; 0x4bdecfa9; 0xf6bb4b60; 0xbebfbc70; 0x289b7ec6; 0xeaa127fa;
   0xd4ef3085; 0x04881d05; 0xd9d4d039; 0xe6db99e5; 0x1fa27cf8; 0xc4ac5665;
   0xf4292244; 0x432aff97; 0xab9423a7; 0xfc93a039; 0x655b59c3; 0x8f0ccc92;
   0xffeff47d; 0x85845dd1; 0x6fa87e4f; 0xfe2ce6e0; 0xa3014314; 0x4e0811a1;
   0xf7537e82; 0xbd3af235; 0x2ad7d2bb; 0xeb86d391].

(** Little-endian bytes of a [width]-byte word. *)
Fixpoint le_bytes (width : nat) (x : Z) : list Z :=
  match width with
  | O => []
  | S k => x mod 256 :: le_bytes k (x / 256)
  end.

Fixpoint le_word (bs : list Z) : Z :=
  match bs with
  | [] => 0
  | b :: bs' => b + 256 * le_word bs'
  end.

(** The message followed by 0x80, zeros up to 56 modulo 64, and the bit
    length on 64 bits. *)
Definition pad (msg : list Z) : list Z :=
  let len := Z.of_nat (length msg) in
  let zeros := Z.to_nat ((55 - len) mod 64) in
  msg ++ 128 :: repeat 0 zeros ++ le_bytes 8 ((8 * len) mod 2 ^ 64).

Definition round (M : list Z) (st : Z * Z * Z * Z) (i : nat) : Z * Z * Z * Z :=
  let '(A, B, C, D) := st in
  let iz := Z.of_nat i in
  let '(F, g) :=
    if iz <? 16 then (Z.lor (Z.land B C) (Z.land (not32 B) D), iz)
    else if iz <? 32 then (Z.lor (Z.land D B) (Z.land (not32 D) C), (5 * iz + 1) mod 16)
    else if iz <? 48 then (Z.lxor (Z.lxor B C) D, (3 * iz + 5) mod 16)
    else (Z.lxor C (Z.lor B (not32 D)), (7 * iz) mod 16) in
  let F' := w32 (F + A + nth i K 0 + nth (Z.to_nat g) M 0) in
  (D, w32 (B + rotl F' (nth i shifts 0)), B, C).

Definition process_chunk (st : Z * Z * Z * Z) (chunk : list Z) : Z * Z * Z * Z :=
  let M := List.map (fun j => le_word (firstn 4 (skipn (4 * j) chunk))) (seq 0 16) in
  let '(a0, b0, c0, d0) := st in
  let '(A, B, C, D) := fold_left (round M) (seq 0 64) st in
  (w32 (a0 + A), w32 (b0 + B), w32 (c0 + C), w32 (d0 + D)).

Fixpoint chunks (n : nat) (bs : list Z) : list (list Z) :=
  match n with
  | O => []
  | S k => firstn 64 bs :: chunks k (skipn 64 bs)
  end.

Definition digest (msg : list Z) : list Z :=
  let padded := pad msg in
  let '(a, b, c, d) :=
    fold_left process_chunk (chunks (length padded / 64) padded)
      (0x67452301, 0xefcdab89, 0x98badcfe, 0x10325476) in
  le_bytes 4 a ++ le_bytes 4 b ++ le_bytes 4 c ++ le_bytes 4 d.

Definition hex_byte (b : Z) : string :=
  String (hex_digit (b / 16)) (str1 (hex_digit (b mod 16))).

Definition hexdigest (msg : list Z) : string :=
  fold_right (fun b acc => hex_byte b +:+ acc) EmptyString (digest msg).

End MD5.

(** [int(s, 16)] on a string of lowercase hexadecimal digits. *)
Definition hex_value (c : ascii) : Z :=
  let n := code c in if n <? 58 then n - 48 else n - 87.

Fixpoint int16_acc (acc : Z) (s : string) : Z :=
  match s with
  | EmptyString => acc
  | String c s' => int16_acc (16 * acc + hex_value c) s'
  end.

Definition int16 (s : string) : Z := int16_acc 0 s.

(** [int(hashlib.md5(s.encode()).hexdigest()[:8], 16)], the hash both lane
    allocators use. *)
Definition md5_int (s : string) : Z :=
  int16 (substring 0 8 (MD5.hexdigest (encode s))).

(* ===================================================================== *)
(** * event.py                                                            *)
(* ===================================================================== *)

(** Argument values.  [VPath p] is a [pathlib.Path] whose [str()] is [p];
    [VFloat r] is a float that the JSON encoder renders as [r]; [VObject t]
    is any other object, of the type named [t]. *)
Inductive Value : Type :=
| VNone
| VBool (b : bool)
| VInt (n : Z)
| VFloat (repr : string)
| VStr (s : string)
| VPath (p : string)
| VDict (items : list (string * Value))
| VList (items : list Value)
| VTuple (items : list Value)
| VObject (type_name : string).

Abbreviation Dict := (list (string * Value)).

(** [d[key] = value]: an existing key keeps its position. *)
Fixpoint dict_set (key : string) (value : Value) (d : Dict) : Dict :=
  match d with
  | [] => [(key, value)]
  | (k, v) :: d' =>
      if String.eqb k key then (k, value) :: d' else (k, v) :: dict_set key value d'
  end.

Fixpoint dict_get (key : string) (d : Dict) : option Value :=
  match d with
  | [] => None
  | (k, v) :: d' => if String.eqb k key then Some v else dict_get key d'
  end.

(** [type(v).__name__] (a path is taken to be a [PosixPath]). *)
Definition type_name_of (v : Value) : string :=
  match v with
  | VNone => "NoneType"
  | VBool _ => "bool"
  | VInt _ => "int"
  | VFloat _ => "float"
  | VStr _ => "str"
  | VPath _ => "PosixPath"
  | VDict _ => "dict"
  | VList _ => "list"
  | VTuple _ => "tuple"
  | VObject t => t
  end.

Inductive EventType : Type :=
| DURATION_BEGIN | DURATION_END | COMPLETE | INSTANT | COUNTER
| ASYNC_START | ASYNC_INSTANT | ASYNC_END
| FLOW_START | FLOW_STEP | FLOW_END | METADATA.

(** [EventType.value]. *)
Definition EventType_value (t : EventType) : string :=
  match t with
  | DURATION_BEGIN => "B" | DURATION_END => "E" | COMPLETE => "X"
  | INSTANT => "i" | COUNTER => "C"
  | ASYNC_START => "b" | ASYNC_INSTANT => "n" | ASYNC_END => "e"
  | FLOW_START => "s" | FLOW_STEP => "t" | FLOW_END => "f"
  | METADATA => "M"
  end.

(** What [asyncio.current_task()] does. *)
Inductive TaskProbe : Type :=
| RunningTask (task_id : Z)   (* a task; [task_id] is [id(current_task)] *)
| NoTask                      (* returns [None] *)
| NoRunningLoop.              (* raises [RuntimeError] *)

Record Env : Type := {
  now : Q;                     (* time.time() * 1_000_000 *)
  thread_ident : option Z;     (* threading.current_thread().ident *)
  current_task : TaskProbe;    (* asyncio.current_task() *)
  uuid4 : string               (* str(uuid.uuid4()) *)
}.

Definition _get_coroutine_thread_id (env : Env) : Z :=
  match current_task env with
  | RunningTask tid =>
      let task_id := py_str_int tid in
      let thread_id := md5_int task_id in
      0x10000000 + (thread_id mod 0x10000000)
  | NoTask => or_0 (thread_ident env)
  | NoRunningLoop => or_0 (thread_ident env)
  end.

(** The branch of [_serialize_args] taken for one item of a list or tuple. *)
Definition serialize_item (item : Value) : Value :=
  match item with
  | VPath p => VStr p
  | _ => item
  end.

(** The body of the loop of [_serialize_args] for one value; the [VDict]
    case is the recursive call, [if not args: return {}] included. *)
Fixpoint serialize_value (value : Value) : Value :=
  match value with
  | VPath p => VStr p
  | VDict d =>
      VDict (fold_left
               (fun serialized kv =>
                  match kv with
                  | (key, v) => dict_set key (serialize_value v) serialized
                  end) d [])
  | VList l => VList (List.map serialize_item l)
  | VTuple l => VList (List.map serialize_item l)
  | _ => value
  end.

Definition _serialize_args (args : Dict) : Dict :=
  match args with
  | [] => []
  | _ =>
      fold_left
        (fun serialized kv =>
           match kv with
           | (key, value) => dict_set key (serialize_value value) serialized
           end) args []
  end.

Record TraceEvent : Type := {
  name : string;
  event_type : EventType;
  timestamp : Q;
  duration : option Q;
  process_id : Z;
  thread_id : Z;
  category : string;
  args : Dict;
  async_id : option string
}.

(** [TraceEvent.__init__].  Optional parameters are [option]s; [None] is the
    Python default. *)
Definition TraceEvent_init (env : Env) (name : string) (event_type : EventType)
    (timestamp duration : option Q) (process_id thread_id : option Z)
    (category : string) (args : option Dict) (async_id : option string)
  : TraceEvent :=
  {| name := name;
     event_type := event_type;
     timestamp := match timestamp with Some t => t | None => now env end;
     duration := duration;
     process_id :=
       match process_id with Some p => p | None => or_0 (thread_ident env) end;
     thread_id :=
       match thread_id with Some t => t | None => _get_coroutine_thread_id env end;
     category := category;
     args := match args with Some (x :: d) => x :: d | _ => [] end;
     async_id := async_id |}.

Definition to_dict (e : TraceEvent) : Dict :=
  let event_dict :=
    [("name"%string, VStr (name e));
     ("ph"%string, VStr (EventType_value (event_type e)));
     ("ts"%string, VInt (py_int (timestamp e)));
     ("pid"%string, VInt (process_id e));
     ("tid"%string, VInt (thread_id e));
     ("cat"%string, VStr (category e))] in
  let event_dict :=
    match duration e with
    | Some d => dict_set "dur" (VInt (py_int d)) event_dict
    | None => event_dict
    end in
  let event_dict :=
    match args e with
    | [] => event_dict
    | _ => dict_set "args" (VDict (_serialize_args (args e))) event_dict
    end in
  match async_id e with
  | Some i => dict_set "id" (VStr i) event_dict
  | None => event_dict
  end.

(* ===================================================================== *)
(** * json.dumps(obj, separators=(",", ":"))                              *)
(* ===================================================================== *)

(** One character of a string literal, [ensure_ascii] being on. *)
Definition escape_char (c : ascii) : string :=
  let n := code c in
  if n =? 34 then String backslash_char (str1 quote_char)
  else if n =? 92 then String backslash_char (str1 backslash_char)
  else if n =? 10 then String backslash_char "n"
  else if n =? 13 then String backslash_char "r"
  else if n =? 9 then String backslash_char "t"
  else if n =? 8 then String backslash_char "b"
  else if n =? 12 then String backslash_char "f"
  else if (32 <=? n) && (n <=? 126) then str1 c
  else String backslash_char ("u00" +:+ MD5.hex_byte n).

Fixpoint escape (s : string) : string :=
  match s with
  | EmptyString => EmptyString
  | String c s' => escape_char c +:+ escape s'
  end.

Definition json_string (s : string) : string :=
  String quote_char (escape s +:+ str1 quote_char).

Definition not_serializable (v : Value) : exn :=
  TypeError ("Object of type " +:+ type_name_of v +:+ " is not JSON serializable").

(** The encoder walks the value in order and raises at the first object it
    cannot encode.  The exception is the [TypeError] of the encoder, known
    by its message; notes that an interpreter may attach to it are not
    modelled. *)
Definition dumps_items (dumps : Value -> outcome string)
  : list Value -> outcome string :=
  fix go (l : list Value) : outcome string :=
    match l with
    | [] => Returned EmptyString
    | x :: l' =>
        match dumps x with
        | Raised e => Raised e
        | Returned sx =>
            match l' with
            | [] => Returned sx
            | _ =>
                match go l' with
                | Raised e => Raised e
                | Returned sl => Returned (sx +:+ "," +:+ sl)
                end
            end
        end
    end.

Definition dumps_pairs (dumps : Value -> outcome string)
  : Dict -> outcome string :=
  fix go (d : Dict) : outcome string :=
    match d with
    | [] => Returned EmptyString
    | (k, x) :: d' =>
        match dumps x with
        | Raised e => Raised e
        | Returned sx =>
            let item := json_string k +:+ ":" +:+ sx in
            match d' with
            | [] => Returned item
            | _ =>
                match go d' with
                | Raised e => Raised e
                | Returned sd => Returned (item +:+ "," +:+ sd)
                end
            end
        end
    end.

Fixpoint json_dumps (v : Value) : outcome string :=
  match v with
  | VNone => Returned "null"%string
  | VBool true => Returned "true"%string
  | VBool false => Returned "false"%string
  | VInt n => Returned (py_str_int n)
  | VFloat r => Returned r
  | VStr s => Returned (json_string s)
  | VList l | VTuple l =>
      match dumps_items json_dumps l with
      | Raised e => Raised e
      | Returned s => Returned ("[" +:+ s +:+ "]")
      end
  | VDict d =>
      match dumps_pairs json_dumps d with
      | Raised e => Raised e
      | Returned s => Returned ("{" +:+ s +:+ "}")
      end
  | VPath _ | VObject _ => Raised (not_serializable v)
  end.

(* ===================================================================== *)
(** * writer.py                                                           *)
(* ===================================================================== *)

Abbreviation FS := (gmap string string).

Definition nl : string := str1 (chr 10).

(** [f.write(s)] on a handle open on [path]. *)
Definition file_write (path s : string) (fs : FS) : FS :=
  <[path := default EmptyString (fs !! path) +:+ s]> fs.

(** [_file] is [None] or the open handle, modelled by the path it was
    opened on. *)
Record ChromeTraceWriter : Type := {
  filepath : string;
  auto_flush : bool;
  _file : option string;
  _first_event : bool
}.

Definition ChromeTraceWriter_init (filepath : string) (auto_flush : bool)
  : ChromeTraceWriter :=
  {| filepath := filepath; auto_flush := auto_flush;
     _file := None; _first_event := true |}.

Definition open (w : ChromeTraceWriter) (fs : FS) : ChromeTraceWriter * FS :=
  match _file w with
  | None =>
      (* open(self.filepath, "w") creates the file or truncates it *)
      let fs := <[filepath w := EmptyString]> fs in
      let fs := file_write (filepath w) ("[" +:+ nl) fs in
      ({| filepath := filepath w; auto_flush := auto_flush w;
          _file := Some (filepath w); _first_event := true |}, fs)
  | Some _ => (w, fs)
  end.

Definition close (w : ChromeTraceWriter) (fs : FS) : ChromeTraceWriter * FS :=
  match _file w with
  | Some f =>
      let fs := file_write f (nl +:+ "]" +:+ nl) fs in
      ({| filepath := filepath w; auto_flush := auto_flush w;
          _file := None; _first_event := _first_event w |}, fs)
  | None => (w, fs)
  end.

Definition not_open : exn :=
  RuntimeError "Writer is not open. Use 'with' statement or call open() first.".

(** [flush()] does not change the content of the file, and so is left out. *)
Definition write_event (w : ChromeTraceWriter) (fs : FS) (event : TraceEvent)
  : ChromeTraceWriter * FS * outcome unit :=
  match _file w with
  | None => (w, fs, Raised not_open)
  | Some f =>
      let '(w, fs) :=
        if negb (_first_event w) then (w, file_write f ("," +:+ nl) fs)
        else ({| filepath := filepath w; auto_flush := auto_flush w;
                 _file := _file w; _first_event := false |}, fs) in
      match json_dumps (VDict (to_dict event)) with
      | Raised e => (w, fs, Raised e)
      | Returned event_json =>
          (w, file_write f ("  " +:+ event_json) fs, Returned tt)
      end
  end.

Fixpoint write_events (w : ChromeTraceWriter) (fs : FS) (events : list TraceEvent)
  : ChromeTraceWriter * FS * outcome unit :=
  match events with
  | [] => (w, fs, Returned tt)
  | event :: events' =>
      match write_event w fs event with
      | (w, fs, Raised e) => (w, fs, Raised e)
      | (w, fs, Returned _) => write_events w fs events'
      end
  end.

Definition write_metadata (env : Env) (w : ChromeTraceWriter) (fs : FS)
    (name : string) (args : Dict) (process_id : option Z)
  : ChromeTraceWriter * FS * outcome unit :=
  let metadata_event :=
    TraceEvent_init env name METADATA None None process_id (Some 0)
      "default" (Some args) None in
  write_event w fs metadata_event.

(* ===================================================================== *)
(** * tracer.py                                                           *)
(* ===================================================================== *)

Record Tracer : Type := {
  output_file : string;
  enabled : bool;
  _writer : option ChromeTraceWriter;
  _active_spans : gmap string TraceEvent;
  _async_events : gmap string TraceEvent;
  _async_thread_ids : gmap string Z
}.

Definition Tracer_init (output_file : string) (enabled : bool) : Tracer :=
  {| output_file := output_file; enabled := enabled; _writer := None;
     _active_spans := ∅; _async_events := ∅; _async_thread_ids := ∅ |}.

Definition set_writer (t : Tracer) (w : option ChromeTraceWriter) : Tracer :=
  {| output_file := output_file t; enabled := enabled t; _writer := w;
     _active_spans := _active_spans t; _async_events := _async_events t;
     _async_thread_ids := _async_thread_ids t |}.

Definition set_active_spans (t : Tracer) (m : gmap string TraceEvent) : Tracer :=
  {| output_file := output_file t; enabled := enabled t; _writer := _writer t;
     _active_spans := m; _async_events := _async_events t;
     _async_thread_ids := _async_thread_ids t |}.

Definition set_async_events (t : Tracer) (m : gmap string TraceEvent) : Tracer :=
  {| output_file := output_file t; enabled := enabled t; _writer := _writer t;
     _active_spans := _active_spans t; _async_events := m;
     _async_thread_ids := _async_thread_ids t |}.

Definition set_async_thread_ids (t : Tracer) (m : gmap string Z) : Tracer :=
  {| output_file := output_file t; enabled := enabled t; _writer := _writer t;
     _active_spans := _active_spans t; _async_events := _async_events t;
     _async_thread_ids := m |}.

Definition start (env : Env) (t : Tracer) (fs : FS) : Tracer * FS * outcome unit :=
  if negb (enabled t) then (t, fs, Returned tt)
  else
    match _writer t with
    | None =>
        let w := ChromeTraceWriter_init (output_file t) true in
        let '(w, fs) := open w fs in
        let '(w, fs, r) :=
          write_metadata env w fs "process_name"
            [("name"%string, VStr "Habitat Process")] (thread_ident env) in
        (set_writer t (Some w), fs, r)
    | Some _ => (t, fs, Returned tt)
    end.

Definition stop (t : Tracer) (fs : FS) : Tracer * FS :=
  if negb (enabled t) then (t, fs)
  else
    match _writer t with
    | Some w =>
        let '(_, fs) := close w fs in
        (set_writer t None, fs)
    | None => (t, fs)
    end.

Definition _write_event (t : Tracer) (fs : FS) (event : TraceEvent)
  : Tracer * FS * outcome unit :=
  match enabled t, _writer t with
  | true, Some w =>
      let '(w, fs, r) := write_event w fs event in
      (set_writer t (Some w), fs, r)
  | _, _ => (t, fs, Returned tt)
  end.

Definition metadata (env : Env) (t : Tracer) (fs : FS) (name : string)
    (args : Dict) (process_id : option Z) : Tracer * FS * outcome unit :=
  match enabled t, _writer t with
  | true, Some w =>
      let process_id :=
        match process_id with
        | None => or_0 (thread_ident env)
        | Some p => p
        end in
      let '(w, fs, r) := write_metadata env w fs name args (Some process_id) in
      (set_writer t (Some w), fs, r)
  | _, _ => (t, fs, Returned tt)
  end.

(** The lane of an async id, as computed on a miss of the cache. *)
Definition async_lane (async_id : string) : Z :=
  let thread_id := md5_int async_id in
  0x20000000 + (thread_id mod 0x10000000).

Definition _get_async_thread_id (t : Tracer) (async_id : string) : Tracer * Z :=
  match _async_thread_ids t !! async_id with
  | None =>
      (set_async_thread_ids t (<[async_id := async_lane async_id]> (_async_thread_ids t)),
       async_lane async_id)
  | Some lane => (t, lane)
  end.

Definition instant (env : Env) (t : Tracer) (fs : FS) (name category : string)
    (args : option Dict) : Tracer * FS * outcome unit :=
  let event :=
    TraceEvent_init env name INSTANT None None None None category args None in
  _write_event t fs event.

Definition counter (env : Env) (t : Tracer) (fs : FS) (name : string)
    (value : Value) (category : string) : Tracer * FS * outcome unit :=
  let event :=
    TraceEvent_init env name COUNTER None None None None category
      (Some [("value"%string, value)]) None in
  _write_event t fs event.

(** The context manager [span] around the caller's [body].  [enter] is the
    environment when the scope is entered, [exit] the one when the [finally]
    block runs.  An exception of the [finally] block replaces the one of
    the body. *)
Definition span {A : Type} (enter exit : Env) (t : Tracer) (fs : FS)
    (name category : string) (args : option Dict)
    (body : Tracer -> FS -> Tracer * FS * outcome A)
  : Tracer * FS * outcome A :=
  let start_time := now enter in
  let '(t, fs, result) := body t fs in
  let end_time := now exit in
  let duration := (end_time - start_time)%Q in
  let event :=
    TraceEvent_init exit name COMPLETE (Some start_time) (Some duration)
      None None category args None in
  match _write_event t fs event with
  | (t, fs, Raised e) => (t, fs, Raised e)
  | (t, fs, Returned _) => (t, fs, result)
  end.

Definition begin_span (env : Env) (t : Tracer) (fs : FS) (name category : string)
    (args : option Dict) : Tracer * FS * outcome string :=
  let span_id := uuid4 env in
  let begin_event :=
    TraceEvent_init env name DURATION_BEGIN None None None None category args None in
  let t := set_active_spans t (<[span_id := begin_event]> (_active_spans t)) in
  match _write_event t fs begin_event with
  | (t, fs, Raised e) => (t, fs, Raised e)
  | (t, fs, Returned _) => (t, fs, Returned span_id)
  end.

Definition end_span (env : Env) (t : Tracer) (fs : FS) (span_id : string)
    (args : option Dict) : Tracer * FS * outcome unit :=
  let begin_event := _active_spans t !! span_id in
  let t := set_active_spans t (delete span_id (_active_spans t)) in
  match begin_event with
  | None => (t, fs, Returned tt)
  | Some begin_event =>
      let end_event :=
        TraceEvent_init env (name begin_event) DURATION_END None None None None
          (category begin_event) args None in
      _write_event t fs end_event
  end.

Definition async_begin (env : Env) (t : Tracer) (fs : FS) (name : string)
    (async_id : option string) (category : string) (args : option Dict)
  : Tracer * FS * outcome string :=
  let async_id :=
    match async_id with None => uuid4 env | Some i => i end in
  let '(t, thread_id) := _get_async_thread_id t async_id in
  let event :=
    TraceEvent_init env name ASYNC_START None None None (Some thread_id)
      category args (Some async_id) in
  let t := set_async_events t (<[async_id := event]> (_async_events t)) in
  match _write_event t fs event with
  | (t, fs, Raised e) => (t, fs, Raised e)
  | (t, fs, Returned _) => (t, fs, Returned async_id)
  end.

Definition async_instant (env : Env) (t : Tracer) (fs : FS) (async_id name : string)
    (category : string) (args : option Dict) : Tracer * FS * outcome unit :=
  let '(t, thread_id) := _get_async_thread_id t async_id in
  let event :=
    TraceEvent_init env name ASYNC_INSTANT None None None (Some thread_id)
      category args (Some async_id) in
  _write_event t fs event.

Definition async_end (env : Env) (t : Tracer) (fs : FS) (async_id : string)
    (args : option Dict) : Tracer * FS * outcome unit :=
  let begin_event := _async_events t !! async_id in
  let t := set_async_events t (delete async_id (_async_events t)) in
  let cached := _async_thread_ids t !! async_id in
  match begin_event with
  | None => (t, fs, Returned tt)
  | Some begin_event =>
      let lane :=
        match cached with
        | None => thread_id begin_event
        | Some lane => lane
        end in
      let event :=
        TraceEvent_init env (name begin_event) ASYNC_END None None None
          (Some lane) (category begin_event) args (Some async_id) in
      match _write_event t fs event with
      | (t, fs, Raised e) => (t, fs, Raised e)
      | (t, fs, Returned _) =>
          (set_async_thread_ids t (delete async_id (_async_thread_ids t)), fs,
           Returned tt)
      end
  end.

(* ===================================================================== *)
(** * The with statement, writer.py and tracer.py                         *)
(* ===================================================================== *)

(** [with ChromeTraceWriter(...) as writer: body]: [__enter__] opens,
    [__exit__] closes and returns [None], so that an exception of the body
    goes on to the caller. *)
Definition with_ChromeTraceWriter {A : Type} (w : ChromeTraceWriter) (fs : FS)
    (body : ChromeTraceWriter -> FS -> ChromeTraceWriter * FS * outcome A)
  : ChromeTraceWriter * FS * outcome A :=
  let '(w, fs) := open w fs in
  let '(w, fs, result) := body w fs in
  let '(w, fs) := close w fs in
  (w, fs, result).

(** [with tracer: body]: [__enter__] is [start()], [__exit__] is [stop()].
    When [__enter__] raises the body does not run. *)
Definition with_Tracer {A : Type} (env : Env) (t : Tracer) (fs : FS)
    (body : Tracer -> FS -> Tracer * FS * outcome A)
  : Tracer * FS * outcome A :=
  match start env t fs with
  | (t, fs, Raised e) => (t, fs, Raised e)
  | (t, fs, Returned _) =>
      let '(t, fs, result) := body t fs in
      let '(t, fs) := stop t fs in
      (t, fs, result)
  end.

(* ===================================================================== *)
(** * The global tracer and the decorators, tracer.py and __init__.py     *)
(* ===================================================================== *)

(** The state of the host program: its tracer objects, by address; the
    module variable [_global_tracer] of [tracer.py]; the variable of the
    same name that [__init__.py] defines for itself; and the files. *)
Record World : Type := {
  objects : nat -> Tracer;
  tracer_global_tracer : option nat;
  package_global_tracer : option nat;
  files : FS
}.

(** [get_global_tracer] and [set_global_tracer] of [tracer.py]. *)
Definition get_global_tracer (w : World) : option nat := tracer_global_tracer w.

Definition set_global_tracer (tracer : option nat) (w : World) : World :=
  {| objects := objects w; tracer_global_tracer := tracer;
     package_global_tracer := package_global_tracer w; files := files w |}.

(** The functions of the same names in [__init__.py]. *)
Definition package_get_global_tracer (w : World) : option nat :=
  package_global_tracer w.

Definition package_set_global_tracer (tracer : option nat) (w : World) : World :=
  {| objects := objects w; tracer_global_tracer := tracer_global_tracer w;
     package_global_tracer := tracer; files := files w |}.

(** A method call on the tracer object at address [a]. *)
Definition at_tracer {B : Type} (a : nat)
    (method : Tracer -> FS -> Tracer * FS * outcome B) (w : World)
  : World * outcome B :=
  let '(t, fs, r) := method (objects w a) (files w) in
  ({| objects := fun b => if Nat.eqb b a then t else objects w b;
      tracer_global_tracer := tracer_global_tracer w;
      package_global_tracer := package_global_tracer w;
      files := fs |}, r).

(** [name or func.__name__]: [None] and the empty string give the name of
    the function. *)
Definition name_or (name : option string) (func_name : string) : string :=
  match name with
  | Some (String c s) => String c s
  | _ => func_name
  end.

(** The wrapper that [trace_function(name, category, args)] puts around
    [func].  [func] is whatever the host function does to the world. *)
Definition trace_function {A : Type} (name : option string) (category : string)
    (args : option Dict) (func_name : string)
    (func : World -> World * outcome A) (enter exit : Env) (w : World)
  : World * outcome A :=
  let trace_name := name_or name func_name in
  match get_global_tracer w with
  | None => func w
  | Some tracer =>
      if negb (enabled (objects w tracer)) then func w
      else
        (* with tracer.span(trace_name, category, args): return func(...) *)
        let start_time := now enter in
        let '(w, result) := func w in
        let end_time := now exit in
        let duration := (end_time - start_time)%Q in
        let event :=
          TraceEvent_init exit trace_name COMPLETE (Some start_time)
            (Some duration) None None category args None in
        match at_tracer tracer (fun t fs => _write_event t fs event) w with
        | (w, Raised e) => (w, Raised e)
        | (w, Returned _) => (w, result)
        end
  end.

(** The wrapper of [trace_async_function].  Awaiting [func] is running it:
    what other tasks do meanwhile is part of what [func] does to the world. *)
Definition trace_async_function {A : Type} (name : option string)
    (category : string) (args : option Dict) (func_name : string)
    (func : World -> World * outcome A) (enter exit : Env) (w : World)
  : World * outcome A :=
  let trace_name := name_or name func_name in
  match get_global_tracer w with
  | None => func w
  | Some tracer =>
      if negb (enabled (objects w tracer)) then func w
      else
        match at_tracer tracer
                (fun t fs => async_begin enter t fs trace_name None category args)
                w with
        | (w, Raised e) => (w, Raised e)
        | (w, Returned async_id) =>
            let '(w, result) := func w in
            match at_tracer tracer
                    (fun t fs => async_end exit t fs async_id None) w with
            | (w, Raised e) => (w, Raised e)
            | (w, Returned _) => (w, result)
            end
        end
  end.

(* ===================================================================== *)
(** * components/deps_env.py                                              *)
(* ===================================================================== *)

(** [str.lower()] on code points below 256. *)
Definition lower_char (c : ascii) : ascii :=
  let n := code c in
  if ((65 <=? n) && (n <=? 90))
     || ((192 <=? n) && (n <=? 222) && negb (n =? 215))
  then chr (n + 32) else c.

Fixpoint lower (s : string) : string :=
  match s with
  | EmptyString => EmptyString
  | String c s' => String (lower_char c) (lower s')
  end.

(** What [platform.system()] and [platform.machine()] return. *)
Record Platform : Type := {
  platform_system : string;
  platform_machine : string
}.

(** [DepsEnvBuild.init_deps_env()], on the class attribute [_depsEnv]. *)
Definition init_deps_env (p : Platform) (_depsEnv : option Dict) : option Dict :=
  match _depsEnv with
  | None =>
      let system := lower (platform_system p) in
      let machine := lower (platform_machine p) in
      let machine := if String.eqb machine "amd64" then "x86_64"%string else machine in
      Some [("system"%string, VStr system); ("machine"%string, VStr machine)]
  | Some _ => _depsEnv
  end.

(** [d.update(custom)]. *)
Definition dict_update (d custom : Dict) : Dict :=
  fold_left (fun d kv => match kv with (key, value) => dict_set key value d end)
    custom d.

(** [DepsEnvBuild.get_deps_env(custom)]: the attribute afterwards, and the
    result.  The deep copy of a dict of strings is that dict. *)
Definition get_deps_env (p : Platform) (_depsEnv : option Dict) (custom : Dict)
  : option Dict * outcome Dict :=
  let _depsEnv := init_deps_env p _depsEnv in
  match _depsEnv with
  | Some deps_env_copy => (_depsEnv, Returned (dict_update deps_env_copy custom))
  | None => (_depsEnv, Raised (HostError "AttributeError"))
  end.

(* ===================================================================== *)
(** * Vocabulary of the properties                                      *)
(* ===================================================================== *)

(** The separator that [write_event] puts before an event. *)
Definition separator (first_event : bool) : string :=
  if first_event then EmptyString else "," +:+ nl.

(** What the sink receives for the events whose serialized forms are
    [jsons], the first of them being written with the flag [first_event]. *)
Fixpoint events_text (first_event : bool) (jsons : list string) : string :=
  match jsons with
  | [] => EmptyString
  | j :: jsons' =>
      separator first_event +:+ "  " +:+ j +:+ events_text false jsons'
  end.

(** [sep.join(parts)]. *)
Fixpoint join (sep : string) (parts : list string) : string :=
  match parts with
  | [] => EmptyString
  | [p] => p
  | p :: parts' => p +:+ sep +:+ join sep parts'
  end.

(** The text of an array of [jsons]: the opening token, the elements with a
    comma between two neighbours, the closing token. *)
Definition array_text (jsons : list string) : string :=
  ("[" +:+ nl) +:+ join ("," +:+ nl) (List.map (String.append "  ") jsons)
  +:+ (nl +:+ "]" +:+ nl).

Definition serialized (e : TraceEvent) (js : string) : Prop :=
  json_dumps (VDict (to_dict e)) = Returned js.

(** Induction on values, the items of containers included. *)
Section Value_induction.
Variable P : Value -> Prop.
Hypothesis HNone : P VNone.
Hypothesis HBool : forall b, P (VBool b).
Hypothesis HInt : forall n, P (VInt n).
Hypothesis HFloat : forall r, P (VFloat r).
Hypothesis HStr : forall s, P (VStr s).
Hypothesis HPath : forall p, P (VPath p).
Hypothesis HDict : forall d, Forall (fun kv => P kv.2) d -> P (VDict d).
Hypothesis HList : forall l, Forall P l -> P (VList l).
Hypothesis HTuple : forall l, Forall P l -> P (VTuple l).
Hypothesis HObject : forall t, P (VObject t).

Fixpoint Value_nested_ind (v : Value) : P v :=
  match v with
  | VNone => HNone
  | VBool b => HBool b
  | VInt n => HInt n
  | VFloat r => HFloat r
  | VStr s => HStr s
  | VPath p => HPath p
  | VDict d =>
      HDict d
        ((fix go (d : Dict) : Forall (fun kv => P kv.2) d :=
            match d with
            | [] => List.Forall_nil _
            | (k, x) :: d' =>
                List.Forall_cons (fun kv => P kv.2) (k, x) d' (Value_nested_ind x) (go d')
            end) d)
  | VList l =>
      HList l
        ((fix go (l : list Value) : Forall P l :=
            match l with
            | [] => List.Forall_nil _
            | x :: l' => List.Forall_cons P x l' (Value_nested_ind x) (go l')
            end) l)
  | VTuple l =>
      HTuple l
        ((fix go (l : list Value) : Forall P l :=
            match l with
            | [] => List.Forall_nil _
            | x :: l' => List.Forall_cons P x l' (Value_nested_ind x) (go l')
            end) l)
  | VObject t => HObject t
  end.
End Value_induction.

(** The values the JSON encoder accepts: no path and no foreign object, at
    any depth. *)
Fixpoint json_ok (v : Value) : bool :=
  match v with
  | VPath _ | VObject _ => false
  | VDict d => forallb (fun kv => json_ok kv.2) d
  | VList l | VTuple l => forallb json_ok l
  | _ => true
  end.

(** A value the encoder has no encoding for. *)
Definition unencodable (v : Value) : Prop :=
  match v with
  | VPath _ | VObject _ => True
  | _ => False
  end.

(** What [json_dumps] does on a value, by [json_ok]. *)
Definition dumps_spec (v : Value) : Prop :=
  (json_ok v = true -> exists s, json_dumps v = Returned s)
  /\ (json_ok v = false ->
      exists bad, unencodable bad /\ json_dumps v = Raised (not_serializable bad)).

(** The arguments of a call serialize: after [_serialize_args] they hold
    nothing the encoder refuses.  [None] and the empty dict always do. *)
Definition args_ok (args : option Dict) : bool :=
  match args with
  | Some d => json_ok (VDict (_serialize_args d))
  | None => true
  end.

(** Sanitization as the specification words it: the same rules for every element
    of a sequence and every value of a map, at any depth. *)
Fixpoint sanitize_deep (v : Value) : Value :=
  match v with
  | VPath p => VStr p
  | VDict d =>
      VDict (fold_left
               (fun serialized kv =>
                  match kv with
                  | (key, x) => dict_set key (sanitize_deep x) serialized
                  end) d [])
  | VList l => VList (List.map sanitize_deep l)
  | VTuple l => VList (List.map sanitize_deep l)
  | _ => v
  end.

Definition is_container (v : Value) : bool :=
  match v with
  | VDict _ | VList _ | VTuple _ => true
  | _ => false
  end.

(** No list or tuple of [v], at any depth of maps, has a container among
    its items. *)
Fixpoint flat_sequences (v : Value) : bool :=
  match v with
  | VDict d => forallb (fun kv => flat_sequences kv.2) d
  | VList l | VTuple l => forallb (fun item => negb (is_container item)) l
  | _ => true
  end.

(** The lane cache holds, for an id, the lane computed from that id. *)
Definition lanes_ok (t : Tracer) : Prop :=
  forall id lane, _async_thread_ids t !! id = Some lane -> lane = async_lane id.

(** The dicts of [v], at any depth, have pairwise distinct keys, as every
    Python dict has. *)
Fixpoint distinct_keys (v : Value) : bool :=
  match v with
  | VDict d =>
      bool_decide (NoDup (List.map fst d))
      && forallb (fun kv => distinct_keys kv.2) d
  | VList l | VTuple l => forallb distinct_keys l
  | _ => true
  end.


(** The recording calls of a session, as a host program issues them; the
    value a call returns is dropped. *)
Inductive Call : Type :=
| Instant (name category : string) (args : option Dict)
| Counter (name : string) (value : Value) (category : string)
| Metadata (name : string) (args : Dict) (process_id : option Z)
| BeginSpan (name category : string) (args : option Dict)
| EndSpan (span_id : string) (args : option Dict)
| AsyncBegin (name : string) (async_id : option string) (category : string)
    (args : option Dict)
| AsyncInstant (async_id name category : string) (args : option Dict)
| AsyncEnd (async_id : string) (args : option Dict).

Definition drop_value {B : Type} (r : Tracer * FS * outcome B)
  : Tracer * FS * outcome unit :=
  match r with
  | (t, fs, Raised e) => (t, fs, Raised e)
  | (t, fs, Returned _) => (t, fs, Returned tt)
  end.

Definition call (env : Env) (c : Call) (t : Tracer) (fs : FS)
  : Tracer * FS * outcome unit :=
  match c with
  | Instant nm cat a => instant env t fs nm cat a
  | Counter nm v cat => counter env t fs nm v cat
  | Metadata nm d pid => metadata env t fs nm d pid
  | BeginSpan nm cat a => drop_value (begin_span env t fs nm cat a)
  | EndSpan tok a => end_span env t fs tok a
  | AsyncBegin nm i cat a => drop_value (async_begin env t fs nm i cat a)
  | AsyncInstant i nm cat a => async_instant env t fs i nm cat a
  | AsyncEnd i a => async_end env t fs i a
  end.

(** The calls one after the other, each in its own environment, up to the
    first one that raises. *)
Fixpoint run (calls : list (Env * Call)) (t : Tracer) (fs : FS)
  : Tracer * FS * outcome unit :=
  match calls with
  | [] => (t, fs, Returned tt)
  | (env, c) :: calls' =>
      match call env c t fs with
      | (t, fs, Raised e) => (t, fs, Raised e)
      | (t, fs, Returned _) => run calls' t fs
      end
  end.

(** The tracer records into the file [f], which so far holds the opening
    token and the events [jsons]. *)
Definition recording (t : Tracer) (fs : FS) (f : string) (jsons : list string)
  : Prop :=
  enabled t = true
  /\ exists w,
       _writer t = Some w /\ _file w = Some f
       /\ _first_event w = match jsons with [] => true | _ => false end
       /\ fs !! f = Some (("[" +:+ nl) +:+ events_text true jsons).

(** The metadata event that [start] writes. *)
Definition process_name_event (env : Env) : TraceEvent :=
  TraceEvent_init env "process_name" METADATA None None (thread_ident env)
    (Some 0) "default" (Some [("name"%string, VStr "Habitat Process")]) None.

(** The events that a call hands to the writer of the tracer [t]: one, or
    none for an [end_span] or [async_end] whose token or id is not
    registered. *)
Definition call_events (env : Env) (c : Call) (t : Tracer) : list TraceEvent :=
  match c with
  | Instant nm cat a =>
      [TraceEvent_init env nm INSTANT None None None None cat a None]
  | Counter nm v cat =>
      [TraceEvent_init env nm COUNTER None None None None cat
         (Some [("value"%string, v)]) None]
  | Metadata nm d pid =>
      [TraceEvent_init env nm METADATA None None
         (Some (match pid with
                | None => or_0 (thread_ident env)
                | Some p => p
                end)) (Some 0) "default" (Some d) None]
  | BeginSpan nm cat a =>
      [TraceEvent_init env nm DURATION_BEGIN None None None None cat a None]
  | EndSpan tok a =>
      match _active_spans t !! tok with
      | None => []
      | Some B =>
          [TraceEvent_init env (name B) DURATION_END None None None None
             (category B) a None]
      end
  | AsyncBegin nm i cat a =>
      let id := match i with None => uuid4 env | Some j => j end in
      [TraceEvent_init env nm ASYNC_START None None None
         (Some (_get_async_thread_id t id).2) cat a (Some id)]
  | AsyncInstant i nm cat a =>
      [TraceEvent_init env nm ASYNC_INSTANT None None None
         (Some (_get_async_thread_id t i).2) cat a (Some i)]
  | AsyncEnd i a =>
      match _async_events t !! i with
      | None => []
      | Some B =>
          [TraceEvent_init env (name B) ASYNC_END None None None
             (Some (match _async_thread_ids t !! i with
                    | None => thread_id B
                    | Some lane => lane
                    end)) (category B) a (Some i)]
      end
  end.

(** The events of a sequence of calls, each on the tracer as the calls
    before it left it. *)
Fixpoint run_events (calls : list (Env * Call)) (t : Tracer) (fs : FS)
  : list TraceEvent :=
  match calls with
  | [] => []
  | (env, c) :: calls' =>
      call_events env c t
      ++ run_events calls' (call env c t fs).1.1 (call env c t fs).1.2
  end.


(** A sequence of [get_deps_env] calls, each with the platform as it then
    is and its own [custom]: the attribute at the end and the results. *)
Fixpoint deps_env_calls (calls : list (Platform * Dict)) (_depsEnv : option Dict)
  : option Dict * list (outcome Dict) :=
  match calls with
  | [] => (_depsEnv, [])
  | (p, custom) :: calls' =>
      let '(_depsEnv, r) := get_deps_env p _depsEnv custom in
      let '(_depsEnv, rs) := deps_env_calls calls' _depsEnv in
      (_depsEnv, r :: rs)
  end.

(* ===================================================================== *)
(** * Concrete environments, states and inputs                          *)
(* ===================================================================== *)

Definition an_env : Env :=
  {| now := 1500000 # 1; thread_ident := Some 4242; current_task := NoTask;
     uuid4 := "7d9f0c1e-0000-4000-8000-000000000001" |}.

Definition three_events : list TraceEvent :=
  [TraceEvent_init an_env "event1" INSTANT None None None None "default" None None;
   TraceEvent_init an_env "event2" INSTANT None None None None "default"
     (Some [("path"%string, VPath "/tmp/x")]) None;
   TraceEvent_init an_env "event3" INSTANT None None None None "default" None None].

Definition a_writer : ChromeTraceWriter := ChromeTraceWriter_init "trace.json" true.

(** A sink that holds an older trace before [open()]. *)
Definition stale_fs : FS := {[ "trace.json"%string := "stale"%string ]}.

(** A writer that is open and has written three events. *)
Definition a_written_writer : ChromeTraceWriter :=
  (write_events (open a_writer stale_fs).1 (open a_writer stale_fs).2
     three_events).1.1.

Definition a_written_fs : FS :=
  (write_events (open a_writer stale_fs).1 (open a_writer stale_fs).2
     three_events).1.2.

(** An open writer on an empty file system. *)
Definition an_open_writer : ChromeTraceWriter := (open a_writer ∅).1.
Definition an_open_fs : FS := (open a_writer ∅).2.

(** An event whose only argument, under [key], is a plain [object()]. *)
Definition event_with_object (key : string) : TraceEvent :=
  TraceEvent_init an_env "load" INSTANT None None None None "default"
    (Some [(key, VObject "object")]) None.

Definition nested_args : Dict :=
  [("files"%string,
    VList [VPath "top.txt"; VList [VPath "a.txt"];
           VDict [("p"%string, VPath "b.txt")]])].

Definition flat_args : Dict :=
  [("out"%string, VPath "/tmp/out");
   ("deps"%string, VDict [("roots"%string, VTuple [VPath "a"; VInt 1; VStr "b"])])].

(** A tracer started on an empty file system, and a second environment:
    another thread, inside an asyncio task. *)
Definition a_started_tracer : Tracer :=
  (start an_env (Tracer_init "trace.json" true) ∅).1.1.
Definition a_started_fs : FS :=
  (start an_env (Tracer_init "trace.json" true) ∅).1.2.
Definition a_started_writer : ChromeTraceWriter :=
  {| filepath := "trace.json"; auto_flush := true;
     _file := Some "trace.json"%string; _first_event := false |}.

Definition another_env : Env :=
  {| now := 2750000 # 1; thread_ident := Some 5151;
     current_task := RunningTask 140234561111111;
     uuid4 := "7d9f0c1e-0000-4000-8000-000000000002" |}.

(** An asyncio task whose object lies at the address 0x1F4A3B2C260, run by
    the thread 9284; and a plain thread, outside any task, whose identity
    422122828 (0x1929154C) falls in the range reserved for task lanes. *)
Definition a_task_env : Env :=
  {| now := 1500000 # 1; thread_ident := Some 9284;
     current_task := RunningTask 2150230049376;
     uuid4 := "7d9f0c1e-0000-4000-8000-000000000003" |}.

Definition a_low_thread_env : Env :=
  {| now := 1500000 # 1; thread_ident := Some 422122828;
     current_task := NoTask;
     uuid4 := "7d9f0c1e-0000-4000-8000-000000000004" |}.

(** Arguments that hold a plain [object()]. *)
Definition refused_args : Dict := [("handle"%string, VObject "object")].

(** A span begun on the started tracer, and the [end_span] that ends it,
    from another thread, with arguments that do not serialize. *)
Definition a_begun_span : Tracer * FS * outcome string :=
  begin_span an_env a_started_tracer a_started_fs "build" "deps" None.

Definition a_refused_end : Tracer * FS * outcome unit :=
  end_span another_env a_begun_span.1.1 a_begun_span.1.2 (uuid4 an_env)
    (Some refused_args).

(** A clock that goes back during the scope, and a body that raises. *)
Definition an_earlier_env : Env :=
  {| now := 1000000 # 1; thread_ident := Some 4242; current_task := NoTask;
     uuid4 := "7d9f0c1e-0000-4000-8000-000000000005" |}.

Definition a_failing_body (t : Tracer) (fs : FS) : Tracer * FS * outcome unit :=
  (t, fs, Raised (HostError "ValueError")).

Definition a_backdated_event : TraceEvent :=
  TraceEvent_init an_earlier_env "work" COMPLETE (Some (now an_env))
    (Some (now an_earlier_env - now an_env)%Q) None None "default" None None.

(** A whole session: start, an instant, a span around work that raises,
    another instant, stop.  The result is the trace file and the outcome of
    the span. *)
Definition a_session : option string * outcome unit :=
  let t := Tracer_init "trace.json" true in
  let '(t, fs, _) := start an_env t stale_fs in
  let '(t, fs, _) := instant an_env t fs "start" "default" None in
  let '(t, fs, r) :=
    span an_env another_env t fs "work" "default" (Some [("n"%string, VInt 3)])
      a_failing_body in
  let '(t, fs, _) := instant another_env t fs "end" "default" None in
  let '(t, fs) := stop t fs in
  (fs !! "trace.json"%string, r).

(** The events that the session is to leave in the file. *)
Definition a_session_events : list TraceEvent :=
  [TraceEvent_init an_env "process_name" METADATA None None (Some 4242) (Some 0)
     "default" (Some [("name"%string, VStr "Habitat Process")]) None;
   TraceEvent_init an_env "start" INSTANT None None None None "default" None None;
   TraceEvent_init another_env "work" COMPLETE (Some (1500000 # 1))
     (Some (1250000 # 1)) None None "default" (Some [("n"%string, VInt 3)]) None;
   TraceEvent_init another_env "end" INSTANT None None None None "default" None None].

(** The serialized form of an event that has one. *)
Definition event_json (e : TraceEvent) : string :=
  match json_dumps (VDict (to_dict e)) with
  | Returned js => js
  | Raised _ => EmptyString
  end.

(** Arguments that serialize as they are. *)
Definition plain_args : Dict :=
  [("n"%string, VInt 3);
   ("deps"%string, VDict [("roots"%string, VTuple [VStr "a"; VInt 1]);
                          ("ok"%string, VBool true)]);
   ("tags"%string, VList [VList [VStr "x"]; VNone])].

(** Two sessions: one with a call whose arguments do not serialize, one
    whose calls all return on a started tracer. *)
Definition some_calls : list (Env * Call) :=
  [(an_env, Instant "start" "default" None);
   (an_env, BeginSpan "build" "deps" (Some [("handle"%string, VObject "object")]));
   (another_env, AsyncBegin "fetch" (Some "op-1"%string) "net" None);
   (another_env, Counter "queue" (VInt 7) "default");
   (an_env, AsyncEnd "op-1" None);
   (an_env, EndSpan "no-such-token" None)].

Definition good_calls : list (Env * Call) :=
  [(an_env, Instant "start" "default" None);
   (an_env, BeginSpan "build" "deps" (Some [("out"%string, VPath "/tmp/out")]));
   (another_env, AsyncBegin "fetch" (Some "op-1"%string) "net" None);
   (another_env, Counter "queue" (VInt 7) "default");
   (an_env, AsyncEnd "op-1" None);
   (an_env, EndSpan "no-such-token" None);
   (another_env, EndSpan (uuid4 an_env) None)].

(** A world whose tracer objects are all the started tracer, with no global
    tracer set. *)
Definition a_world : World :=
  {| objects := fun _ => a_started_tracer;
     tracer_global_tracer := None;
     package_global_tracer := None;
     files := a_started_fs |}.

(** A host function that returns a value and leaves the world alone, and
    one that raises. *)
Definition a_function (w : World) : World * outcome Z := (w, Returned 42).

Definition a_failing_function (w : World) : World * outcome Z :=
  (w, Raised (HostError "ValueError")).

Definition a_traced_world : World := set_global_tracer (Some 0%nat) a_world.

(** What Windows on a 64-bit PC reports. *)
Definition a_windows_platform : Platform :=
  {| platform_system := "Windows"; platform_machine := "AMD64" |}.

(* ===================================================================== *)
(** * The model on concrete inputs                                      *)
(* ===================================================================== *)

Example md5_empty : MD5.hexdigest (encode "") = "d41d8cd98f00b204e9800998ecf8427e"%string.
Proof. vm_compute. reflexivity. Qed.

Example md5_abc : MD5.hexdigest (encode "abc") = "900150983cd24fb0d6963f7d28e17f72"%string.
Proof. vm_compute. reflexivity. Qed.

Example md5_two_chunks :
  MD5.hexdigest (encode "xxxxxxxxxxxxxxxxxxxxxxxxxxxxxxxxxxxxxxxxxxxxxxxxxxxxxxxxxxxxxxxxxxxxxx")
  = "7d56c0f83fd1e320d60ea2f13dfdeedd"%string.
Proof. vm_compute. reflexivity. Qed.

Example md5_int_1 : md5_int "1" = 3301589560.
Proof. vm_compute. reflexivity. Qed.

Example dumps_event :
  json_dumps (VDict (to_dict (TraceEvent_init an_env "work" COMPLETE
      (Some (1000000 # 1)) (Some (1001 # 2)) None None "default"
      (Some [("n"%string, VInt 3); ("p"%string, VPath "/tmp/a");
             ("l"%string, VTuple [VPath "b"; VBool true; VNone])]) None)))
  = Returned ("{" +:+ json_string "name" +:+ ":" +:+ json_string "work" +:+ ","
       +:+ json_string "ph" +:+ ":" +:+ json_string "X" +:+ ","
       +:+ json_string "ts" +:+ ":1000000,"
       +:+ json_string "pid" +:+ ":4242,"
       +:+ json_string "tid" +:+ ":4242,"
       +:+ json_string "cat" +:+ ":" +:+ json_string "default" +:+ ","
       +:+ json_string "dur" +:+ ":500,"
       +:+ json_string "args" +:+ ":{" +:+ json_string "n" +:+ ":3,"
       +:+ json_string "p" +:+ ":" +:+ json_string "/tmp/a" +:+ ","
       +:+ json_string "l" +:+ ":[" +:+ json_string "b" +:+ ",true,null]}}").
Proof. vm_compute. reflexivity. Qed.

Example session_trace :
  a_session
  = (Some (array_text (List.map event_json a_session_events)),
     Raised (HostError "ValueError"))
  /\ Forall (fun e => serialized e (event_json e)) a_session_events.
Proof.
  split; [vm_compute; reflexivity|].
  repeat constructor.
Qed.

(* ===================================================================== *)
(** * Strings and files                                                   *)
(* ===================================================================== *)

(** Splits off the leading conjuncts that hold by computation. *)
Ltac split_refl := repeat (split; [reflexivity|]).

Lemma append_cons (x : ascii) (a b : string) :
  String x a +:+ b = String x (a +:+ b).
Proof. reflexivity. Qed.

Lemma append_assoc (a b c : string) : (a +:+ b) +:+ c = a +:+ b +:+ c.
Proof.
  induction a as [|x a IH]; [reflexivity|].
  rewrite !append_cons. now rewrite IH.
Qed.

Lemma append_empty_r (a : string) : a +:+ EmptyString = a.
Proof.
  induction a as [|x a IH]; [reflexivity|].
  rewrite append_cons. now rewrite IH.
Qed.

Lemma file_write_lookup (f s : string) (fs : FS) :
  file_write f s fs !! f = Some (default EmptyString (fs !! f) +:+ s).
Proof. unfold file_write. apply lookup_insert_eq. Qed.

Lemma file_write_write (f a b : string) (fs : FS) :
  file_write f b (file_write f a fs) = file_write f (a +:+ b) fs.
Proof.
  unfold file_write. rewrite lookup_insert_eq. simpl.
  rewrite insert_insert_eq. now rewrite append_assoc.
Qed.

(* ===================================================================== *)
(** * The trace writer                                                    *)
(* ===================================================================== *)

Lemma events_text_false_join (jsons : list string) (j : string) :
  "  " +:+ j +:+ events_text false jsons
  = join ("," +:+ nl) (List.map (String.append "  ") (j :: jsons)).
Proof.
  revert j. induction jsons as [|k jsons IH]; intros j.
  - cbn [events_text List.map join]. now rewrite append_empty_r.
  - change (join ("," +:+ nl) (List.map (String.append "  ") (j :: k :: jsons)))
      with (("  " +:+ j) +:+ ("," +:+ nl) +:+
            join ("," +:+ nl) (List.map (String.append "  ") (k :: jsons))).
    rewrite <- IH. cbn [events_text]. unfold separator.
    rewrite !append_assoc. reflexivity.
Qed.

Lemma events_text_join (jsons : list string) :
  events_text true jsons = join ("," +:+ nl) (List.map (String.append "  ") jsons).
Proof.
  destruct jsons as [|j jsons]; [reflexivity|].
  rewrite <- events_text_false_join. reflexivity.
Qed.

Lemma write_event_closed (w : ChromeTraceWriter) (fs : FS) (e : TraceEvent) :
  _file w = None -> write_event w fs e = (w, fs, Raised not_open).
Proof. intros H. unfold write_event. now rewrite H. Qed.

(** A successful [write_event] appends the separator and the indented
    record, and clears the flag. *)
Lemma write_event_returned (w w' : ChromeTraceWriter) (fs fs' : FS)
    (e : TraceEvent) :
  write_event w fs e = (w', fs', Returned tt) ->
  exists f js,
    _file w = Some f /\ serialized e js /\
    fs' = file_write f (separator (_first_event w) +:+ "  " +:+ js) fs /\
    w' = {| filepath := filepath w; auto_flush := auto_flush w;
            _file := Some f; _first_event := false |}.
Proof.
  unfold write_event, serialized. destruct (_file w) as [f|] eqn:Hf; [|discriminate].
  destruct (json_dumps (VDict (to_dict e))) as [js|x] eqn:Hjs.
  - destruct (_first_event w) eqn:Hfe; cbn [negb]; intros H; inversion H; subst;
      exists f, js; unfold separator.
    + repeat split; reflexivity.
    + repeat split; try reflexivity.
      * now rewrite file_write_write.
      * destruct w'; simpl in *; subst; reflexivity.
  - destruct (negb (_first_event w)); intros H; inversion H.
Qed.

Lemma write_event_serialized (w : ChromeTraceWriter) (fs : FS) (e : TraceEvent)
    (f js : string) :
  _file w = Some f -> serialized e js ->
  write_event w fs e =
    ({| filepath := filepath w; auto_flush := auto_flush w;
        _file := Some f; _first_event := false |},
     file_write f (separator (_first_event w) +:+ "  " +:+ js) fs,
     Returned tt).
Proof.
  unfold write_event, serialized. intros Hf Hjs. rewrite Hf, Hjs.
  destruct (_first_event w) eqn:Hfe; simpl.
  - reflexivity.
  - rewrite file_write_write. destruct w; simpl in *; subst; reflexivity.
Qed.

Lemma write_events_returned (events : list TraceEvent) :
  forall (w w' : ChromeTraceWriter) (fs fs' : FS) (f content : string),
    _file w = Some f -> fs !! f = Some content ->
    write_events w fs events = (w', fs', Returned tt) ->
    exists jsons,
      Forall2 serialized events jsons /\
      _file w' = Some f /\
      fs' !! f = Some (content +:+ events_text (_first_event w) jsons) /\
      forall g, g <> f -> fs' !! g = fs !! g.
Proof.
  induction events as [|e events IH]; intros w w' fs fs' f content Hf Hc H.
  - simpl in H. inversion H; subst. exists []. repeat split; auto.
    simpl. now rewrite append_empty_r.
  - simpl in H.
    destruct (write_event w fs e) as [[w1 fs1] [[]|x]] eqn:Hw; [|discriminate].
    apply write_event_returned in Hw.
    destruct Hw as (f1 & js & Hf1 & Hjs & Hfs1 & Hw1).
    rewrite Hf in Hf1. inversion Hf1; subst f1.
    assert (Hc1 : fs1 !! f =
      Some (content +:+ separator (_first_event w) +:+ "  " +:+ js)).
    { rewrite Hfs1, file_write_lookup, Hc. reflexivity. }
    assert (Hf' : _file w1 = Some f) by (rewrite Hw1; reflexivity).
    destruct (IH _ _ _ _ _ _ Hf' Hc1 H) as (jsons & HF & Hfw & Hfs' & Hother).
    exists (js :: jsons). repeat split.
    + constructor; assumption.
    + assumption.
    + rewrite Hfs'. rewrite Hw1. simpl. rewrite !append_assoc. reflexivity.
    + intros g Hg. rewrite (Hother g Hg), Hfs1. unfold file_write.
      apply lookup_insert_ne. congruence.
Qed.

(** C1. On a writer that is not open, [open()], then [N] calls of
    [write_event] that all return, then [close()] leave in the sink the
    text of an array of exactly [N] elements, the serialized events in
    order: the opening token first, a comma before every event but the
    first, the closing token last. *)
Theorem open_write_close_array (w w1 w2 w3 : ChromeTraceWriter)
    (fs fs1 fs2 fs3 : FS) (events : list TraceEvent) :
  _file w = None ->
  open w fs = (w1, fs1) ->
  write_events w1 fs1 events = (w2, fs2, Returned tt) ->
  close w2 fs2 = (w3, fs3) ->
  exists jsons,
    Forall2 serialized events jsons /\
    length jsons = length events /\
    fs1 !! filepath w = Some ("[" +:+ nl) /\
    fs2 !! filepath w = Some (("[" +:+ nl) +:+ events_text true jsons) /\
    fs3 !! filepath w = Some (array_text jsons) /\
    _file w3 = None.
Proof.
  intros Hclosed Hopen Hwrite Hclose.
  unfold open in Hopen. rewrite Hclosed in Hopen. inversion Hopen; subst w1 fs1.
  clear Hopen.
  set (f := filepath w) in *.
  assert (Hc : file_write f ("[" +:+ nl) (<[f := EmptyString]> fs) !! f
               = Some ("[" +:+ nl)).
  { rewrite file_write_lookup, lookup_insert_eq. reflexivity. }
  eapply write_events_returned in Hwrite; [| reflexivity | exact Hc].
  destruct Hwrite as (jsons & HF & Hf2 & Hfs2 & _).
  cbn [_first_event] in Hfs2.
  unfold close in Hclose. rewrite Hf2 in Hclose. inversion Hclose; subst w3 fs3.
  exists jsons. repeat split; auto.
  - symmetry. eapply Forall2_length; eauto.
  - rewrite file_write_lookup, Hfs2. simpl default.
    unfold array_text. rewrite <- events_text_join.
    rewrite !append_assoc. reflexivity.
Qed.

Lemma open_write_close_array_witness :
  exists jsons,
    Forall2 serialized three_events jsons /\
    length jsons = length three_events /\
    (open a_writer stale_fs).2 !! filepath a_writer = Some ("[" +:+ nl) /\
    (write_events (open a_writer stale_fs).1 (open a_writer stale_fs).2
       three_events).1.2 !! filepath a_writer
    = Some (("[" +:+ nl) +:+ events_text true jsons) /\
    (close
       (write_events (open a_writer stale_fs).1 (open a_writer stale_fs).2
          three_events).1.1
       (write_events (open a_writer stale_fs).1 (open a_writer stale_fs).2
          three_events).1.2).2 !! filepath a_writer
    = Some (array_text jsons) /\
    _file
      (close
         (write_events (open a_writer stale_fs).1 (open a_writer stale_fs).2
            three_events).1.1
         (write_events (open a_writer stale_fs).1 (open a_writer stale_fs).2
            three_events).1.2).1 = None.
Proof.
  apply (open_write_close_array a_writer
           (open a_writer stale_fs).1
           (write_events (open a_writer stale_fs).1 (open a_writer stale_fs).2
              three_events).1.1
           (close
              (write_events (open a_writer stale_fs).1 (open a_writer stale_fs).2
                 three_events).1.1
              (write_events (open a_writer stale_fs).1 (open a_writer stale_fs).2
                 three_events).1.2).1
           stale_fs
           (open a_writer stale_fs).2
           (write_events (open a_writer stale_fs).1 (open a_writer stale_fs).2
              three_events).1.2
           (close
              (write_events (open a_writer stale_fs).1 (open a_writer stale_fs).2
                 three_events).1.1
              (write_events (open a_writer stale_fs).1 (open a_writer stale_fs).2
                 three_events).1.2).2
           three_events).
  - reflexivity.
  - reflexivity.
  - vm_compute. reflexivity.
  - reflexivity.
Defined.

(** C8. [write_event] on a writer that was never opened, or that was
    closed, raises the not-open error, appends nothing to the sink and
    leaves the writer, its first-event flag included, as it was. *)
Theorem write_event_not_open (filepath : string) (auto_flush : bool)
    (w : ChromeTraceWriter) (fs : FS) (e : TraceEvent) :
  write_event (ChromeTraceWriter_init filepath auto_flush) fs e
  = (ChromeTraceWriter_init filepath auto_flush, fs, Raised not_open)
  /\ write_event (close w fs).1 (close w fs).2 e
     = ((close w fs).1, (close w fs).2, Raised not_open).
Proof.
  split; [apply write_event_closed; reflexivity|].
  apply write_event_closed. unfold close.
  destruct (_file w) eqn:Hf; [reflexivity | exact Hf].
Qed.

(** C9. [open()] on a writer that is already open changes neither the
    writer nor the sink: no truncation, no second opening token, the
    first-event flag kept.  [close()] on a writer that is closed changes
    nothing either; in particular a second [close()] is a no-op. *)
Theorem open_close_idempotent (w : ChromeTraceWriter) (fs : FS) :
  (forall f, _file w = Some f -> open w fs = (w, fs))
  /\ (_file w = None -> close w fs = (w, fs))
  /\ open (open w fs).1 (open w fs).2 = open w fs
  /\ close (close w fs).1 (close w fs).2 = close w fs.
Proof.
  repeat split.
  - intros f Hf. unfold open. now rewrite Hf.
  - intros Hf. unfold close. now rewrite Hf.
  - unfold open. destruct (_file w) eqn:Hf; cbn [fst snd _file].
    + now rewrite Hf.
    + reflexivity.
  - unfold close. destruct (_file w) eqn:Hf; cbn [fst snd _file].
    + reflexivity.
    + now rewrite Hf.
Qed.

Lemma open_close_idempotent_witness :
  _first_event a_written_writer = false
  /\ open a_written_writer a_written_fs = (a_written_writer, a_written_fs)
  /\ close (close a_written_writer a_written_fs).1
       (close a_written_writer a_written_fs).2
     = close a_written_writer a_written_fs.
Proof.
  split; [reflexivity|]. split.
  - apply (proj1 (open_close_idempotent a_written_writer a_written_fs)
             "trace.json"%string).
    reflexivity.
  - apply (proj2 (proj2 (proj2
             (open_close_idempotent a_written_writer a_written_fs)))).
Defined.

(* ===================================================================== *)
(** * Serialization of argument values                                    *)
(* ===================================================================== *)

Lemma dumps_items_spec (l : list Value) :
  Forall dumps_spec l ->
  (forallb json_ok l = true -> exists s, dumps_items json_dumps l = Returned s)
  /\ (forallb json_ok l = false ->
      exists bad, unencodable bad
        /\ dumps_items json_dumps l = Raised (not_serializable bad)).
Proof.
  induction 1 as [|x l [Hok Hbad] _ [IHok IHbad]].
  - split; [eexists; reflexivity | discriminate].
  - cbn [forallb dumps_items]. fold (dumps_items json_dumps).
    destruct (json_ok x) eqn:Hx; cbn [andb].
    + destruct (Hok eq_refl) as [sx Hsx]. rewrite Hsx. split.
      * intros Hl. destruct (IHok Hl) as [sl Hsl]. rewrite Hsl.
        destruct l; eexists; reflexivity.
      * intros Hl. destruct (IHbad Hl) as (bad & Hu & Hr). rewrite Hr.
        destruct l; [discriminate|]. exists bad. split; [assumption | reflexivity].
    + split; [discriminate|]. intros _.
      destruct (Hbad eq_refl) as (bad & Hu & Hr). rewrite Hr.
      exists bad. split; [assumption | reflexivity].
Qed.

Lemma dumps_pairs_spec (d : Dict) :
  Forall (fun kv => dumps_spec kv.2) d ->
  (forallb (fun kv => json_ok kv.2) d = true ->
   exists s, dumps_pairs json_dumps d = Returned s)
  /\ (forallb (fun kv => json_ok kv.2) d = false ->
      exists bad, unencodable bad
        /\ dumps_pairs json_dumps d = Raised (not_serializable bad)).
Proof.
  induction 1 as [|[k x] d [Hok Hbad] _ [IHok IHbad]].
  - split; [eexists; reflexivity | discriminate].
  - cbn [forallb dumps_pairs snd]. fold (dumps_pairs json_dumps).
    cbn [snd] in Hok, Hbad.
    destruct (json_ok x) eqn:Hx; cbn [andb].
    + destruct (Hok eq_refl) as [sx Hsx]. rewrite Hsx. split.
      * intros Hd. destruct (IHok Hd) as [sd Hsd]. rewrite Hsd.
        destruct d; eexists; reflexivity.
      * intros Hd. destruct (IHbad Hd) as (bad & Hu & Hr). rewrite Hr.
        destruct d; [discriminate|]. exists bad. split; [assumption | reflexivity].
    + split; [discriminate|]. intros _.
      destruct (Hbad eq_refl) as (bad & Hu & Hr). rewrite Hr.
      exists bad. split; [assumption | reflexivity].
Qed.

Lemma json_dumps_spec (v : Value) : dumps_spec v.
Proof.
  induction v as [| b | n | r | s | p | d IH | l IH | l IH | t]
    using Value_nested_ind; unfold dumps_spec.
  - split; [eexists; reflexivity | discriminate].
  - split; [destruct b; eexists; reflexivity | discriminate].
  - split; [eexists; reflexivity | discriminate].
  - split; [eexists; reflexivity | discriminate].
  - split; [eexists; reflexivity | discriminate].
  - split; [discriminate|]. intros _. exists (VPath p). split; [exact I | reflexivity].
  - destruct (dumps_pairs_spec d IH) as [Hok Hbad]. cbn [json_ok json_dumps]. split.
    + intros H. destruct (Hok H) as [s Hs]. rewrite Hs. eexists; reflexivity.
    + intros H. destruct (Hbad H) as (bad & Hu & Hr). rewrite Hr.
      exists bad. split; [assumption | reflexivity].
  - destruct (dumps_items_spec l IH) as [Hok Hbad]. cbn [json_ok json_dumps]. split.
    + intros H. destruct (Hok H) as [s Hs]. rewrite Hs. eexists; reflexivity.
    + intros H. destruct (Hbad H) as (bad & Hu & Hr). rewrite Hr.
      exists bad. split; [assumption | reflexivity].
  - destruct (dumps_items_spec l IH) as [Hok Hbad]. cbn [json_ok json_dumps]. split.
    + intros H. destruct (Hok H) as [s Hs]. rewrite Hs. eexists; reflexivity.
    + intros H. destruct (Hbad H) as (bad & Hu & Hr). rewrite Hr.
      exists bad. split; [assumption | reflexivity].
  - split; [discriminate|]. intros _. exists (VObject t). split; [exact I | reflexivity].
Qed.

Lemma to_dict_json_ok (e : TraceEvent) :
  json_ok (VDict (to_dict e)) = json_ok (VDict (_serialize_args (args e))).
Proof.
  destruct e as [nm ty ts dur pid tid cat ar aid]. unfold to_dict.
  cbn [name event_type timestamp duration process_id thread_id category args async_id].
  destruct ar as [|x ar]; [destruct dur, aid; reflexivity|].
  remember (_serialize_args (x :: ar)) as sargs.
  destruct dur, aid; cbn; rewrite ?andb_true_r; reflexivity.
Qed.

Lemma TraceEvent_init_args_ok env nm ty ts dur pid tid cat a aid :
  json_ok (VDict (_serialize_args
     (args (TraceEvent_init env nm ty ts dur pid tid cat a aid)))) = args_ok a.
Proof. destruct a as [[|x d]|]; reflexivity. Qed.

(** An event whose arguments serialize has a serialized form. *)
Lemma serialized_exists (e : TraceEvent) :
  json_ok (VDict (_serialize_args (args e))) = true -> exists js, serialized e js.
Proof.
  intros H. apply (proj1 (json_dumps_spec (VDict (to_dict e)))).
  now rewrite to_dict_json_ok.
Qed.

Lemma not_serialized (e : TraceEvent) :
  json_ok (VDict (_serialize_args (args e))) = false ->
  exists bad, unencodable bad
    /\ json_dumps (VDict (to_dict e)) = Raised (not_serializable bad).
Proof.
  intros H. apply (proj2 (json_dumps_spec (VDict (to_dict e)))).
  now rewrite to_dict_json_ok.
Qed.

(** The other fields of a record always encode: the encoder fails on an
    event as it fails on the sanitized arguments alone. *)
Lemma to_dict_raised (e : TraceEvent) (x : exn) :
  json_dumps (VDict (_serialize_args (args e))) = Raised x ->
  json_dumps (VDict (to_dict e)) = Raised x.
Proof.
  destruct e as [nm ty ts dur pid tid cat ar aid]. unfold to_dict.
  cbn [name event_type timestamp duration process_id thread_id category args async_id].
  destruct ar as [|kv ar]; [cbn; discriminate|].
  remember (_serialize_args (kv :: ar)) as sargs. intros H.
  cbn [json_dumps] in H.
  destruct (dumps_pairs json_dumps sargs) as [s|y] eqn:Hp; [discriminate|].
  inversion H; subst y. clear H.
  destruct dur, aid; cbn -[py_str_int json_string String.append]; rewrite Hp;
    reflexivity.
Qed.

(** Arguments that do not serialize are a non-empty dict, and every event
    built with them fails in the encoder with the exception that the
    sanitized arguments alone give. *)
Lemma args_refused (a : option Dict) :
  args_ok a = false ->
  exists d bad,
    a = Some d /\ unencodable bad
    /\ json_dumps (VDict (_serialize_args d)) = Raised (not_serializable bad)
    /\ forall env nm ty ts dur pid tid cat aid,
         json_dumps (VDict (to_dict
           (TraceEvent_init env nm ty ts dur pid tid cat a aid)))
         = Raised (not_serializable bad).
Proof.
  destruct a as [d|]; [|discriminate]. cbn [args_ok]. intros H.
  destruct (proj2 (json_dumps_spec (VDict (_serialize_args d))) H) as (bad & Hu & Hr).
  exists d, bad. split; [reflexivity|]. split; [exact Hu|]. split; [exact Hr|].
  intros env nm ty ts dur pid tid cat aid. apply to_dict_raised.
  destruct d as [|kv d]; [discriminate H | exact Hr].
Qed.

Lemma write_event_raises (w : ChromeTraceWriter) (fs : FS) (e : TraceEvent)
    (f : string) (x : exn) :
  _file w = Some f -> json_dumps (VDict (to_dict e)) = Raised x ->
  (write_event w fs e).2 = Raised x.
Proof.
  intros Hf Hx. unfold write_event. rewrite Hf, Hx.
  destruct (negb (_first_event w)); reflexivity.
Qed.




(* ===================================================================== *)
(** * Argument sanitization                                               *)
(* ===================================================================== *)

(** C7.  The code at an input where it departs from the claim.  The
    branch of [_serialize_args] for a map recurses, the branch for a list or
    tuple looks at the direct items only: an item that is itself a list or
    a map is returned as it is, and the paths in it stay paths.  The result
    is therefore not the element-wise sanitization at every depth, and it is
    not serializable, as the docstring of [_serialize_args] says its result
    is: writing an event with these arguments raises the [TypeError] of the
    encoder, whereas the deeply sanitized arguments encode. *)
Lemma nested_sequence_not_sanitized :
  _serialize_args nested_args
  = [("files"%string,
      VList [VStr "top.txt"; VList [VPath "a.txt"];
             VDict [("p"%string, VPath "b.txt")]])]
  /\ sanitize_deep (VDict nested_args)
     = VDict [("files"%string,
               VList [VStr "top.txt"; VList [VStr "a.txt"];
                      VDict [("p"%string, VStr "b.txt")]])]
  /\ VDict (_serialize_args nested_args) <> sanitize_deep (VDict nested_args)
  /\ json_dumps (VDict (_serialize_args nested_args))
     = Raised (TypeError "Object of type PosixPath is not JSON serializable")
  /\ (write_event an_open_writer an_open_fs
        (TraceEvent_init an_env "scan" INSTANT None None None None "default"
           (Some nested_args) None)).2
     = Raised (TypeError "Object of type PosixPath is not JSON serializable")
  /\ exists js, json_dumps (sanitize_deep (VDict nested_args)) = Returned js.
Proof.
  split; [reflexivity|]. split; [reflexivity|].
  split; [vm_compute; discriminate|].
  split; [vm_compute; reflexivity|]. split; [vm_compute; reflexivity|].
  eexists. vm_compute. reflexivity.
Qed.

Lemma serialize_args_value (d : Dict) :
  VDict (_serialize_args d) = serialize_value (VDict d).
Proof. destruct d; reflexivity. Qed.

Lemma serialize_item_leaf (item : Value) :
  is_container item = false -> serialize_item item = sanitize_deep item.
Proof. destruct item; try reflexivity; discriminate. Qed.

Lemma map_serialize_item_flat (l : list Value) :
  forallb (fun item => negb (is_container item)) l = true ->
  List.map serialize_item l = List.map sanitize_deep l.
Proof.
  induction l as [|x l IH]; [reflexivity|].
  cbn [forallb List.map]. intros H. apply andb_prop in H. destruct H as [Hx Hl].
  rewrite IH by assumption. rewrite serialize_item_leaf; [reflexivity|].
  now destruct (is_container x).
Qed.

Lemma fold_dict_set_ext (f g : Value -> Value) (d : Dict) :
  Forall (fun kv => f kv.2 = g kv.2) d ->
  forall acc : Dict,
    fold_left (fun serialized kv =>
                 match kv with (key, x) => dict_set key (f x) serialized end) d acc
    = fold_left (fun serialized kv =>
                   match kv with (key, x) => dict_set key (g x) serialized end) d acc.
Proof.
  induction 1 as [|[k x] d Hx _ IH]; intros acc; [reflexivity|].
  cbn [fold_left]. cbn [snd] in Hx. rewrite Hx. apply IH.
Qed.

(** X25.  What [_serialize_args] does: paths become strings, maps are
    sanitized recursively at any depth, and the items of a list or tuple
    that are paths become strings; an item that is itself a list, a tuple
    or a map is kept as it is.  So the result is the sanitization of every
    element at every depth whenever no sequence holds a container. *)
Theorem serialize_args_deep_on_flat (d : Dict) :
  (flat_sequences (VDict d) = true ->
   VDict (_serialize_args d) = sanitize_deep (VDict d))
  /\ (forall key l,
        _serialize_args [(key, VList l)] = [(key, VList (List.map serialize_item l))]
        /\ _serialize_args [(key, VTuple l)] = [(key, VList (List.map serialize_item l))])
  /\ (forall p, serialize_item (VPath p) = VStr p)
  /\ (forall item, is_container item = true -> serialize_item item = item).
Proof.
  split; [|split; [|split]].
  - rewrite serialize_args_value. generalize (VDict d). clear d.
    intros v. induction v as [| b | n | r | s | p | d IH | l IH | l IH | t]
      using Value_nested_ind; try reflexivity.
    + cbn [flat_sequences serialize_value sanitize_deep]. intros H. f_equal.
      apply fold_dict_set_ext.
      rewrite forallb_forall in H. rewrite List.Forall_forall in IH |- *.
      intros kv Hkv. apply IH; [assumption|]. apply H. assumption.
    + cbn [flat_sequences serialize_value sanitize_deep]. intros H.
      now rewrite map_serialize_item_flat.
    + cbn [flat_sequences serialize_value sanitize_deep]. intros H.
      now rewrite map_serialize_item_flat.
  - intros key l. split; reflexivity.
  - reflexivity.
  - intros item H. destruct item; try reflexivity; discriminate.
Qed.

Lemma serialize_args_deep_on_flat_witness :
  VDict (_serialize_args flat_args) = sanitize_deep (VDict flat_args).
Proof.
  apply (proj1 (serialize_args_deep_on_flat flat_args)). reflexivity.
Defined.

(* ===================================================================== *)
(** * The tracer session                                                  *)
(* ===================================================================== *)

(** On a started, enabled tracer [_write_event] is [write_event] on its
    writer; otherwise it drops the event. *)
Lemma _write_event_recording (t : Tracer) (fs : FS) (e : TraceEvent)
    (w : ChromeTraceWriter) :
  enabled t = true -> _writer t = Some w ->
  _write_event t fs e
  = (set_writer t (Some (write_event w fs e).1.1), (write_event w fs e).1.2,
     (write_event w fs e).2).
Proof.
  intros He Hw. unfold _write_event. rewrite He, Hw.
  destruct (write_event w fs e) as [[w' fs'] r]. reflexivity.
Qed.

Lemma _write_event_dropped (t : Tracer) (fs : FS) (e : TraceEvent) :
  enabled t = false \/ _writer t = None ->
  _write_event t fs e = (t, fs, Returned tt).
Proof.
  intros [H|H]; unfold _write_event; rewrite H; [reflexivity|].
  destruct (enabled t); reflexivity.
Qed.

Lemma write_event_ok (w : ChromeTraceWriter) (fs : FS) (e : TraceEvent) :
  is_Some (_file w) ->
  json_ok (VDict (_serialize_args (args e))) = true ->
  exists w' fs', write_event w fs e = (w', fs', Returned tt).
Proof.
  intros [f Hf] Hok. destruct (serialized_exists e Hok) as [js Hjs].
  rewrite (write_event_serialized w fs e f js Hf Hjs). eauto.
Qed.

Lemma write_event_keeps_open (w w' : ChromeTraceWriter) (fs fs' : FS)
    (e : TraceEvent) (r : outcome unit) :
  write_event w fs e = (w', fs', r) -> _file w' = _file w.
Proof.
  unfold write_event. destruct (_file w) as [f|] eqn:Hf.
  - destruct (negb (_first_event w));
      destruct (json_dumps (VDict (to_dict e)));
      intros H; inversion H; subst; cbn; congruence.
  - intros H; inversion H; subst. assumption.
Qed.

(** C3, counterexample.  [end_span] takes arguments of its own.  When
    they do not serialize, the token of a span begun on a started, enabled
    tracer is used once and no duration-end event comes of it: [end_span]
    pops the registration, the writer puts the separator and the encoder
    raises.  The file holds the metadata event, the begin event and a comma;
    the token is gone, so that no later [end_span] writes the end event. *)
Lemma end_span_refused_args_writes_no_end_event :
  a_begun_span.2 = Returned (uuid4 an_env)
  /\ (exists B w',
        _active_spans a_begun_span.1.1 !! uuid4 an_env = Some B
        /\ event_type B = DURATION_BEGIN
        /\ enabled a_begun_span.1.1 = true
        /\ _writer a_begun_span.1.1 = Some w' /\ is_Some (_file w')
        /\ a_begun_span.1.2 !! "trace.json"%string
           = Some (("[" +:+ nl)
                   +:+ events_text true
                         [event_json (process_name_event an_env); event_json B])
        /\ a_refused_end.1.2 !! "trace.json"%string
           = Some (("[" +:+ nl)
                   +:+ events_text true
                         [event_json (process_name_event an_env); event_json B]
                   +:+ "," +:+ nl)
        /\ ~ (exists E w2 t2 fs2,
                end_span another_env a_begun_span.1.1 a_begun_span.1.2
                  (uuid4 an_env) (Some refused_args) = (t2, fs2, Returned tt)
                /\ event_type E = DURATION_END
                /\ write_event w' a_begun_span.1.2 E = (w2, fs2, Returned tt)))
  /\ a_refused_end.2
     = Raised (TypeError "Object of type object is not JSON serializable")
  /\ _active_spans a_refused_end.1.1 !! uuid4 an_env = None
  /\ forall (env : Env) (a : option Dict),
       end_span env a_refused_end.1.1 a_refused_end.1.2 (uuid4 an_env) a
       = (a_refused_end.1.1, a_refused_end.1.2, Returned tt).
Proof.
  assert (Hr : a_refused_end.2
               = Raised (TypeError "Object of type object is not JSON serializable"))
    by (vm_compute; reflexivity).
  assert (Hn : _active_spans a_refused_end.1.1 !! uuid4 an_env = None)
    by (vm_compute; reflexivity).
  split; [vm_compute; reflexivity|]. split.
  - eexists _, _. split; [vm_compute; reflexivity|].
    split; [reflexivity|]. split; [reflexivity|].
    split; [vm_compute; reflexivity|]. split; [eexists; reflexivity|].
    split; [vm_compute; reflexivity|]. split; [vm_compute; reflexivity|].
    intros (E & w2 & t2 & fs2 & H & _).
    unfold a_refused_end in Hr. rewrite H in Hr. discriminate.
  - split; [exact Hr|]. split; [exact Hn|].
    intros env a. unfold end_span. rewrite Hn, delete_id by exact Hn.
    generalize a_refused_end.1.1. intros t. destruct t; reflexivity.
Qed.

(** C3, amended.  A token that [begin_span] returned on a started, enabled
    tracer stands for exactly one duration-begin event, written by that
    call.  Used in [end_span] with arguments that serialize, in whatever
    environment (thread, task) and at whatever later state of the started
    tracer in which it is still registered, it writes exactly one
    duration-end event with the name and category of the begin event and is
    consumed: a further [end_span] with it writes nothing. *)
Theorem begin_end_span_pair (env1 env2 env3 : Env) (t t1 : Tracer)
    (fs fs1 : FS) (nm cat tok : string) (a a2 a3 : option Dict)
    (w : ChromeTraceWriter) :
  enabled t = true -> _writer t = Some w ->
  begin_span env1 t fs nm cat a = (t1, fs1, Returned tok) ->
  args_ok a2 = true ->
  exists B w1,
    event_type B = DURATION_BEGIN /\ name B = nm /\ category B = cat
    /\ write_event w fs B = (w1, fs1, Returned tt)
    /\ _writer t1 = Some w1
    /\ _active_spans t1 !! tok = Some B
    /\ forall (t' : Tracer) (fs' : FS) (w' : ChromeTraceWriter),
         enabled t' = true -> _writer t' = Some w' -> is_Some (_file w') ->
         _active_spans t' !! tok = Some B ->
         exists E w2 t2 fs2,
           end_span env2 t' fs' tok a2 = (t2, fs2, Returned tt)
           /\ event_type E = DURATION_END
           /\ name E = name B /\ category E = category B
           /\ write_event w' fs' E = (w2, fs2, Returned tt)
           /\ _writer t2 = Some w2
           /\ _active_spans t2 !! tok = None
           /\ end_span env3 t2 fs2 tok a3 = (t2, fs2, Returned tt).
Proof.
  intros He Hw Hbegin Ha2.
  unfold begin_span in Hbegin.
  set (B := TraceEvent_init env1 nm DURATION_BEGIN None None None None cat a None) in *.
  rewrite (_write_event_recording _ fs B w) in Hbegin by assumption.
  destruct (write_event w fs B) as [[w1 fs1'] [[]|x]] eqn:HwB;
    cbn [fst snd] in Hbegin; [|discriminate].
  inversion Hbegin; subst t1 fs1 tok. clear Hbegin.
  exists B, w1.
  split_refl.
  split; [exact HwB|]. split; [reflexivity|].
  split; [cbn; apply lookup_insert_eq|].
  intros t' fs' w' He' Hw' Hopen Hreg.
  set (E := TraceEvent_init env2 (name B) DURATION_END None None None None
              (category B) a2 None).
  destruct (write_event_ok w' fs' E Hopen) as (w2 & fs2 & HwE).
  { unfold E. now rewrite TraceEvent_init_args_ok. }
  exists E, w2.
  exists (set_writer (set_active_spans t' (delete (uuid4 env1) (_active_spans t')))
            (Some w2)), fs2.
  assert (Hend : end_span env2 t' fs' (uuid4 env1) a2
     = (set_writer (set_active_spans t' (delete (uuid4 env1) (_active_spans t')))
          (Some w2), fs2, Returned tt)).
  { unfold end_span. rewrite Hreg. fold E.
    rewrite (_write_event_recording _ fs' E w') by assumption.
    rewrite HwE. reflexivity. }
  split; [exact Hend|]. split_refl. split; [exact HwE|]. split; [reflexivity|].
  split; [cbn; apply lookup_delete_eq|].
  unfold end_span. cbn [_active_spans set_writer set_active_spans].
  rewrite lookup_delete_eq.
  rewrite (delete_id (delete (uuid4 env1) (_active_spans t')))
    by apply lookup_delete_eq.
  reflexivity.
Qed.

Lemma begin_end_span_pair_witness :
  exists B E t2 fs2,
    _active_spans
      (begin_span an_env a_started_tracer a_started_fs "build" "deps" None).1.1
      !! uuid4 an_env = Some B
    /\ end_span another_env
         (begin_span an_env a_started_tracer a_started_fs "build" "deps" None).1.1
         (begin_span an_env a_started_tracer a_started_fs "build" "deps" None).1.2
         (uuid4 an_env) None = (t2, fs2, Returned tt)
    /\ event_type B = DURATION_BEGIN /\ event_type E = DURATION_END
    /\ name E = name B /\ category E = category B
    /\ _active_spans t2 !! uuid4 an_env = None.
Proof.
  destruct (begin_end_span_pair an_env another_env an_env
              a_started_tracer
              (begin_span an_env a_started_tracer a_started_fs "build" "deps" None).1.1
              a_started_fs
              (begin_span an_env a_started_tracer a_started_fs "build" "deps" None).1.2
              "build" "deps" (uuid4 an_env) None None None a_started_writer)
    as (B & w1 & HB & _ & _ & HwB & Hw1 & Hreg & Hend).
  - reflexivity.
  - reflexivity.
  - reflexivity.
  - reflexivity.
  - destruct (Hend
                (begin_span an_env a_started_tracer a_started_fs "build" "deps" None).1.1
                (begin_span an_env a_started_tracer a_started_fs "build" "deps" None).1.2
                w1 eq_refl Hw1)
      as (E & w2 & t2 & fs2 & H1 & H2 & H3 & H4 & _ & _ & H5 & _).
    + rewrite (write_event_keeps_open _ _ _ _ _ _ HwB). eexists; reflexivity.
    + exact Hreg.
    + exists B, E, t2, fs2. repeat split; assumption.
Defined.

(** [start] leaves the registries as they are. *)
Lemma start_registries (env : Env) (t : Tracer) (fs : FS) :
  _active_spans (start env t fs).1.1 = _active_spans t
  /\ _async_events (start env t fs).1.1 = _async_events t
  /\ _async_thread_ids (start env t fs).1.1 = _async_thread_ids t
  /\ enabled (start env t fs).1.1 = enabled t.
Proof.
  unfold start. destruct (negb (enabled t)); [repeat split|].
  destruct (_writer t); [repeat split|].
  destruct (open _ fs) as [w1 fs1].
  destruct (write_metadata env w1 fs1 _ _ _) as [[w2 fs2] r]. repeat split.
Qed.

(** After [start] an enabled tracer has an open writer. *)
Lemma start_started (env : Env) (t : Tracer) (fs : FS) :
  enabled t = true -> _writer t = None ->
  exists w, _writer (start env t fs).1.1 = Some w /\ is_Some (_file w).
Proof.
  intros He Hw. unfold start. rewrite He, Hw. cbn [negb].
  destruct (open (ChromeTraceWriter_init (output_file t) true) fs) as [w1 fs1] eqn:Ho.
  destruct (write_metadata env w1 fs1 _ _ _) as [[w2 fs2] r] eqn:Hm.
  exists w2. split; [reflexivity|].
  unfold write_metadata in Hm. rewrite (write_event_keeps_open _ _ _ _ _ _ Hm).
  unfold open in Ho. cbn in Ho. inversion Ho; subst. eexists; reflexivity.
Qed.

(** C10. On a tracer that is disabled or not started, [begin_span] still
    takes a token, registers the begin event under it and returns it, and
    writes nothing: the file system is unchanged and the registry holds one
    more token (when the token is new).  The registration outlives a
    [start]; [end_span] with the token then removes it, and on an enabled
    tracer writes a duration-end event for which no begin event was
    written. *)
Theorem begin_span_not_recording (env env2 env3 : Env) (t : Tracer) (fs : FS)
    (nm cat : string) (a a2 : option Dict) :
  enabled t = false \/ _writer t = None ->
  exists B,
    event_type B = DURATION_BEGIN /\ name B = nm /\ category B = cat
    /\ begin_span env t fs nm cat a
       = (set_active_spans t (<[uuid4 env := B]> (_active_spans t)), fs,
          Returned (uuid4 env))
    /\ (_active_spans t !! uuid4 env = None ->
        size (<[uuid4 env := B]> (_active_spans t)) = S (size (_active_spans t)))
    /\ let t1 := (begin_span env t fs nm cat a).1.1 in
       let ts := (start env2 t1 fs).1.1 in
       let fss := (start env2 t1 fs).1.2 in
         _active_spans ts !! uuid4 env = Some B
         /\ _active_spans (end_span env3 ts fss (uuid4 env) a2).1.1 !! uuid4 env
            = None
         /\ (enabled t = true -> args_ok a2 = true ->
             exists E w w2,
               _writer ts = Some w
               /\ write_event w fss E
                  = (w2, (end_span env3 ts fss (uuid4 env) a2).1.2, Returned tt)
               /\ event_type E = DURATION_END
               /\ name E = nm /\ category E = cat).
Proof.
  intros Hoff.
  set (B := TraceEvent_init env nm DURATION_BEGIN None None None None cat a None).
  assert (Hbegin : begin_span env t fs nm cat a
     = (set_active_spans t (<[uuid4 env := B]> (_active_spans t)), fs,
        Returned (uuid4 env))).
  { unfold begin_span. fold B. rewrite _write_event_dropped; [reflexivity|].
    exact Hoff. }
  exists B.
  split_refl.
  split; [exact Hbegin|].
  split; [intros Hnew; now apply map_size_insert_None|].
  intros t1 ts fss.
  assert (Ht1 : (begin_span env t fs nm cat a).1.1 = t1) by reflexivity.
  assert (Hts : (start env2 t1 fs).1.1 = ts) by reflexivity.
  assert (Hfss : (start env2 t1 fs).1.2 = fss) by reflexivity.
  clearbody t1 ts fss. rewrite Hbegin in Ht1. cbn [fst] in Ht1.
  assert (Hreg : _active_spans ts !! uuid4 env = Some B).
  { rewrite <- Hts. rewrite (proj1 (start_registries env2 t1 fs)).
    rewrite <- Ht1. cbn. apply lookup_insert_eq. }
  split; [exact Hreg|]. split.
  - unfold end_span. rewrite Hreg.
    set (E := TraceEvent_init env3 (name B) DURATION_END None None None None
                (category B) a2 None).
    set (td := set_active_spans ts (delete (uuid4 env) (_active_spans ts))).
    assert (Hd : _active_spans td !! uuid4 env = None)
      by (cbn; apply lookup_delete_eq).
    unfold _write_event. destruct (enabled td); [|exact Hd].
    destruct (_writer td); [|exact Hd].
    destruct (write_event _ fss E) as [[w2 fs2] r]. exact Hd.
  - intros He Ha2.
    assert (Hw : _writer t = None) by (destruct Hoff; congruence).
    destruct (start_started env2 t1 fs) as (w & Hw1 & Hopen).
    { rewrite <- Ht1. exact He. }
    { rewrite <- Ht1. exact Hw. }
    rewrite Hts in Hw1.
    set (E := TraceEvent_init env3 (name B) DURATION_END None None None None
                (category B) a2 None).
    destruct (write_event_ok w fss E Hopen) as (w2 & fs2 & HwE).
    { unfold E. now rewrite TraceEvent_init_args_ok. }
    exists E, w, w2. split; [exact Hw1|].
    split; [|repeat split].
    unfold end_span. rewrite Hreg. fold E.
    rewrite (_write_event_recording _ fss E w).
    + rewrite HwE. reflexivity.
    + cbn. rewrite <- Hts.
      rewrite (proj2 (proj2 (proj2 (start_registries env2 t1 fs)))).
      rewrite <- Ht1. exact He.
    + exact Hw1.
Qed.

Lemma begin_span_not_recording_witness :
  exists B,
    begin_span an_env (Tracer_init "trace.json" true) ∅ "early" "default" None
    = (set_active_spans (Tracer_init "trace.json" true)
         (<[uuid4 an_env := B]> ∅), ∅, Returned (uuid4 an_env))
    /\ event_type B = DURATION_BEGIN.
Proof.
  destruct (begin_span_not_recording an_env an_env another_env
              (Tracer_init "trace.json" true) ∅ "early" "default" None None)
    as (B & HB & _ & _ & Hbegin & _).
  - right. reflexivity.
  - exists B. split; [exact Hbegin | exact HB].
Defined.

Lemma lanes_ok_init (output_file : string) (enabled : bool) :
  lanes_ok (Tracer_init output_file enabled).
Proof. intros id lane H. cbn in H. rewrite lookup_empty in H. discriminate. Qed.

Lemma lanes_ok_same (t t' : Tracer) :
  _async_thread_ids t' = _async_thread_ids t -> lanes_ok t -> lanes_ok t'.
Proof. intros E H id lane. rewrite E. apply H. Qed.

Lemma _write_event_registries (t : Tracer) (fs : FS) (e : TraceEvent) :
  _active_spans (_write_event t fs e).1.1 = _active_spans t
  /\ _async_events (_write_event t fs e).1.1 = _async_events t
  /\ _async_thread_ids (_write_event t fs e).1.1 = _async_thread_ids t.
Proof.
  unfold _write_event. destruct (enabled t); [|repeat split].
  destruct (_writer t); [|repeat split].
  destruct (write_event _ fs e) as [[w' fs'] r]. repeat split.
Qed.

Lemma _get_async_thread_id_lane (t : Tracer) (async_id : string) :
  lanes_ok t ->
  (_get_async_thread_id t async_id).2 = async_lane async_id
  /\ _async_thread_ids (_get_async_thread_id t async_id).1 !! async_id
     = Some (async_lane async_id)
  /\ lanes_ok (_get_async_thread_id t async_id).1.
Proof.
  intros Hok. unfold _get_async_thread_id.
  destruct (_async_thread_ids t !! async_id) as [lane|] eqn:Hc; cbn [fst snd].
  - pose proof (Hok _ _ Hc) as ->. repeat split; assumption.
  - split; [reflexivity|]. split; [cbn; apply lookup_insert_eq|].
    intros id lane. cbn. rewrite lookup_insert.
    destruct (decide (async_id = id)) as [->|]; [congruence | apply Hok].
Qed.

(** Every recording operation keeps the lane cache sound. *)
Lemma lanes_ok_preserved (env : Env) (t : Tracer) (fs : FS) (nm cat id : string)
    (given : option string) (a : option Dict) (v : Value) (d : Dict)
    (pid : option Z) :
  lanes_ok t ->
  lanes_ok (start env t fs).1.1
  /\ lanes_ok (stop t fs).1
  /\ lanes_ok (metadata env t fs nm d pid).1.1
  /\ lanes_ok (instant env t fs nm cat a).1.1
  /\ lanes_ok (counter env t fs nm v cat).1.1
  /\ lanes_ok (begin_span env t fs nm cat a).1.1
  /\ lanes_ok (end_span env t fs id a).1.1
  /\ lanes_ok (async_begin env t fs nm given cat a).1.1
  /\ lanes_ok (async_instant env t fs id nm cat a).1.1
  /\ lanes_ok (async_end env t fs id a).1.1.
Proof.
  intros Hok. repeat split.
  - eapply lanes_ok_same; [apply start_registries | exact Hok].
  - unfold stop. destruct (negb (enabled t)); [exact Hok|].
    destruct (_writer t); [|exact Hok]. destruct (close _ fs). exact Hok.
  - unfold metadata. destruct (enabled t); [|exact Hok].
    destruct (_writer t); [|exact Hok].
    destruct (write_metadata env _ fs nm d _) as [[w' fs'] r]. exact Hok.
  - eapply lanes_ok_same; [apply _write_event_registries | exact Hok].
  - eapply lanes_ok_same; [apply _write_event_registries | exact Hok].
  - unfold begin_span.
    destruct (_write_event _ fs _) as [[t' fs'] [[]|x]] eqn:Hw;
      pose proof (_write_event_registries
                    (set_active_spans t
                       (<[uuid4 env := TraceEvent_init env nm DURATION_BEGIN None
                                         None None None cat a None]>
                          (_active_spans t))) fs
                    (TraceEvent_init env nm DURATION_BEGIN None None None None
                       cat a None)) as (_ & _ & Hc);
      rewrite Hw in Hc; cbn [fst] in *; eapply lanes_ok_same; eauto.
  - unfold end_span. destruct (_active_spans t !! id); [|exact Hok].
    eapply lanes_ok_same; [apply _write_event_registries | exact Hok].
  - unfold async_begin.
    destruct (_get_async_thread_id_lane t
                (match given with None => uuid4 env | Some i => i end) Hok)
      as (_ & _ & Hok1).
    destruct (_get_async_thread_id t _) as [t0 lane]. cbn [fst] in Hok1.
    match goal with
    | |- context [_write_event ?t1 ?fs1 ?e1] =>
        pose proof (_write_event_registries t1 fs1 e1) as (_ & _ & Hc);
        destruct (_write_event t1 fs1 e1) as [[t' fs'] [[]|x]]
    end; cbn [fst] in *; eapply lanes_ok_same; eauto.
  - unfold async_instant.
    destruct (_get_async_thread_id_lane t id Hok) as (_ & _ & Hok1).
    destruct (_get_async_thread_id t id) as [t0 lane]. cbn [fst] in Hok1.
    eapply lanes_ok_same; [apply _write_event_registries | exact Hok1].
  - unfold async_end. destruct (_async_events t !! id); [|exact Hok].
    match goal with
    | |- context [_write_event ?t1 ?fs1 ?e1] =>
        pose proof (_write_event_registries t1 fs1 e1) as (_ & _ & Hc);
        destruct (_write_event t1 fs1 e1) as [[t' fs'] [[]|x]]
    end; cbn [fst] in *.
    + intros i lane. cbn. intros H. apply lookup_delete_Some in H.
      destruct H as [_ H]. rewrite Hc in H. cbn in H. now apply Hok.
    + eapply lanes_ok_same; eauto.
Qed.

(** C4. On a started, enabled tracer [async_begin] writes one async-begin
    event that carries the id it returns and the lane of that id.  A later
    [async_end] with the id, at whatever state of the started tracer in
    which the begin event is still registered, writes one async-end event
    with the same id and the same lane, and when it returns the lane cache
    has no entry for the id. *)
Theorem async_begin_end_pair (env1 env2 : Env) (t t1 : Tracer) (fs fs1 : FS)
    (nm cat id : string) (given : option string) (a a2 : option Dict)
    (w : ChromeTraceWriter) :
  enabled t = true -> _writer t = Some w -> lanes_ok t ->
  async_begin env1 t fs nm given cat a = (t1, fs1, Returned id) ->
  args_ok a2 = true ->
  id = match given with None => uuid4 env1 | Some i => i end
  /\ lanes_ok t1
  /\ exists B w1,
       event_type B = ASYNC_START /\ name B = nm /\ category B = cat
       /\ async_id B = Some id /\ thread_id B = async_lane id
       /\ write_event w fs B = (w1, fs1, Returned tt)
       /\ _writer t1 = Some w1
       /\ _async_events t1 !! id = Some B
       /\ _async_thread_ids t1 !! id = Some (async_lane id)
       /\ forall (t' : Tracer) (fs' : FS) (w' : ChromeTraceWriter),
            enabled t' = true -> _writer t' = Some w' -> is_Some (_file w') ->
            lanes_ok t' -> _async_events t' !! id = Some B ->
            exists E w2 t2 fs2,
              async_end env2 t' fs' id a2 = (t2, fs2, Returned tt)
              /\ event_type E = ASYNC_END
              /\ name E = name B /\ category E = category B
              /\ async_id E = async_id B /\ thread_id E = thread_id B
              /\ write_event w' fs' E = (w2, fs2, Returned tt)
              /\ _writer t2 = Some w2
              /\ _async_events t2 !! id = None
              /\ _async_thread_ids t2 !! id = None.
Proof.
  intros He Hw Hok Hbegin Ha2.
  unfold async_begin in Hbegin.
  set (aid := match given with None => uuid4 env1 | Some i => i end) in *.
  destruct (_get_async_thread_id_lane t aid Hok) as (Hlane & Hcache & Hok0).
  assert (Hen0 : enabled (_get_async_thread_id t aid).1 = true
                 /\ _writer (_get_async_thread_id t aid).1 = Some w).
  { unfold _get_async_thread_id.
    destruct (_async_thread_ids t !! aid); split; assumption. }
  destruct (_get_async_thread_id t aid) as [t0 lane].
  cbn [fst snd] in Hlane, Hcache, Hok0, Hen0. destruct Hen0 as [He0 Hw0]. subst lane.
  set (B := TraceEvent_init env1 nm ASYNC_START None None None
              (Some (async_lane aid)) cat a (Some aid)) in *.
  rewrite (_write_event_recording _ fs B w) in Hbegin by assumption.
  destruct (write_event w fs B) as [[w1 fs1'] [[]|x]] eqn:HwB;
    cbn [fst snd] in Hbegin; [|discriminate].
  inversion Hbegin; subst t1 fs1 id. clear Hbegin.
  split; [reflexivity|]. split; [exact Hok0|].
  exists B, w1.
  split_refl. split; [exact HwB|].
  split; [reflexivity|]. split; [cbn; apply lookup_insert_eq|].
  split; [exact Hcache|].
  intros t' fs' w' He' Hw' Hopen Hok' Hreg.
  assert (Hl : match _async_thread_ids t' !! aid with
               | None => thread_id B
               | Some lane => lane
               end = async_lane aid).
  { destruct (_async_thread_ids t' !! aid) as [lane|] eqn:Hc;
      [now apply Hok' | reflexivity]. }
  set (E := TraceEvent_init env2 (name B) ASYNC_END None None None
              (Some (async_lane aid)) (category B) a2 (Some aid)).
  destruct (write_event_ok w' fs' E Hopen) as (w2 & fs2 & HwE).
  { unfold E. now rewrite TraceEvent_init_args_ok. }
  exists E, w2.
  exists (set_async_thread_ids
            (set_writer (set_async_events t' (delete aid (_async_events t')))
               (Some w2))
            (delete aid (_async_thread_ids t'))), fs2.
  split.
  { unfold async_end. rewrite Hreg.
    cbn [_async_thread_ids set_async_events]. rewrite Hl. fold E.
    rewrite (_write_event_recording _ fs' E w') by assumption.
    rewrite HwE. reflexivity. }
  split_refl. split; [exact HwE|].
  split; [reflexivity|].
  split; cbn; apply lookup_delete_eq.
Qed.

Lemma async_begin_end_pair_witness :
  exists B E t2 fs2,
    async_end another_env
      (async_begin an_env a_started_tracer a_started_fs "fetch"
         (Some "op-1"%string) "net" None).1.1
      (async_begin an_env a_started_tracer a_started_fs "fetch"
         (Some "op-1"%string) "net" None).1.2
      "op-1" None = (t2, fs2, Returned tt)
    /\ event_type B = ASYNC_START /\ event_type E = ASYNC_END
    /\ async_id B = Some "op-1"%string /\ async_id E = async_id B
    /\ thread_id E = thread_id B
    /\ _async_thread_ids t2 !! "op-1"%string = None.
Proof.
  destruct (async_begin_end_pair an_env another_env a_started_tracer
              (async_begin an_env a_started_tracer a_started_fs "fetch"
                 (Some "op-1"%string) "net" None).1.1
              a_started_fs
              (async_begin an_env a_started_tracer a_started_fs "fetch"
                 (Some "op-1"%string) "net" None).1.2
              "fetch" "net" "op-1" (Some "op-1"%string) None None
              a_started_writer)
    as (_ & Hok1 & B & w1 & HB & _ & _ & Hid & _ & HwB & Hw1 & Hreg & _ & Hend).
  - reflexivity.
  - reflexivity.
  - intros id lane H. vm_compute in H. discriminate.
  - vm_compute. reflexivity.
  - reflexivity.
  - destruct (Hend
                (async_begin an_env a_started_tracer a_started_fs "fetch"
                   (Some "op-1"%string) "net" None).1.1
                (async_begin an_env a_started_tracer a_started_fs "fetch"
                   (Some "op-1"%string) "net" None).1.2
                w1 eq_refl Hw1)
      as (E & w2 & t2 & fs2 & H1 & H2 & _ & _ & H3 & H4 & _ & _ & _ & H5).
    + rewrite (write_event_keeps_open _ _ _ _ _ _ HwB). eexists; reflexivity.
    + exact Hok1.
    + exact Hreg.
    + exists B, E, t2, fs2. repeat split; assumption.
Defined.

(* ===================================================================== *)
(** * Synthetic lanes                                                     *)
(* ===================================================================== *)

(** C5.  The code at an input where it departs from the claim.  The offset
    is added, as the comment in [_get_coroutine_thread_id] says, to tell the
    lane of a task from real thread identities; but outside a task the lane
    is the identity of the thread as it is, and nothing keeps it out of the
    reserved range.  The thread 422122828 outside any task and the task at
    0x1F4A3B2C260 get the same lane, and their events the same [tid]. *)
Lemma real_thread_shares_synthetic_lane :
  current_task a_low_thread_env = NoTask
  /\ thread_ident a_low_thread_env = Some 422122828
  /\ _get_coroutine_thread_id a_low_thread_env = 422122828
  /\ current_task a_task_env = RunningTask 2150230049376
  /\ _get_coroutine_thread_id a_task_env = 422122828
  /\ 0x10000000 <= 422122828 < 0x20000000
  /\ dict_get "tid"
       (to_dict (TraceEvent_init a_low_thread_env "work" INSTANT None None None
                   None "default" None None))
     = dict_get "tid"
         (to_dict (TraceEvent_init a_task_env "work" INSTANT None None None None
                     "default" None None)).
Proof. repeat split; vm_compute; try reflexivity; discriminate. Qed.

(** X24.  The lane of a task lies in [0x10000000, 0x20000000), the lane of
    an async id in [0x20000000, 0x30000000), also when it comes from the
    cache; so the two never meet, and neither equals a thread identity that
    lies outside both ranges. *)
Theorem synthetic_lanes_reserved (env : Env) (task : Z) (async_id : string)
    (ident : Z) :
  current_task env = RunningTask task ->
  0x10000000 <= _get_coroutine_thread_id env < 0x20000000
  /\ 0x20000000 <= async_lane async_id < 0x30000000
  /\ (forall t, lanes_ok t ->
        (_get_async_thread_id t async_id).2 = async_lane async_id)
  /\ _get_coroutine_thread_id env <> async_lane async_id
  /\ (ident < 0x10000000 \/ 0x30000000 <= ident ->
      _get_coroutine_thread_id env <> ident /\ async_lane async_id <> ident).
Proof.
  intros Htask. unfold _get_coroutine_thread_id, async_lane. rewrite Htask.
  pose proof (Z.mod_pos_bound (md5_int (py_str_int task)) 0x10000000 eq_refl) as Hc.
  pose proof (Z.mod_pos_bound (md5_int async_id) 0x10000000 eq_refl) as Ha.
  split; [lia|]. split; [lia|]. split.
  - intros t Hok. apply (proj1 (_get_async_thread_id_lane t async_id Hok)).
  - split; [lia|]. intros [H|H]; lia.
Qed.

Lemma synthetic_lanes_reserved_witness :
  0x10000000 <= _get_coroutine_thread_id a_task_env < 0x20000000
  /\ 0x20000000 <= async_lane "op-1" < 0x30000000
  /\ _get_coroutine_thread_id a_task_env <> async_lane "op-1"
  /\ _get_coroutine_thread_id a_task_env <> 9284.
Proof.
  destruct (synthetic_lanes_reserved a_task_env 2150230049376 "op-1"
              9284 eq_refl) as (H1 & H2 & _ & H3 & H4).
  split; [exact H1|]. split; [exact H2|]. split; [exact H3|].
  apply H4. left. lia.
Defined.

(* ===================================================================== *)
(** * The span scope                                                      *)
(* ===================================================================== *)

Lemma py_int_nonneg (x : Q) : (0 <= x)%Q -> 0 <= py_int x.
Proof.
  unfold Qle, py_int. cbn [Qnum Qden]. intros H.
  apply Z.quot_pos; lia.
Qed.

Lemma to_dict_ts_dur (e : TraceEvent) :
  dict_get "ts" (to_dict e) = Some (VInt (py_int (timestamp e)))
  /\ dict_get "dur" (to_dict e)
     = match duration e with
       | Some d => Some (VInt (py_int d))
       | None => None
       end.
Proof.
  destruct e as [nm ty ts dur pid tid cat ar aid]. unfold to_dict.
  cbn [name event_type timestamp duration process_id thread_id category args async_id].
  destruct ar as [|x ar]; [destruct dur, aid; split; reflexivity|].
  remember (_serialize_args (x :: ar)) as sargs.
  destruct dur, aid; split; reflexivity.
Qed.

(** C2, counterexample, in two ways.  The start and the end are
    both read from the wall clock: when it is set back in between, the
    event written has a negative [dur].  And when the arguments do not
    serialize, the write in the [finally] block raises: no complete event
    is written, and the caller sees that [TypeError] in place of the
    exception of its own work. *)
Lemma span_negative_dur_or_lost_exception :
  (span an_env an_earlier_env a_started_tracer a_started_fs "work" "default"
     None a_failing_body
   = (set_writer a_started_tracer
        (Some (write_event a_started_writer a_started_fs a_backdated_event).1.1),
      (write_event a_started_writer a_started_fs a_backdated_event).1.2,
      Raised (HostError "ValueError"))
   /\ (write_event a_started_writer a_started_fs a_backdated_event).2
      = Returned tt
   /\ dict_get "dur" (to_dict a_backdated_event) = Some (VInt (-500000)))
  /\ ((span an_env another_env a_started_tracer a_started_fs "work" "default"
         (Some [("handle"%string, VObject "object")]) a_failing_body).2
      = Raised (TypeError "Object of type object is not JSON serializable")
      /\ (span an_env another_env a_started_tracer a_started_fs "work" "default"
            (Some [("handle"%string, VObject "object")]) a_failing_body).1.2
         = file_write "trace.json" ("," +:+ nl) a_started_fs).
Proof.
  split; [split; [|split] | split]; vm_compute; reflexivity.
Qed.

(** C2, amended.  Whatever the body does and however it exits, when the
    tracer is started and enabled at the exit of the scope and the
    arguments serialize, [span] writes exactly one complete event, after
    the effects of the body; the event is stamped with the clock read at
    entry, its [dur] is the truncated difference of the two clock reads,
    which is not negative when the clock did not go back; and the outcome
    of the body, value or exception, is the outcome of the scope. *)
Theorem span_emits_one_complete {A : Type} (enter exit : Env) (t t1 : Tracer)
    (fs fs1 : FS) (nm cat : string) (a : option Dict)
    (body : Tracer -> FS -> Tracer * FS * outcome A) (r : outcome A)
    (w : ChromeTraceWriter) :
  body t fs = (t1, fs1, r) ->
  enabled t1 = true -> _writer t1 = Some w -> is_Some (_file w) ->
  args_ok a = true ->
  exists E w2 fs2,
    span enter exit t fs nm cat a body = (set_writer t1 (Some w2), fs2, r)
    /\ write_event w fs1 E = (w2, fs2, Returned tt)
    /\ event_type E = COMPLETE /\ name E = nm /\ category E = cat
    /\ timestamp E = now enter
    /\ dict_get "ts" (to_dict E) = Some (VInt (py_int (now enter)))
    /\ dict_get "dur" (to_dict E)
       = Some (VInt (py_int (now exit - now enter)%Q))
    /\ ((now enter <= now exit)%Q -> 0 <= py_int (now exit - now enter)%Q).
Proof.
  intros Hbody He Hw Hopen Ha.
  set (E := TraceEvent_init exit nm COMPLETE (Some (now enter))
              (Some (now exit - now enter)%Q) None None cat a None).
  destruct (write_event_ok w fs1 E Hopen) as (w2 & fs2 & HwE).
  { unfold E. now rewrite TraceEvent_init_args_ok. }
  exists E, w2, fs2.
  split.
  { unfold span. rewrite Hbody. fold E.
    rewrite (_write_event_recording _ fs1 E w) by assumption.
    rewrite HwE. reflexivity. }
  split; [exact HwE|].
  split_refl.
  split; [apply (proj1 (to_dict_ts_dur E))|].
  split; [apply (proj2 (to_dict_ts_dur E))|].
  intros Hclock. apply py_int_nonneg.
  apply (proj1 (Qle_minus_iff (now enter) (now exit))). exact Hclock.
Qed.

Lemma span_emits_one_complete_witness :
  exists E w2 fs2,
    span an_earlier_env an_env a_started_tracer a_started_fs "work" "default"
      (Some [("n"%string, VInt 3)]) a_failing_body
    = (set_writer a_started_tracer (Some w2), fs2, Raised (HostError "ValueError"))
    /\ write_event a_started_writer a_started_fs E = (w2, fs2, Returned tt)
    /\ event_type E = COMPLETE
    /\ dict_get "dur" (to_dict E) = Some (VInt 500000).
Proof.
  destruct (span_emits_one_complete an_earlier_env an_env a_started_tracer
              a_started_tracer a_started_fs a_started_fs "work" "default"
              (Some [("n"%string, VInt 3)]) a_failing_body
              (Raised (HostError "ValueError")) a_started_writer)
    as (E & w2 & fs2 & H1 & H2 & H3 & _ & _ & _ & _ & H4 & _).
  - reflexivity.
  - reflexivity.
  - reflexivity.
  - eexists; reflexivity.
  - reflexivity.
  - exists E, w2, fs2. repeat split; assumption.
Defined.

(* ===================================================================== *)
(** * More on the trace writer                                            *)
(* ===================================================================== *)

(** What a [write_event] that fails in the encoder leaves behind: the flag
    cleared and, unless the event was the first, the separator. *)
Lemma write_event_failed (w : ChromeTraceWriter) (fs : FS) (e : TraceEvent)
    (f : string) (x : exn) :
  _file w = Some f -> json_dumps (VDict (to_dict e)) = Raised x ->
  write_event w fs e
  = ({| filepath := filepath w; auto_flush := auto_flush w;
        _file := Some f; _first_event := false |},
     (if _first_event w then fs else file_write f ("," +:+ nl) fs),
     Raised x).
Proof.
  intros Hf Hx. unfold write_event. rewrite Hf, Hx.
  destruct (_first_event w) eqn:Hfe; cbn [negb].
  - reflexivity.
  - destruct w; cbn in *; subst; reflexivity.
Qed.

(** X1. A [write_event] that fails on an unserializable argument is not
    undone: the first-event flag is cleared and the separator, if one was
    due, stays in the sink.  The next event that is written therefore
    follows a comma that no event precedes. *)
Theorem failed_write_leaves_separator (w : ChromeTraceWriter) (fs : FS)
    (e e2 : TraceEvent) (f content js2 : string) :
  _file w = Some f -> fs !! f = Some content ->
  json_ok (VDict (_serialize_args (args e))) = false ->
  serialized e2 js2 ->
  exists x,
    (write_event w fs e).2 = Raised x
    /\ _first_event (write_event w fs e).1.1 = false
    /\ (write_event w fs e).1.2 !! f
       = Some (content +:+ separator (_first_event w))
    /\ (write_event (write_event w fs e).1.1 (write_event w fs e).1.2 e2).1.2 !! f
       = Some (content +:+ separator (_first_event w)
               +:+ ("," +:+ nl) +:+ "  " +:+ js2).
Proof.
  intros Hf Hc Hbad Hjs2.
  destruct (not_serialized e Hbad) as (bad & _ & Hr).
  exists (not_serializable bad).
  rewrite (write_event_failed w fs e f _ Hf Hr). cbn [fst snd _first_event].
  split; [reflexivity|]. split; [reflexivity|].
  assert (H1 : (if _first_event w then fs else file_write f ("," +:+ nl) fs) !! f
               = Some (content +:+ separator (_first_event w))).
  { destruct (_first_event w); unfold separator.
    - now rewrite append_empty_r.
    - rewrite file_write_lookup, Hc. reflexivity. }
  split; [exact H1|].
  erewrite write_event_serialized; [| reflexivity | exact Hjs2].
  cbn [fst snd _first_event]. rewrite file_write_lookup, H1.
  change (separator false) with ("," +:+ nl).
  cbn [default from_option id]. rewrite !append_assoc. reflexivity.
Qed.

Lemma failed_write_leaves_separator_witness :
  exists x,
    (write_event an_open_writer an_open_fs (event_with_object "first")).2 = Raised x
    /\ (write_event
          (write_event an_open_writer an_open_fs (event_with_object "first")).1.1
          (write_event an_open_writer an_open_fs (event_with_object "first")).1.2
          (TraceEvent_init an_env "event1" INSTANT None None None None "default"
             None None)).1.2 !! "trace.json"%string
       = Some (("[" +:+ nl) +:+ separator true +:+ ("," +:+ nl) +:+ "  "
               +:+ event_json (TraceEvent_init an_env "event1" INSTANT None None
                                 None None "default" None None)).
Proof.
  destruct (failed_write_leaves_separator an_open_writer an_open_fs
              (event_with_object "first")
              (TraceEvent_init an_env "event1" INSTANT None None None None
                 "default" None None)
              "trace.json" ("[" +:+ nl)
              (event_json (TraceEvent_init an_env "event1" INSTANT None None
                             None None "default" None None)))
    as (x & H1 & _ & _ & H2).
  - reflexivity.
  - reflexivity.
  - reflexivity.
  - reflexivity.
  - exists x. split; [exact H1 | exact H2].
Defined.

Lemma write_events_app (l1 l2 : list TraceEvent) :
  forall (w : ChromeTraceWriter) (fs : FS),
    write_events w fs (l1 ++ l2)
    = match write_events w fs l1 with
      | (w1, fs1, Returned _) => write_events w1 fs1 l2
      | (w1, fs1, Raised x) => (w1, fs1, Raised x)
      end.
Proof.
  induction l1 as [|e l1 IH]; intros w fs; [reflexivity|].
  cbn [app write_events].
  destruct (write_event w fs e) as [[w1 fs1] [[]|x]]; [apply IH | reflexivity].
Qed.

Lemma write_events_all_ok (events : list TraceEvent) :
  forall (w : ChromeTraceWriter) (fs : FS),
    is_Some (_file w) ->
    Forall (fun e => json_ok (VDict (_serialize_args (args e))) = true) events ->
    exists w1 fs1,
      write_events w fs events = (w1, fs1, Returned tt) /\ _file w1 = _file w.
Proof.
  induction events as [|e events IH]; intros w fs Hopen Hall.
  - exists w, fs. split; reflexivity.
  - apply Forall_cons in Hall. destruct Hall as [He Hall].
    destruct (write_event_ok w fs e Hopen He) as (w1 & fs1 & Hw).
    pose proof (write_event_keeps_open _ _ _ _ _ _ Hw) as Hk.
    destruct (IH w1 fs1) as (w2 & fs2 & Hw2 & Hk2); [now rewrite Hk | assumption |].
    exists w2, fs2. cbn [write_events]. rewrite Hw. split; [exact Hw2 | congruence].
Qed.

(** X2. [write_events] stops at the first event that does not serialize:
    the events before it are written, the exception goes to the caller, and
    the events after it are never looked at. *)
Theorem write_events_stops_at_failure (w : ChromeTraceWriter) (fs : FS)
    (good rest : list TraceEvent) (bad : TraceEvent) :
  is_Some (_file w) ->
  Forall (fun e => json_ok (VDict (_serialize_args (args e))) = true) good ->
  json_ok (VDict (_serialize_args (args bad))) = false ->
  exists w1 fs1 x,
    write_events w fs good = (w1, fs1, Returned tt)
    /\ (write_event w1 fs1 bad).2 = Raised x
    /\ write_events w fs (good ++ bad :: rest) = write_event w1 fs1 bad.
Proof.
  intros Hopen Hgood Hbad.
  destruct (write_events_all_ok good w fs Hopen Hgood) as (w1 & fs1 & Hw1 & Hk).
  destruct Hopen as [f Hf]. rewrite Hf in Hk.
  destruct (not_serialized bad Hbad) as (b & _ & Hr).
  exists w1, fs1, (not_serializable b).
  split; [exact Hw1|].
  split; [now apply write_event_raises with (f := f)|].
  rewrite write_events_app, Hw1. cbn [write_events].
  rewrite (write_event_failed w1 fs1 bad f _ Hk Hr). reflexivity.
Qed.

Lemma write_events_stops_at_failure_witness :
  exists x,
    (write_events an_open_writer an_open_fs
       (three_events ++ event_with_object "first" :: three_events)).2 = Raised x
    /\ write_events an_open_writer an_open_fs
         (three_events ++ event_with_object "first" :: three_events)
       = write_events an_open_writer an_open_fs
           (three_events ++ [event_with_object "first"]).
Proof.
  destruct (write_events_stops_at_failure an_open_writer an_open_fs three_events
              three_events (event_with_object "first"))
    as (w1 & fs1 & x & H1 & H2 & H3).
  - eexists; reflexivity.
  - repeat constructor.
  - reflexivity.
  - destruct (write_events_stops_at_failure an_open_writer an_open_fs three_events
                [] (event_with_object "first"))
      as (w1' & fs1' & x' & H1' & _ & H3').
    + eexists; reflexivity.
    + repeat constructor.
    + reflexivity.
    + exists x. rewrite H3, H3'. rewrite H1 in H1'. inversion H1'; subst.
      split; [exact H2 | reflexivity].
Defined.

Lemma write_event_appends (w : ChromeTraceWriter) (fs : FS) (e : TraceEvent)
    (f c : string) :
  _file w = Some f -> fs !! f = Some c ->
  exists txt,
    (write_event w fs e).1.2 !! f = Some (c +:+ txt)
    /\ _file (write_event w fs e).1.1 = Some f.
Proof.
  intros Hf Hc. destruct (json_dumps (VDict (to_dict e))) as [js|x] eqn:Hjs.
  - rewrite (write_event_serialized w fs e f js Hf Hjs). cbn [fst snd _file].
    eexists. split; [|reflexivity]. rewrite file_write_lookup, Hc. reflexivity.
  - rewrite (write_event_failed w fs e f x Hf Hjs). cbn [fst snd _file].
    destruct (_first_event w).
    + exists EmptyString. split; [|reflexivity]. now rewrite append_empty_r.
    + eexists. split; [|reflexivity]. rewrite file_write_lookup, Hc. reflexivity.
Qed.

Lemma write_events_appends (events : list TraceEvent) :
  forall (w : ChromeTraceWriter) (fs : FS) (f c : string),
    _file w = Some f -> fs !! f = Some c ->
    exists txt,
      (write_events w fs events).1.2 !! f = Some (c +:+ txt)
      /\ _file (write_events w fs events).1.1 = Some f.
Proof.
  induction events as [|e events IH]; intros w fs f c Hf Hc.
  - exists EmptyString. cbn. split; [|assumption]. now rewrite append_empty_r.
  - destruct (write_event_appends w fs e f c Hf Hc) as (txt & H1 & H2).
    cbn [write_events].
    destruct (write_event w fs e) as [[w1 fs1] [[]|x]]; cbn [fst snd] in *.
    + destruct (IH w1 fs1 f _ H2 H1) as (txt2 & H3 & H4).
      exists (txt +:+ txt2). split; [|assumption].
      rewrite H3. now rewrite append_assoc.
    + exists txt. split; assumption.
Qed.

(** X3. A [with] block over a writer that writes a list of events leaves
    the writer closed on every exit path, with the opening token first in
    the file and the closing token last, and hands the outcome of the
    writes to the caller; when all the writes returned, the file is the
    array of the serialized events. *)
Theorem with_writer_closes_on_every_path (w : ChromeTraceWriter) (fs : FS)
    (events : list TraceEvent) :
  _file w = None ->
  exists txt,
    _file (with_ChromeTraceWriter w fs
             (fun w fs => write_events w fs events)).1.1 = None
    /\ (with_ChromeTraceWriter w fs
          (fun w fs => write_events w fs events)).1.2 !! filepath w
       = Some (("[" +:+ nl) +:+ txt +:+ (nl +:+ "]" +:+ nl))
    /\ (with_ChromeTraceWriter w fs (fun w fs => write_events w fs events)).2
       = (write_events (open w fs).1 (open w fs).2 events).2
    /\ ((with_ChromeTraceWriter w fs (fun w fs => write_events w fs events)).2
        = Returned tt ->
        exists jsons,
          Forall2 serialized events jsons /\ txt = events_text true jsons).
Proof.
  intros Hclosed. unfold with_ChromeTraceWriter.
  assert (Ho : open w fs
     = ({| filepath := filepath w; auto_flush := auto_flush w;
           _file := Some (filepath w); _first_event := true |},
        file_write (filepath w) ("[" +:+ nl) (<[filepath w := EmptyString]> fs))).
  { unfold open. now rewrite Hclosed. }
  rewrite Ho. cbn [fst snd].
  set (w0 := {| filepath := filepath w; auto_flush := auto_flush w;
                _file := Some (filepath w); _first_event := true |}).
  set (fs0 := file_write (filepath w) ("[" +:+ nl) (<[filepath w := EmptyString]> fs)).
  assert (Hc : fs0 !! filepath w = Some ("[" +:+ nl)).
  { unfold fs0. rewrite file_write_lookup, lookup_insert_eq. reflexivity. }
  destruct (write_events_appends events w0 fs0 (filepath w) _ eq_refl Hc)
    as (txt & Htxt & Hopen).
  destruct (write_events w0 fs0 events) as [[w1 fs1] r] eqn:Hw.
  cbn [fst snd] in Htxt, Hopen.
  exists txt. unfold close. rewrite Hopen. cbn [fst snd _file].
  split; [reflexivity|]. split.
  { rewrite file_write_lookup, Htxt. cbn [default from_option id].
    now rewrite !append_assoc. }
  split; [reflexivity|].
  intros Hr. subst r.
  destruct (write_events_returned events w0 w1 fs0 fs1 (filepath w) _ eq_refl Hc Hw)
    as (jsons & HF & _ & Hfs1 & _).
  exists jsons. split; [exact HF|].
  rewrite Htxt in Hfs1. inversion Hfs1 as [E].
  apply (String.app_inj _ _ _ E).
Qed.

Lemma with_writer_closes_on_every_path_witness :
  exists txt,
    (with_ChromeTraceWriter a_writer stale_fs
       (fun w fs => write_events w fs (three_events ++ [event_with_object "first"]))).1.2
      !! "trace.json"%string
    = Some (("[" +:+ nl) +:+ txt +:+ (nl +:+ "]" +:+ nl))
    /\ _file (with_ChromeTraceWriter a_writer stale_fs
                (fun w fs =>
                   write_events w fs (three_events ++ [event_with_object "first"]))).1.1
       = None.
Proof.
  destruct (with_writer_closes_on_every_path a_writer stale_fs
              (three_events ++ [event_with_object "first"]))
    as (txt & H1 & H2 & _).
  - reflexivity.
  - exists txt. split; [exact H2 | exact H1].
Defined.

(* ===================================================================== *)
(** * More on events and their arguments                                  *)
(* ===================================================================== *)

Lemma EventType_value_inj (t1 t2 : EventType) :
  EventType_value t1 = EventType_value t2 -> t1 = t2.
Proof. destruct t1, t2; intros H; try reflexivity; discriminate H. Qed.

(** The fields of the wire record, one by one. *)
Lemma to_dict_get (e : TraceEvent) :
  dict_get "name" (to_dict e) = Some (VStr (name e))
  /\ dict_get "ph" (to_dict e) = Some (VStr (EventType_value (event_type e)))
  /\ dict_get "ts" (to_dict e) = Some (VInt (py_int (timestamp e)))
  /\ dict_get "pid" (to_dict e) = Some (VInt (process_id e))
  /\ dict_get "tid" (to_dict e) = Some (VInt (thread_id e))
  /\ dict_get "cat" (to_dict e) = Some (VStr (category e))
  /\ dict_get "dur" (to_dict e)
     = match duration e with Some d => Some (VInt (py_int d)) | None => None end
  /\ dict_get "args" (to_dict e)
     = match args e with
       | [] => None
       | _ => Some (VDict (_serialize_args (args e)))
       end
  /\ dict_get "id" (to_dict e)
     = match async_id e with Some i => Some (VStr i) | None => None end.
Proof.
  destruct e as [nm ty ts dur pid tid cat ar aid]. unfold to_dict.
  cbn [name event_type timestamp duration process_id thread_id category args async_id].
  destruct ar as [|x ar]; [destruct dur, aid; repeat split; reflexivity|].
  remember (_serialize_args (x :: ar)) as sargs.
  destruct dur, aid; repeat split; reflexivity.
Qed.

(** X4. The wire record of an event determines the event up to what
    serialization drops on purpose: the fraction of a microsecond of the
    timestamp and of the duration, and the sanitization of the arguments.
    In particular the phase code tells the kind of the event. *)
Theorem to_dict_determines_event (e1 e2 : TraceEvent) :
  to_dict e1 = to_dict e2 ->
  name e1 = name e2
  /\ event_type e1 = event_type e2
  /\ py_int (timestamp e1) = py_int (timestamp e2)
  /\ option_map py_int (duration e1) = option_map py_int (duration e2)
  /\ process_id e1 = process_id e2
  /\ thread_id e1 = thread_id e2
  /\ category e1 = category e2
  /\ _serialize_args (args e1) = _serialize_args (args e2)
  /\ async_id e1 = async_id e2.
Proof.
  intros H.
  destruct (to_dict_get e1) as (N1 & P1 & T1 & I1 & L1 & C1 & D1 & A1 & Y1).
  destruct (to_dict_get e2) as (N2 & P2 & T2 & I2 & L2 & C2 & D2 & A2 & Y2).
  rewrite H in N1, P1, T1, I1, L1, C1, D1, A1, Y1.
  rewrite N1 in N2. rewrite P1 in P2. rewrite T1 in T2. rewrite I1 in I2.
  rewrite L1 in L2. rewrite C1 in C2. rewrite D1 in D2. rewrite A1 in A2.
  rewrite Y1 in Y2.
  split; [congruence|].
  split; [apply EventType_value_inj; congruence|].
  split; [congruence|].
  split; [destruct (duration e1), (duration e2); cbn; congruence|].
  split; [congruence|]. split; [congruence|]. split; [congruence|].
  split.
  - destruct (args e1) as [|x1 a1], (args e2) as [|x2 a2];
      try reflexivity; try discriminate A2. congruence.
  - destruct (async_id e1), (async_id e2); congruence.
Qed.

Lemma to_dict_determines_event_witness :
  event_type (TraceEvent_init an_env "work" INSTANT (Some (3 # 2)) None None
                None "default" None None)
  = event_type (TraceEvent_init another_env "work" INSTANT (Some (5 # 4)) None
                  (Some 4242) (Some 4242) "default" (Some []) None).
Proof.
  apply (to_dict_determines_event
           (TraceEvent_init an_env "work" INSTANT (Some (3 # 2)) None None
              None "default" None None)
           (TraceEvent_init another_env "work" INSTANT (Some (5 # 4)) None
              (Some 4242) (Some 4242) "default" (Some []) None)).
  reflexivity.
Defined.

Lemma dict_set_fresh (key : string) (value : Value) (d : Dict) :
  key ∉ List.map fst d -> dict_set key value d = d ++ [(key, value)].
Proof.
  induction d as [|[k v] d IH]; intros Hk; [reflexivity|].
  cbn [dict_set List.map fst] in *.
  apply not_elem_of_cons in Hk. destruct Hk as [Hne Hk].
  destruct (String.eqb k key) eqn:E.
  - apply String.eqb_eq in E. congruence.
  - rewrite IH by assumption. reflexivity.
Qed.

Lemma fold_dict_set_distinct (f : Value -> Value) (d : Dict) :
  forall acc : Dict,
    NoDup (List.map fst acc ++ List.map fst d) ->
    fold_left (fun serialized kv =>
                 match kv with (key, x) => dict_set key (f x) serialized end) d acc
    = acc ++ List.map (fun kv => (kv.1, f kv.2)) d.
Proof.
  induction d as [|[k v] d IH]; intros acc Hnd.
  - cbn. now rewrite app_nil_r.
  - cbn [fold_left List.map fst snd] in *.
    assert (Hk : k ∉ List.map fst acc).
    { apply NoDup_app in Hnd. destruct Hnd as (_ & Hd & _).
      intros Hin. apply (Hd k Hin). left. }
    rewrite dict_set_fresh by assumption.
    rewrite IH.
    + now rewrite <- app_assoc.
    + rewrite List.map_app. cbn [List.map fst]. now rewrite <- app_assoc.
Qed.

(** X5. On a dict with distinct keys [_serialize_args] keeps the keys and
    their order and sanitizes each value on its own. *)
Theorem serialize_args_keeps_keys (d : Dict) :
  NoDup (List.map fst d) ->
  _serialize_args d = List.map (fun kv => (kv.1, serialize_value kv.2)) d
  /\ List.map fst (_serialize_args d) = List.map fst d
  /\ length (_serialize_args d) = length d.
Proof.
  intros Hnd.
  assert (H : _serialize_args d
              = List.map (fun kv => (kv.1, serialize_value kv.2)) d).
  { destruct d as [|x d]; [reflexivity|].
    unfold _serialize_args.
    rewrite (fold_dict_set_distinct serialize_value (x :: d) []); [reflexivity|].
    exact Hnd. }
  rewrite H. split; [reflexivity|]. split.
  - rewrite List.map_map. apply List.map_ext. reflexivity.
  - apply List.length_map.
Qed.

Lemma serialize_args_keeps_keys_witness :
  List.map fst (_serialize_args flat_args) = ["out"%string; "deps"%string].
Proof.
  refine (proj1 (proj2 (serialize_args_keeps_keys flat_args _))).
  apply (bool_decide_unpack (NoDup (List.map fst flat_args))).
  vm_compute. exact I.
Defined.

Lemma serialize_item_json_ok (item : Value) :
  json_ok item = true -> serialize_item item = item.
Proof. destruct item; try reflexivity; discriminate. Qed.

Lemma map_serialize_item_json_ok (l : list Value) :
  forallb json_ok l = true -> List.map serialize_item l = l.
Proof.
  induction l as [|x l IH]; [reflexivity|].
  cbn [forallb List.map]. intros H. apply andb_prop in H. destruct H as [Hx Hl].
  now rewrite IH, serialize_item_json_ok.
Qed.

Lemma dumps_pairs_map (g : Value -> Value) (d : Dict) :
  Forall (fun kv => json_dumps (g kv.2) = json_dumps kv.2) d ->
  dumps_pairs json_dumps (List.map (fun kv => (kv.1, g kv.2)) d)
  = dumps_pairs json_dumps d.
Proof.
  induction 1 as [|[k x] d Hx _ IH]; [reflexivity|].
  cbn [List.map dumps_pairs fst snd] in *. fold (dumps_pairs json_dumps).
  rewrite Hx. destruct (json_dumps x) as [sx|]; [|reflexivity].
  destruct d as [|kv d]; [reflexivity|].
  cbn [List.map] in IH |- *. now rewrite IH.
Qed.

(** X6. Sanitization does not show in the output for arguments that were
    serializable to begin with: with distinct keys in every dict, the
    sanitized dict has the same serialized form as the dict itself (a tuple
    and the list made of it are both written as an array). *)
Theorem sanitization_keeps_serialized_form (d : Dict) :
  distinct_keys (VDict d) = true -> json_ok (VDict d) = true ->
  json_dumps (VDict (_serialize_args d)) = json_dumps (VDict d).
Proof.
  rewrite serialize_args_value. generalize (VDict d). clear d. intros v.
  induction v as [| b | n | r | s | p | d IH | l IH | l IH | t]
    using Value_nested_ind; try reflexivity.
  - discriminate.
  - cbn [distinct_keys json_ok serialize_value]. intros Hk Hok.
    apply andb_prop in Hk. destruct Hk as [Hnd Hk].
    apply bool_decide_eq_true_1 in Hnd.
    rewrite (fold_dict_set_distinct serialize_value d []) by exact Hnd.
    cbn [app json_dumps]. rewrite dumps_pairs_map; [reflexivity|].
    rewrite forallb_forall in Hk, Hok. rewrite List.Forall_forall in IH |- *.
    intros kv Hkv. apply IH; auto.
  - cbn [json_ok serialize_value]. intros _ Hok.
    now rewrite map_serialize_item_json_ok.
  - cbn [json_ok serialize_value]. intros _ Hok.
    now rewrite map_serialize_item_json_ok.
Qed.

Lemma sanitization_keeps_serialized_form_witness :
  json_dumps (VDict (_serialize_args plain_args)) = json_dumps (VDict plain_args).
Proof.
  apply sanitization_keeps_serialized_form.
  - vm_compute. reflexivity.
  - reflexivity.
Defined.






(* ===================================================================== *)
(** * More on the tracer session                                          *)
(* ===================================================================== *)

Lemma set_active_spans_same (t : Tracer) : set_active_spans t (_active_spans t) = t.
Proof. destruct t; reflexivity. Qed.

Lemma set_async_events_same (t : Tracer) : set_async_events t (_async_events t) = t.
Proof. destruct t; reflexivity. Qed.

(** The metadata event that [start] writes. *)
Lemma start_fresh (env : Env) (t : Tracer) (fs : FS) :
  enabled t = true -> _writer t = None ->
  exists js,
    serialized
      (TraceEvent_init env "process_name" METADATA None None (thread_ident env)
         (Some 0) "default" (Some [("name"%string, VStr "Habitat Process")]) None)
      js
    /\ start env t fs
       = (set_writer t
            (Some {| filepath := output_file t; auto_flush := true;
                     _file := Some (output_file t); _first_event := false |}),
          <[output_file t := ("[" +:+ nl) +:+ "  " +:+ js]> fs,
          Returned tt).
Proof.
  intros He Hw.
  set (M := TraceEvent_init env "process_name" METADATA None None (thread_ident env)
              (Some 0) "default" (Some [("name"%string, VStr "Habitat Process")]) None).
  destruct (serialized_exists M eq_refl) as [js Hjs].
  exists js. split; [exact Hjs|].
  unfold start. rewrite He, Hw. cbn [negb]. unfold open, write_metadata.
  cbn [ChromeTraceWriter_init _file filepath auto_flush]. fold M.
  erewrite write_event_serialized; [| reflexivity | exact Hjs].
  cbn [_first_event filepath auto_flush separator].
  rewrite file_write_write. unfold file_write.
  rewrite lookup_insert_eq, insert_insert_eq. reflexivity.
Qed.

(** X8. [start] on an enabled tracer that has no writer creates or
    truncates the output file, whatever it held, and leaves in it the
    opening token and one metadata event named [process_name], on lane 0,
    whose process id is the identity of the calling thread (0 when it has
    none); no other file is touched and the tracer now has an open writer. *)
Theorem start_writes_process_metadata (env : Env) (t : Tracer) (fs : FS) :
  enabled t = true -> _writer t = None ->
  exists M js w,
    serialized M js
    /\ event_type M = METADATA /\ name M = "process_name"%string
    /\ thread_id M = 0 /\ process_id M = or_0 (thread_ident env)
    /\ args M = [("name"%string, VStr "Habitat Process")]
    /\ (start env t fs).2 = Returned tt
    /\ (start env t fs).1.2 = <[output_file t := ("[" +:+ nl) +:+ "  " +:+ js]> fs
    /\ _writer (start env t fs).1.1 = Some w
    /\ _file w = Some (output_file t) /\ _first_event w = false.
Proof.
  intros He Hw. destruct (start_fresh env t fs He Hw) as (js & Hjs & Hs).
  eexists _, js, _. split; [exact Hjs|].
  rewrite Hs. cbn [fst snd _writer set_writer _file _first_event].
  split_refl.
  split.
  { cbn [process_id TraceEvent_init].
    destruct (thread_ident env) as [n|]; [|reflexivity].
    cbn [or_0]. destruct (n =? 0) eqn:E; [|reflexivity].
    apply Z.eqb_eq in E. congruence. }
  repeat split.
Qed.

Lemma start_writes_process_metadata_witness :
  exists js,
    (start an_env (Tracer_init "trace.json" true) stale_fs).1.2
    = {[ "trace.json"%string := ("[" +:+ nl) +:+ "  " +:+ js ]}.
Proof.
  destruct (start_writes_process_metadata an_env (Tracer_init "trace.json" true)
              stale_fs eq_refl eq_refl)
    as (M & js & w & _ & _ & _ & _ & _ & _ & _ & H & _).
  exists js. rewrite H. unfold stale_fs. cbn [output_file Tracer_init].
  apply insert_singleton_eq.
Defined.

(** X9. [start] and [stop] are idempotent, in every state of the tracer: a
    second [start] changes nothing and returns, and so does a second
    [stop]. *)
Theorem start_stop_idempotent (env env2 : Env) (t : Tracer) (fs : FS) :
  start env2 (start env t fs).1.1 (start env t fs).1.2
  = ((start env t fs).1.1, (start env t fs).1.2, Returned tt)
  /\ stop (stop t fs).1 (stop t fs).2 = stop t fs.
Proof.
  split.
  - destruct (enabled t) eqn:He.
    + destruct (_writer t) as [w|] eqn:Hw.
      * unfold start. rewrite He, Hw. cbn [negb fst snd]. now rewrite He, Hw.
      * destruct (start_fresh env t fs He Hw) as (js & _ & Hs). rewrite Hs.
        cbn [fst snd]. unfold start. cbn [enabled set_writer _writer].
        now rewrite He.
    + unfold start. rewrite He. cbn [negb fst snd]. now rewrite He.
  - unfold stop. destruct (enabled t) eqn:He; cbn [negb].
    + destruct (_writer t) as [w|] eqn:Hw.
      * destruct (close w fs) as [w' fs']. cbn [fst snd enabled set_writer _writer].
        now rewrite He.
      * cbn [fst snd]. now rewrite He, Hw.
    + cbn [fst snd]. now rewrite He.
Qed.

(** X10. [end_span] with a token that is not registered and [async_end]
    with an id that has no registered begin event change nothing, in the
    tracer or in the files, and return, whatever their arguments; the lane
    that an [async_instant] cached for the id is not released by such an
    [async_end]. *)
Theorem unknown_token_is_a_no_op (env : Env) (t : Tracer) (fs : FS)
    (key : string) (a : option Dict) :
  (_active_spans t !! key = None -> end_span env t fs key a = (t, fs, Returned tt))
  /\ (_async_events t !! key = None ->
      async_end env t fs key a = (t, fs, Returned tt)).
Proof.
  split; intros H.
  - unfold end_span. rewrite H, delete_id by exact H.
    now rewrite set_active_spans_same.
  - unfold async_end. rewrite H, delete_id by exact H.
    now rewrite set_async_events_same.
Qed.

Lemma unknown_token_is_a_no_op_witness :
  end_span an_env a_started_tracer a_started_fs "no-such-token"
    (Some [("handle"%string, VObject "object")])
  = (a_started_tracer, a_started_fs, Returned tt).
Proof.
  apply (proj1 (unknown_token_is_a_no_op an_env a_started_tracer a_started_fs
                  "no-such-token" (Some [("handle"%string, VObject "object")]))).
  reflexivity.
Defined.

(** X11. [async_instant] needs no [async_begin]: on a started, enabled
    tracer it hands the writer exactly one async-instant event that carries
    the id and the lane computed from the id, and registers nothing but
    that lane.  The write returns when the arguments serialize and raises
    the [TypeError] of the encoder when they do not; the lane is cached in
    both cases.  When no begin event is registered for the id, an
    [async_end] that follows is a no-op and leaves the lane in the cache. *)
Theorem async_instant_needs_no_begin (env env2 : Env) (t : Tracer) (fs : FS)
    (id nm cat : string) (a a2 : option Dict) (w : ChromeTraceWriter) :
  enabled t = true -> _writer t = Some w -> is_Some (_file w) -> lanes_ok t ->
  exists E w1 t1 fs1 r,
    async_instant env t fs id nm cat a = (t1, fs1, r)
    /\ event_type E = ASYNC_INSTANT /\ name E = nm /\ category E = cat
    /\ async_id E = Some id /\ thread_id E = async_lane id
    /\ write_event w fs E = (w1, fs1, r)
    /\ (args_ok a = true -> r = Returned tt)
    /\ (args_ok a = false ->
        exists bad, unencodable bad /\ r = Raised (not_serializable bad))
    /\ _writer t1 = Some w1
    /\ _async_events t1 = _async_events t
    /\ _active_spans t1 = _active_spans t
    /\ _async_thread_ids t1 !! id = Some (async_lane id)
    /\ (_async_events t !! id = None ->
        async_end env2 t1 fs1 id a2 = (t1, fs1, Returned tt)).
Proof.
  intros He Hw Hopen Hok.
  unfold async_instant.
  destruct (_get_async_thread_id_lane t id Hok) as (Hlane & Hcache & _).
  assert (H0 : enabled (_get_async_thread_id t id).1 = true
               /\ _writer (_get_async_thread_id t id).1 = Some w
               /\ _async_events (_get_async_thread_id t id).1 = _async_events t
               /\ _active_spans (_get_async_thread_id t id).1 = _active_spans t).
  { unfold _get_async_thread_id.
    destruct (_async_thread_ids t !! id); repeat split; assumption. }
  destruct (_get_async_thread_id t id) as [t0 lane].
  cbn [fst snd] in Hlane, Hcache, H0. destruct H0 as (He0 & Hw0 & Hev0 & Hsp0).
  subst lane.
  set (E := TraceEvent_init env nm ASYNC_INSTANT None None None
              (Some (async_lane id)) cat a (Some id)).
  destruct (write_event w fs E) as [[w1 fs1] r] eqn:HwE.
  exists E, w1, (set_writer t0 (Some w1)), fs1, r.
  split.
  { rewrite (_write_event_recording t0 fs E w) by assumption.
    rewrite HwE. reflexivity. }
  split_refl. split; [exact HwE|].
  split.
  { intros Ha. destruct (write_event_ok w fs E Hopen) as (w1' & fs1' & HwE').
    - unfold E. now rewrite TraceEvent_init_args_ok.
    - congruence. }
  split.
  { intros Ha. destruct (args_refused a Ha) as (d & bad & _ & Hu & _ & Hr).
    exists bad. split; [exact Hu|]. destruct Hopen as [f Hf].
    pose proof (write_event_raises w fs E f _ Hf (Hr _ _ _ _ _ _ _ _ _)) as Hx.
    rewrite HwE in Hx. exact Hx. }
  split; [reflexivity|].
  split; [exact Hev0|]. split; [exact Hsp0|]. split; [exact Hcache|].
  intros Hnone. unfold async_end.
  cbn [_async_events set_writer]. rewrite Hev0, Hnone.
  rewrite delete_id by exact Hnone. rewrite <- Hev0.
  change (set_async_events (set_writer t0 (Some w1)) (_async_events t0))
    with (set_async_events (set_writer t0 (Some w1))
            (_async_events (set_writer t0 (Some w1)))).
  now rewrite set_async_events_same.
Qed.

Lemma async_instant_needs_no_begin_witness :
  exists E t1 fs1 bad,
    async_instant another_env a_started_tracer a_started_fs "op-7" "progress"
      "net" (Some refused_args) = (t1, fs1, Raised (not_serializable bad))
    /\ event_type E = ASYNC_INSTANT /\ thread_id E = async_lane "op-7"
    /\ _async_thread_ids t1 !! "op-7"%string = Some (async_lane "op-7")
    /\ async_end an_env t1 fs1 "op-7" None = (t1, fs1, Returned tt).
Proof.
  destruct (async_instant_needs_no_begin another_env an_env a_started_tracer
              a_started_fs "op-7" "progress" "net" (Some refused_args) None
              a_started_writer)
    as (E & w1 & t1 & fs1 & r & H1 & H2 & _ & _ & _ & H3 & _ & _ & Hbad & _ & _ & _
        & H4 & H5).
  - reflexivity.
  - reflexivity.
  - eexists; reflexivity.
  - intros id lane H. vm_compute in H. discriminate.
  - destruct (Hbad eq_refl) as (bad & _ & Hr). subst r.
    exists E, t1, fs1, bad. repeat split; try assumption. apply H5. reflexivity.
Defined.



(** X13. [metadata] writes, on a started and enabled tracer, one metadata
    event on lane 0 whatever the calling thread or task, in the category
    [default]; its process id is the one given or, failing that, the
    identity of the calling thread (0 when it has none). *)
Theorem metadata_on_lane_zero (env : Env) (t : Tracer) (fs : FS) (nm : string)
    (d : Dict) (pid : option Z) (w : ChromeTraceWriter) :
  enabled t = true -> _writer t = Some w -> is_Some (_file w) ->
  args_ok (Some d) = true ->
  exists E w1 fs1,
    metadata env t fs nm d pid = (set_writer t (Some w1), fs1, Returned tt)
    /\ write_event w fs E = (w1, fs1, Returned tt)
    /\ event_type E = METADATA /\ name E = nm
    /\ category E = "default"%string
    /\ thread_id E = 0
    /\ process_id E
       = match pid with Some p => p | None => or_0 (thread_ident env) end
    /\ timestamp E = now env.
Proof.
  intros He Hw Hopen Hd.
  set (E := TraceEvent_init env nm METADATA None None
              (Some (match pid with
                     | None => or_0 (thread_ident env)
                     | Some p => p
                     end)) (Some 0) "default" (Some d) None).
  destruct (write_event_ok w fs E Hopen) as (w1 & fs1 & HwE).
  { unfold E. now rewrite TraceEvent_init_args_ok. }
  exists E, w1, fs1. split.
  { unfold metadata, write_metadata. rewrite He, Hw. fold E. rewrite HwE.
    reflexivity. }
  split; [exact HwE|]. split_refl. reflexivity.
Qed.

Lemma metadata_on_lane_zero_witness :
  exists E w1 fs1,
    metadata another_env a_started_tracer a_started_fs "thread_name"
      [("name"%string, VStr "worker")] None
    = (set_writer a_started_tracer (Some w1), fs1, Returned tt)
    /\ thread_id E = 0 /\ process_id E = 5151.
Proof.
  destruct (metadata_on_lane_zero another_env a_started_tracer a_started_fs
              "thread_name" [("name"%string, VStr "worker")] None a_started_writer)
    as (E & w1 & fs1 & H1 & _ & _ & _ & _ & H2 & H3 & _).
  - reflexivity.
  - reflexivity.
  - eexists; reflexivity.
  - reflexivity.
  - exists E, w1, fs1. repeat split; assumption.
Defined.

Lemma _get_async_thread_id_frame (t : Tracer) (async_id : string) :
  enabled (_get_async_thread_id t async_id).1 = enabled t
  /\ _writer (_get_async_thread_id t async_id).1 = _writer t.
Proof.
  unfold _get_async_thread_id.
  destruct (_async_thread_ids t !! async_id); split; reflexivity.
Qed.

Lemma metadata_recording (env : Env) (t : Tracer) (fs : FS) (nm : string)
    (d : Dict) (pid : option Z) (w : ChromeTraceWriter) :
  enabled t = true -> _writer t = Some w ->
  metadata env t fs nm d pid
  = _write_event t fs
      (TraceEvent_init env nm METADATA None None
         (Some (match pid with
                | None => or_0 (thread_ident env)
                | Some p => p
                end)) (Some 0) "default" (Some d) None).
Proof.
  intros He Hw. unfold metadata, _write_event, write_metadata.
  now rewrite He, Hw.
Qed.

Lemma call_disabled (env : Env) (c : Call) (t : Tracer) (fs : FS) :
  enabled t = false ->
  exists t',
    call env c t fs = (t', fs, Returned tt)
    /\ enabled t' = false /\ _writer t' = _writer t.
Proof.
  intros He. destruct c as [nm cat a | nm v cat | nm d pid | nm cat a | tok a
                           | nm i cat a | i nm cat a | i a]; cbn [call].
  - exists t. unfold instant. rewrite _write_event_dropped by (left; exact He).
    repeat split; assumption.
  - exists t. unfold counter. rewrite _write_event_dropped by (left; exact He).
    repeat split; assumption.
  - exists t. unfold metadata. rewrite He. repeat split; assumption.
  - unfold begin_span. rewrite _write_event_dropped by (left; exact He).
    eexists. cbn [drop_value]. repeat split; assumption.
  - unfold end_span. destruct (_active_spans t !! tok).
    + rewrite _write_event_dropped by (left; exact He).
      eexists. repeat split; assumption.
    + eexists. repeat split; assumption.
  - unfold async_begin.
    destruct (_get_async_thread_id_frame t
                (match i with None => uuid4 env | Some j => j end)) as [H1 H2].
    destruct (_get_async_thread_id t _) as [t0 lane]. cbn [fst] in H1, H2.
    rewrite _write_event_dropped by (left; cbn; congruence).
    eexists. cbn [drop_value]. repeat split; cbn; congruence.
  - unfold async_instant.
    destruct (_get_async_thread_id_frame t i) as [H1 H2].
    destruct (_get_async_thread_id t i) as [t0 lane]. cbn [fst] in H1, H2.
    rewrite _write_event_dropped by (left; congruence).
    eexists. repeat split; congruence.
  - unfold async_end. destruct (_async_events t !! i).
    + rewrite _write_event_dropped by (left; exact He).
      eexists. repeat split; assumption.
    + eexists. repeat split; assumption.
Qed.

(** X14. A disabled tracer never touches a file and never raises: [start]
    and [stop] change nothing (a writer that is open stays open and its
    file unfinished), every recording call returns with the files as they
    were, and [span] adds nothing to what its body does. *)
Theorem disabled_tracer_never_writes (env : Env) (t : Tracer) (fs : FS)
    (calls : list (Env * Call)) :
  enabled t = false ->
  start env t fs = (t, fs, Returned tt)
  /\ stop t fs = (t, fs)
  /\ (run calls t fs).1.2 = fs
  /\ (run calls t fs).2 = Returned tt
  /\ enabled (run calls t fs).1.1 = false
  /\ _writer (run calls t fs).1.1 = _writer t
  /\ forall (A : Type) (enter exit : Env) (nm cat : string) (a : option Dict)
       (body : Tracer -> FS -> Tracer * FS * outcome A),
       enabled (body t fs).1.1 = false ->
       span enter exit t fs nm cat a body = body t fs.
Proof.
  intros He.
  split; [unfold start; now rewrite He|].
  split; [unfold stop; now rewrite He|].
  assert (Hrun : (run calls t fs).1.2 = fs /\ (run calls t fs).2 = Returned tt
                 /\ enabled (run calls t fs).1.1 = false
                 /\ _writer (run calls t fs).1.1 = _writer t).
  { revert t He. induction calls as [|[e c] calls IH]; intros t He.
    - repeat split; assumption.
    - destruct (call_disabled e c t fs He) as (t' & Hc & He' & Hw').
      cbn [run]. rewrite Hc. destruct (IH t' He') as (H1 & H2 & H3 & H4).
      repeat split; congruence. }
  destruct Hrun as (H1 & H2 & H3 & H4).
  split; [exact H1|]. split; [exact H2|]. split; [exact H3|]. split; [exact H4|].
  intros A enter exit nm cat a body Hb. unfold span.
  destruct (body t fs) as [[t1 fs1] r]. cbn [fst] in Hb.
  rewrite _write_event_dropped by (left; exact Hb). reflexivity.
Qed.

Lemma disabled_tracer_never_writes_witness :
  (run some_calls (Tracer_init "trace.json" false) stale_fs).1.2 = stale_fs
  /\ (run some_calls (Tracer_init "trace.json" false) stale_fs).2 = Returned tt.
Proof.
  destruct (disabled_tracer_never_writes an_env (Tracer_init "trace.json" false)
              stale_fs some_calls eq_refl) as (_ & _ & H1 & H2 & _).
  split; assumption.
Defined.

Lemma events_text_snoc (jsons : list string) (js : string) :
  forall b : bool,
    events_text b (jsons ++ [js])
    = events_text b jsons
      +:+ separator (match jsons with [] => b | _ => false end) +:+ "  " +:+ js.
Proof.
  induction jsons as [|j jsons IH]; intros b.
  - cbn [app events_text]. now rewrite append_empty_r.
  - cbn [app events_text]. rewrite IH. rewrite !append_assoc.
    destruct jsons; reflexivity.
Qed.

Lemma recording_same (t t' : Tracer) (fs : FS) (f : string) (jsons : list string) :
  enabled t' = enabled t -> _writer t' = _writer t ->
  recording t fs f jsons -> recording t' fs f jsons.
Proof. unfold recording. intros -> ->. trivial. Qed.

Lemma recording_write (t t1 : Tracer) (fs fs1 : FS) (f : string)
    (jsons : list string) (e : TraceEvent) :
  recording t fs f jsons ->
  _write_event t fs e = (t1, fs1, Returned tt) ->
  exists js, serialized e js /\ recording t1 fs1 f (jsons ++ [js]).
Proof.
  intros (He & w & Hw & Hf & Hfe & Hc) H.
  rewrite (_write_event_recording t fs e w He Hw) in H.
  destruct (write_event w fs e) as [[w1 fs1'] [[]|x]] eqn:HwE;
    cbn [fst snd] in H; [|discriminate].
  inversion H; subst t1 fs1. clear H.
  apply write_event_returned in HwE.
  destruct HwE as (f' & js & Hf' & Hjs & Hfs & Hw1).
  rewrite Hf in Hf'. inversion Hf'; subst f'.
  exists js. split; [exact Hjs|].
  split; [exact He|]. exists w1. subst w1 fs1'. cbn [_writer set_writer _file _first_event].
  split; [reflexivity|]. split; [reflexivity|].
  split; [destruct jsons; reflexivity|].
  rewrite file_write_lookup, Hc. cbn [default from_option id].
  rewrite events_text_snoc, Hfe, !append_assoc. reflexivity.
Qed.

Lemma call_recording (env : Env) (c : Call) (t t1 : Tracer) (fs fs1 : FS)
    (f : string) (jsons : list string) :
  recording t fs f jsons ->
  call env c t fs = (t1, fs1, Returned tt) ->
  exists more,
    Forall2 serialized (call_events env c t) more
    /\ recording t1 fs1 f (jsons ++ more).
Proof.
  intros Hrec H.
  assert (Hext : forall t0 e,
            enabled t0 = enabled t -> _writer t0 = _writer t ->
            _write_event t0 fs e = (t1, fs1, Returned tt) ->
            exists more,
              Forall2 serialized [e] more /\ recording t1 fs1 f (jsons ++ more)).
  { intros t0 e H1 H2 Hw.
    destruct (recording_write t0 t1 fs fs1 f jsons e
                (recording_same t t0 fs f jsons H1 H2 Hrec) Hw) as (js & Hjs & Hr).
    exists [js]. split; [repeat constructor; exact Hjs | exact Hr]. }
  assert (Hnone : forall t0,
            enabled t0 = enabled t -> _writer t0 = _writer t ->
            exists more : list string,
              Forall2 serialized [] more /\ recording t0 fs f (jsons ++ more)).
  { intros t0 H1 H2. exists []. split; [constructor|]. rewrite app_nil_r.
    exact (recording_same t t0 fs f jsons H1 H2 Hrec). }
  destruct c as [nm cat a | nm v cat | nm d pid | nm cat a | tok a
                | nm i cat a | i nm cat a | i a]; cbn [call call_events] in H |- *.
  - eapply Hext; [| | exact H]; reflexivity.
  - eapply Hext; [| | exact H]; reflexivity.
  - destruct Hrec as (He & w & Hw & Hrest).
    rewrite (metadata_recording env t fs nm d pid w He Hw) in H.
    eapply Hext; [| | exact H]; reflexivity.
  - unfold begin_span in H.
    destruct (_write_event _ fs _) as [[t' fs'] [[]|x]] eqn:Hw;
      cbn [drop_value] in H; [|discriminate].
    inversion H; subst t' fs'. eapply Hext; [| | exact Hw]; reflexivity.
  - unfold end_span in H. destruct (_active_spans t !! tok).
    + eapply Hext; [| | exact H]; reflexivity.
    + inversion H; subst t1 fs1. apply Hnone; reflexivity.
  - unfold async_begin in H.
    destruct (_get_async_thread_id_frame t
                (match i with None => uuid4 env | Some j => j end)) as [H1 H2].
    destruct (_get_async_thread_id t _) as [t0 lane]. cbn [fst snd] in H1, H2 |- *.
    destruct (_write_event _ fs _) as [[t' fs'] [[]|x]] eqn:Hw;
      cbn [drop_value] in H; [|discriminate].
    inversion H; subst t' fs'. eapply Hext; [| | exact Hw]; assumption.
  - unfold async_instant in H.
    destruct (_get_async_thread_id_frame t i) as [H1 H2].
    destruct (_get_async_thread_id t i) as [t0 lane]. cbn [fst snd] in H1, H2 |- *.
    eapply Hext; [| | exact H]; assumption.
  - unfold async_end in H. cbn [_async_thread_ids set_async_events] in H.
    destruct (_async_events t !! i).
    + destruct (_write_event _ fs _) as [[t' fs'] [[]|x]] eqn:Hw; [|discriminate].
      inversion H; subst t1 fs1.
      assert (Hr0 : recording
                      (set_async_events t (delete i (_async_events t))) fs f jsons)
        by (eapply recording_same; [| | exact Hrec]; reflexivity).
      destruct (recording_write _ _ _ _ _ _ _ Hr0 Hw) as (js & Hjs & Hr).
      exists [js]. split; [repeat constructor; exact Hjs|].
      eapply recording_same; [| | exact Hr]; reflexivity.
    + inversion H; subst t1 fs1. apply Hnone; reflexivity.
Qed.

Lemma call_events_length (env : Env) (c : Call) (t : Tracer) :
  (length (call_events env c t) <= 1)%nat.
Proof.
  destruct c as [nm cat a | nm v cat | nm d pid | nm cat a | tok a
                | nm i cat a | i nm cat a | i a]; cbn [call_events];
    try (cbn; lia).
  - destruct (_active_spans t !! tok); cbn; lia.
  - destruct (_async_events t !! i); cbn; lia.
Qed.

Lemma run_events_length (calls : list (Env * Call)) :
  forall (t : Tracer) (fs : FS),
    (length (run_events calls t fs) <= length calls)%nat.
Proof.
  induction calls as [|[env c] calls IH]; intros t fs; [cbn; lia|].
  cbn [run_events length]. rewrite length_app.
  pose proof (call_events_length env c t).
  pose proof (IH (call env c t fs).1.1 (call env c t fs).1.2). lia.
Qed.

Lemma run_recording (calls : list (Env * Call)) :
  forall (t t1 : Tracer) (fs fs1 : FS) (f : string) (jsons : list string),
    recording t fs f jsons ->
    run calls t fs = (t1, fs1, Returned tt) ->
    exists more,
      Forall2 serialized (run_events calls t fs) more
      /\ recording t1 fs1 f (jsons ++ more).
Proof.
  induction calls as [|[env c] calls IH]; intros t t1 fs fs1 f jsons Hrec H.
  - cbn in H. inversion H; subst. exists []. rewrite app_nil_r.
    split; [constructor | assumption].
  - cbn [run run_events] in H |- *.
    destruct (call env c t fs) as [[t' fs'] [[]|x]] eqn:Hc; [|discriminate].
    destruct (call_recording env c t t' fs fs' f jsons Hrec Hc) as (m1 & Hs1 & Hr).
    destruct (IH t' t1 fs' fs1 f (jsons ++ m1) Hr H) as (m2 & Hs2 & Hr2).
    exists (m1 ++ m2). cbn [fst snd]. split.
    + apply Forall2_app; assumption.
    + rewrite app_assoc. exact Hr2.
Qed.

(** X15. A [with tracer:] block on an enabled tracer that has no writer,
    whose body is any sequence of recording calls that all return, leaves
    the output file as a well-formed array of event records: the opening
    token, the serialized form of the process metadata event and then of
    the event of each call, in the order of the calls, with a comma between
    two neighbours, and the closing token.  A call gives one event, or none
    when it is an [end_span] or [async_end] of an unregistered token or id.
    The tracer is left without a writer. *)
Theorem with_tracer_session_is_array (env : Env) (t : Tracer) (fs : FS)
    (calls : list (Env * Call)) :
  enabled t = true -> _writer t = None ->
  (with_Tracer env t fs (run calls)).2 = Returned tt ->
  exists jsons,
    Forall2 serialized
      (process_name_event env
       :: run_events calls (start env t fs).1.1 (start env t fs).1.2) jsons
    /\ (with_Tracer env t fs (run calls)).1.2 !! output_file t
       = Some (array_text jsons)
    /\ (1 <= length jsons <= 1 + length calls)%nat
    /\ _writer (with_Tracer env t fs (run calls)).1.1 = None.
Proof.
  intros He Hw. unfold with_Tracer.
  destruct (start_fresh env t fs He Hw) as (js & Hjs & Hs). rewrite Hs.
  cbn [fst snd].
  set (t0 := set_writer t _). set (fs0 := <[output_file t := _]> fs).
  assert (Hrec : recording t0 fs0 (output_file t) [js]).
  { split; [exact He|]. eexists. split; [reflexivity|]. split; [reflexivity|].
    split; [reflexivity|]. unfold fs0. rewrite lookup_insert_eq.
    cbn [events_text]. unfold separator. now rewrite append_empty_r. }
  destruct (run calls t0 fs0) as [[t1 fs1] r] eqn:Hrun.
  destruct (stop t1 fs1) as [t2 fs2] eqn:Hstop. cbn [fst snd].
  intros Hr. subst r.
  destruct (run_recording calls t0 t1 fs0 fs1 (output_file t) [js] Hrec Hrun)
    as (more & Hser & (He1 & w1 & Hw1 & Hf1 & _ & Hc1)).
  unfold stop in Hstop. rewrite He1, Hw1 in Hstop. cbn [negb] in Hstop.
  unfold close in Hstop. rewrite Hf1 in Hstop. inversion Hstop; subst t2 fs2.
  exists (js :: more). split; [|split; [|split]].
  - constructor; [exact Hjs | exact Hser].
  - rewrite file_write_lookup, Hc1. cbn [default from_option id].
    unfold array_text. rewrite <- events_text_join, !append_assoc. reflexivity.
  - cbn [length]. rewrite <- (Forall2_length _ _ _ Hser).
    pose proof (run_events_length calls t0 fs0). lia.
  - reflexivity.
Qed.

Lemma with_tracer_session_is_array_witness :
  exists jsons,
    Forall2 serialized
      (process_name_event an_env
       :: run_events good_calls
            (start an_env (Tracer_init "trace.json" true) stale_fs).1.1
            (start an_env (Tracer_init "trace.json" true) stale_fs).1.2) jsons
    /\ (with_Tracer an_env (Tracer_init "trace.json" true) stale_fs (run good_calls)).1.2
         !! "trace.json"%string = Some (array_text jsons)
    /\ (1 <= length jsons <= 8)%nat.
Proof.
  destruct (with_tracer_session_is_array an_env (Tracer_init "trace.json" true)
              stale_fs good_calls eq_refl eq_refl)
    as (jsons & H0 & H1 & H2 & _).
  - vm_compute. reflexivity.
  - exists jsons. split; [exact H0|]. split; [exact H1 | exact H2].
Defined.

(* ===================================================================== *)
(** * The global tracer and the decorators                                *)
(* ===================================================================== *)

(** X16. The package ([__init__.py]) and [tracer.py] each keep a global
    tracer of their own.  The decorators read the one of [tracer.py]:
    setting the global tracer through the package leaves it unset, and a
    decorated function, sync or async, then runs exactly as the function
    itself, with no event recorded. *)
Theorem package_global_is_not_the_decorators (A : Type) (tracer : option nat)
    (nm : option string) (cat : string) (dargs : option Dict)
    (func_name : string) (func : World -> World * outcome A)
    (enter exit : Env) (w : World) :
  get_global_tracer w = None ->
  package_get_global_tracer (package_set_global_tracer tracer w) = tracer
  /\ get_global_tracer (package_set_global_tracer tracer w) = None
  /\ trace_function nm cat dargs func_name func enter exit
       (package_set_global_tracer tracer w)
     = func (package_set_global_tracer tracer w)
  /\ trace_async_function nm cat dargs func_name func enter exit
       (package_set_global_tracer tracer w)
     = func (package_set_global_tracer tracer w)
  /\ package_get_global_tracer (set_global_tracer tracer w)
     = package_get_global_tracer w.
Proof.
  intros Hg. split; [reflexivity|]. split; [exact Hg|].
  unfold trace_function, trace_async_function, get_global_tracer in *.
  cbn [tracer_global_tracer package_set_global_tracer]. rewrite Hg.
  repeat split.
Qed.

Lemma package_global_is_not_the_decorators_witness :
  trace_function None "function" None "fetch" a_function an_env another_env
    (package_set_global_tracer (Some 0%nat) a_world)
  = (package_set_global_tracer (Some 0%nat) a_world, Returned 42).
Proof.
  apply (proj1 (proj2 (proj2
           (package_global_is_not_the_decorators Z (Some 0%nat) None "function"
              None "fetch" a_function an_env another_env a_world eq_refl)))).
Defined.

(** The wrapper of [trace_function] is the [span] scope of the global
    tracer: for a function that works on that tracer and the files, it
    does to them what [span] does. *)
Lemma trace_function_is_span (A : Type) (nm : option string) (cat : string)
    (dargs : option Dict) (func_name : string)
    (body : Tracer -> FS -> Tracer * FS * outcome A) (enter exit : Env)
    (w : World) (a : nat) :
  get_global_tracer w = Some a -> enabled (objects w a) = true ->
  objects (trace_function nm cat dargs func_name (at_tracer a body) enter exit w).1 a
  = (span enter exit (objects w a) (files w) (name_or nm func_name) cat dargs
       body).1.1
  /\ files (trace_function nm cat dargs func_name (at_tracer a body) enter exit w).1
     = (span enter exit (objects w a) (files w) (name_or nm func_name) cat dargs
          body).1.2
  /\ (trace_function nm cat dargs func_name (at_tracer a body) enter exit w).2
     = (span enter exit (objects w a) (files w) (name_or nm func_name) cat dargs
          body).2
  /\ forall b, b <> a ->
       objects (trace_function nm cat dargs func_name (at_tracer a body)
                  enter exit w).1 b
       = objects w b.
Proof.
  intros Hg He. unfold trace_function, span. rewrite Hg, He. cbn [negb].
  unfold at_tracer at 1 3 5 7.
  destruct (body (objects w a) (files w)) as [[t1 fs1] r].
  unfold at_tracer. cbn [objects files]. rewrite Nat.eqb_refl.
  destruct (_write_event t1 fs1 _) as [[t2 fs2] [[]|x]];
    cbn [fst snd objects files]; rewrite ?Nat.eqb_refl;
    (split; [reflexivity|]; split; [reflexivity|]; split; [reflexivity|];
     intros b Hb; apply Nat.eqb_neq in Hb; now rewrite Hb).
Qed.

(** X17. With the global tracer of [tracer.py] set and enabled, a function
    decorated with [trace_function] runs once, and when the tracer is
    started and enabled at its exit and the decorator's arguments
    serialize, exactly one complete event is written to that tracer's file
    after whatever the function did; the event is named by the decorator's
    name or else the function's, stamped at the entry, and the value or
    exception of the function is what the caller gets. *)
Theorem trace_function_records_call (A : Type) (nm : option string)
    (cat : string) (dargs : option Dict) (func_name : string)
    (func : World -> World * outcome A) (enter exit : Env) (w w1 : World)
    (r : outcome A) (a : nat) (wr : ChromeTraceWriter) :
  get_global_tracer w = Some a -> enabled (objects w a) = true ->
  func w = (w1, r) ->
  enabled (objects w1 a) = true -> _writer (objects w1 a) = Some wr ->
  is_Some (_file wr) -> args_ok dargs = true ->
  exists E wr2 w2,
    trace_function nm cat dargs func_name func enter exit w = (w2, r)
    /\ write_event wr (files w1) E = (wr2, files w2, Returned tt)
    /\ objects w2 a = set_writer (objects w1 a) (Some wr2)
    /\ (forall b, b <> a -> objects w2 b = objects w1 b)
    /\ tracer_global_tracer w2 = tracer_global_tracer w1
    /\ event_type E = COMPLETE
    /\ name E = name_or nm func_name /\ category E = cat
    /\ timestamp E = now enter
    /\ duration E = Some (now exit - now enter)%Q.
Proof.
  intros Hg He Hfunc He1 Hw1 Hopen Ha.
  set (E := TraceEvent_init exit (name_or nm func_name) COMPLETE
              (Some (now enter)) (Some (now exit - now enter)%Q) None None
              cat dargs None).
  destruct (write_event_ok wr (files w1) E Hopen) as (wr2 & fs2 & HwE).
  { unfold E. now rewrite TraceEvent_init_args_ok. }
  exists E, wr2.
  eexists {| objects := fun b => if Nat.eqb b a
                                 then set_writer (objects w1 a) (Some wr2)
                                 else objects w1 b;
             tracer_global_tracer := tracer_global_tracer w1;
             package_global_tracer := package_global_tracer w1;
             files := fs2 |}.
  split.
  { unfold trace_function. rewrite Hg, He. cbn [negb]. rewrite Hfunc. fold E.
    unfold at_tracer.
    rewrite (_write_event_recording (objects w1 a) (files w1) E wr He1 Hw1).
    rewrite HwE. reflexivity. }
  cbn [objects files tracer_global_tracer].
  split; [exact HwE|].
  split; [now rewrite Nat.eqb_refl|].
  split.
  { intros b Hb. apply Nat.eqb_neq in Hb. now rewrite Hb. }
  repeat split.
Qed.

Lemma trace_function_records_call_witness :
  exists E w2,
    trace_function None "function" None "fetch" a_failing_function
      an_env another_env a_traced_world
    = (w2, Raised (HostError "ValueError"))
    /\ event_type E = COMPLETE /\ name E = "fetch"%string
    /\ duration E = Some (now another_env - now an_env)%Q.
Proof.
  destruct (trace_function_records_call Z None "function" None "fetch"
              a_failing_function an_env another_env a_traced_world a_traced_world
              (Raised (HostError "ValueError")) 0%nat a_started_writer)
    as (E & wr2 & w2 & H1 & _ & _ & _ & _ & H2 & H3 & _ & _ & H4).
  - reflexivity.
  - reflexivity.
  - reflexivity.
  - reflexivity.
  - reflexivity.
  - eexists; reflexivity.
  - reflexivity.
  - exists E, w2. repeat split; assumption.
Defined.

(** X18. When the decorator's arguments do not serialize, the tracing gets
    in the way of the host.  With [trace_function] the function runs, but
    whatever it returned or raised, the caller gets the [TypeError] that the
    encoder raises on the sanitized arguments, from the write in the
    [finally] block; with [trace_async_function] the [async_begin] before
    the [try] raises that [TypeError], so the function never runs, and the
    begin event stays registered. *)
Theorem decorators_fail_on_unserializable_args (A : Type)
    (nm : option string) (cat : string) (dargs : option Dict)
    (func_name : string) (func : World -> World * outcome A)
    (enter exit : Env) (w : World) (a : nat) (wr : ChromeTraceWriter) :
  get_global_tracer w = Some a -> enabled (objects w a) = true ->
  args_ok dargs = false ->
  exists d bad,
    dargs = Some d /\ unencodable bad
    /\ json_dumps (VDict (_serialize_args d)) = Raised (not_serializable bad)
    /\ (_writer (objects w a) = Some wr -> is_Some (_file wr) ->
        exists w',
          trace_async_function nm cat dargs func_name func enter exit w
          = (w', Raised (not_serializable bad))
          /\ (w', Raised (not_serializable bad))
             = at_tracer a
                 (fun t fs =>
                    drop_value
                      (async_begin enter t fs (name_or nm func_name) None cat dargs))
                 w
          /\ is_Some (_async_events (objects w' a) !! uuid4 enter))
    /\ (forall wr1,
          enabled (objects (func w).1 a) = true ->
          _writer (objects (func w).1 a) = Some wr1 -> is_Some (_file wr1) ->
          (trace_function nm cat dargs func_name func enter exit w).2
          = Raised (not_serializable bad)
          /\ forall b, b <> a ->
               objects (trace_function nm cat dargs func_name func
                          enter exit w).1 b
               = objects (func w).1 b).
Proof.
  intros Hg He Ha.
  destruct (args_refused dargs Ha) as (d & bad & Hd & Hu & Hrd & Hr).
  exists d, bad. split; [exact Hd|]. split; [exact Hu|]. split; [exact Hrd|]. split.
  - intros Hw [f Hf].
    set (tn := name_or nm func_name).
    destruct (_get_async_thread_id_frame (objects w a) (uuid4 enter)) as [H1 H2].
    set (B := fun lane => TraceEvent_init enter tn ASYNC_START None None None
                            (Some lane) cat dargs (Some (uuid4 enter))).
    unfold trace_async_function. rewrite Hg, He. cbn [negb]. fold tn.
    unfold at_tracer, async_begin.
    destruct (_get_async_thread_id (objects w a) (uuid4 enter)) as [t0 lane].
    cbn [fst] in H1, H2. fold (B lane).
    rewrite (_write_event_recording _ (files w) (B lane) wr)
      by (cbn; congruence).
    rewrite (write_event_failed wr (files w) (B lane) f _ Hf (Hr _ _ _ _ _ _ _ _ _)).
    cbn [fst snd drop_value]. eexists. split; [reflexivity|].
    split; [reflexivity|].
    cbn [objects]. rewrite Nat.eqb_refl. cbn. rewrite lookup_insert_eq.
    eexists; reflexivity.
  - intros wr1 He1 Hw1 [f Hf].
    set (E := TraceEvent_init exit (name_or nm func_name) COMPLETE
                (Some (now enter)) (Some (now exit - now enter)%Q) None None
                cat dargs None).
    unfold trace_function. rewrite Hg, He. cbn [negb].
    destruct (func w) as [w1 r]. cbn [fst] in He1, Hw1 |- *. fold E.
    unfold at_tracer.
    rewrite (_write_event_recording (objects w1 a) (files w1) E wr1 He1 Hw1).
    rewrite (write_event_failed wr1 (files w1) E f _ Hf (Hr _ _ _ _ _ _ _ _ _)).
    cbn [fst snd objects]. split; [reflexivity|].
    intros b Hb. apply Nat.eqb_neq in Hb. now rewrite Hb.
Qed.

Lemma decorators_fail_on_unserializable_args_witness :
  (trace_function None "function" (Some refused_args) "fetch" a_failing_function
     an_env another_env a_traced_world).2
  = Raised (TypeError "Object of type object is not JSON serializable")
  /\ exists w',
       trace_async_function None "function" (Some refused_args) "fetch"
         a_failing_function an_env another_env a_traced_world
       = (w', Raised (TypeError "Object of type object is not JSON serializable"))
       /\ is_Some (_async_events (objects w' 0%nat) !! uuid4 an_env).
Proof.
  destruct (decorators_fail_on_unserializable_args Z None "function"
              (Some refused_args) "fetch" a_failing_function
              an_env another_env a_traced_world 0%nat a_started_writer
              eq_refl eq_refl eq_refl) as (d & bad & Hd & _ & Hrd & Hasync & Hsync).
  inversion Hd; subst d.
  assert (Hb : not_serializable bad
               = TypeError "Object of type object is not JSON serializable").
  { assert (H : json_dumps (VDict (_serialize_args refused_args))
                = Raised (TypeError "Object of type object is not JSON serializable"))
      by (vm_compute; reflexivity).
    rewrite Hrd in H. now inversion H. }
  rewrite Hb in Hasync, Hsync.
  destruct (Hsync a_started_writer eq_refl eq_refl) as [Hx _];
    [eexists; reflexivity|].
  destruct (Hasync eq_refl) as (w' & H1 & _ & H2); [eexists; reflexivity|].
  split; [exact Hx|]. exists w'. split; [exact H1 | exact H2].
Defined.

Lemma async_begin_returns (env : Env) (t : Tracer) (fs : FS) (nm cat id : string)
    (given : option string) (a : option Dict) (w : ChromeTraceWriter) :
  enabled t = true -> _writer t = Some w -> is_Some (_file w) -> lanes_ok t ->
  args_ok a = true ->
  id = match given with None => uuid4 env | Some i => i end ->
  exists w1 fs1 t1,
    async_begin env t fs nm given cat a = (t1, fs1, Returned id)
    /\ write_event w fs
         (TraceEvent_init env nm ASYNC_START None None None
            (Some (async_lane id)) cat a (Some id))
       = (w1, fs1, Returned tt)
    /\ enabled t1 = true /\ _writer t1 = Some w1
    /\ _async_events t1 !! id
       = Some (TraceEvent_init env nm ASYNC_START None None None
                 (Some (async_lane id)) cat a (Some id))
    /\ lanes_ok t1.
Proof.
  intros He Hw Hopen Hok Ha ->.
  set (id := match given with None => uuid4 env | Some i => i end).
  set (B := TraceEvent_init env nm ASYNC_START None None None
              (Some (async_lane id)) cat a (Some id)).
  destruct (write_event_ok w fs B Hopen) as (w1 & fs1 & HwB).
  { unfold B. now rewrite TraceEvent_init_args_ok. }
  destruct (_get_async_thread_id_lane t id Hok) as (Hlane & _ & Hok0).
  destruct (_get_async_thread_id_frame t id) as [H1 H2].
  unfold async_begin. fold id.
  destruct (_get_async_thread_id t id) as [t0 lane].
  cbn [fst snd] in Hlane, Hok0, H1, H2. subst lane. fold B.
  rewrite (_write_event_recording _ fs B w) by (cbn; congruence).
  rewrite HwB. cbn [fst snd].
  eexists _, _, _. split; [reflexivity|]. split; [reflexivity|].
  cbn [enabled _writer _async_events set_writer set_async_events].
  split; [congruence|]. split; [reflexivity|].
  split; [apply lookup_insert_eq | exact Hok0].
Qed.

Lemma async_end_returns (env : Env) (t : Tracer) (fs : FS) (id : string)
    (a : option Dict) (w : ChromeTraceWriter) (B : TraceEvent) :
  enabled t = true -> _writer t = Some w -> is_Some (_file w) -> lanes_ok t ->
  _async_events t !! id = Some B -> thread_id B = async_lane id ->
  args_ok a = true ->
  exists w2 fs2 t2,
    async_end env t fs id a = (t2, fs2, Returned tt)
    /\ write_event w fs
         (TraceEvent_init env (name B) ASYNC_END None None None
            (Some (async_lane id)) (category B) a (Some id))
       = (w2, fs2, Returned tt)
    /\ _writer t2 = Some w2
    /\ _async_events t2 !! id = None
    /\ _async_thread_ids t2 !! id = None.
Proof.
  intros He Hw Hopen Hok Hreg HB Ha.
  set (E := TraceEvent_init env (name B) ASYNC_END None None None
              (Some (async_lane id)) (category B) a (Some id)).
  destruct (write_event_ok w fs E Hopen) as (w2 & fs2 & HwE).
  { unfold E. now rewrite TraceEvent_init_args_ok. }
  assert (Hl : match _async_thread_ids t !! id with
               | None => thread_id B
               | Some lane => lane
               end = async_lane id).
  { destruct (_async_thread_ids t !! id) as [lane|] eqn:Hc;
      [now apply Hok | exact HB]. }
  unfold async_end. rewrite Hreg.
  cbn [_async_thread_ids set_async_events]. rewrite Hl. fold E.
  rewrite (_write_event_recording _ fs E w) by assumption.
  rewrite HwE. cbn [fst snd].
  eexists _, _, _. split; [reflexivity|]. split; [reflexivity|].
  cbn. split; [reflexivity|]. split; apply lookup_delete_eq.
Qed.

(** X19. With the global tracer of [tracer.py] set, started and enabled and
    decorator arguments that serialize, a function decorated with
    [trace_async_function] is bracketed by an async-begin event, written
    before it runs, and an async-end event, written when it is over,
    whether it returned or raised.  Both carry the same generated id and
    the same lane; the function's outcome is passed on and the id is left
    in no registry. *)
Theorem trace_async_function_brackets_call (A : Type) (nm : option string)
    (cat : string) (dargs : option Dict) (func_name : string)
    (func : World -> World * outcome A) (enter exit : Env) (w : World)
    (a : nat) (wr : ChromeTraceWriter) :
  get_global_tracer w = Some a -> enabled (objects w a) = true ->
  _writer (objects w a) = Some wr -> is_Some (_file wr) ->
  lanes_ok (objects w a) -> args_ok dargs = true ->
  exists B wrb wb,
    at_tracer a
      (fun t fs => async_begin enter t fs (name_or nm func_name) None cat dargs) w
    = (wb, Returned (uuid4 enter))
    /\ write_event wr (files w) B = (wrb, files wb, Returned tt)
    /\ event_type B = ASYNC_START /\ name B = name_or nm func_name
    /\ category B = cat /\ async_id B = Some (uuid4 enter)
    /\ thread_id B = async_lane (uuid4 enter)
    /\ enabled (objects wb a) = true /\ _writer (objects wb a) = Some wrb
    /\ lanes_ok (objects wb a)
    /\ _async_events (objects wb a) !! uuid4 enter = Some B
    /\ forall (w1 : World) (r : outcome A) (wr1 : ChromeTraceWriter),
         func wb = (w1, r) ->
         enabled (objects w1 a) = true -> _writer (objects w1 a) = Some wr1 ->
         is_Some (_file wr1) -> lanes_ok (objects w1 a) ->
         _async_events (objects w1 a) !! uuid4 enter = Some B ->
         exists E wr2 w2,
           trace_async_function nm cat dargs func_name func enter exit w = (w2, r)
           /\ write_event wr1 (files w1) E = (wr2, files w2, Returned tt)
           /\ event_type E = ASYNC_END
           /\ name E = name B /\ category E = category B
           /\ async_id E = async_id B /\ thread_id E = thread_id B
           /\ _async_events (objects w2 a) !! uuid4 enter = None
           /\ _async_thread_ids (objects w2 a) !! uuid4 enter = None.
Proof.
  intros Hg He Hw Hopen Hok Ha.
  set (tn := name_or nm func_name).
  set (B := TraceEvent_init enter tn ASYNC_START None None None
              (Some (async_lane (uuid4 enter))) cat dargs (Some (uuid4 enter))).
  destruct (async_begin_returns enter (objects w a) (files w) tn cat (uuid4 enter)
              None dargs wr He Hw Hopen Hok Ha eq_refl)
    as (wrb & fsb & tb & Hbegin & HwB & Heb & Hwb & Hregb & Hokb).
  fold B in HwB, Hregb.
  assert (Hat : at_tracer a
                  (fun t fs => async_begin enter t fs tn None cat dargs) w
     = ({| objects := fun b => if Nat.eqb b a then tb else objects w b;
           tracer_global_tracer := tracer_global_tracer w;
           package_global_tracer := package_global_tracer w;
           files := fsb |}, Returned (uuid4 enter))).
  { unfold at_tracer. now rewrite Hbegin. }
  exists B, wrb. eexists. split; [exact Hat|].
  cbn [files objects]. rewrite Nat.eqb_refl.
  split; [exact HwB|]. split_refl.
  split; [exact Heb|]. split; [exact Hwb|]. split; [exact Hokb|].
  split; [exact Hregb|].
  intros w1 r wr1 Hfunc He1 Hw1 Hopen1 Hok1 Hreg.
  destruct (async_end_returns exit (objects w1 a) (files w1) (uuid4 enter) None
              wr1 B He1 Hw1 Hopen1 Hok1 Hreg eq_refl eq_refl)
    as (wr2 & fs2 & t2 & Hend & HwE & _ & Hev & Hcache).
  eexists _, wr2.
  exists {| objects := fun b => if Nat.eqb b a then t2 else objects w1 b;
            tracer_global_tracer := tracer_global_tracer w1;
            package_global_tracer := package_global_tracer w1;
            files := fs2 |}.
  split.
  { unfold trace_async_function. rewrite Hg, He. cbn [negb]. fold tn.
    rewrite Hat, Hfunc. unfold at_tracer. rewrite Hend. reflexivity. }
  cbn [files objects]. rewrite Nat.eqb_refl.
  split; [exact HwE|]. split_refl. split; [exact Hev | exact Hcache].
Qed.

Lemma trace_async_function_brackets_call_witness :
  exists B E w2,
    trace_async_function None "async_function" None "fetch" a_failing_function
      another_env an_env a_traced_world
    = (w2, Raised (HostError "ValueError"))
    /\ event_type B = ASYNC_START /\ event_type E = ASYNC_END
    /\ async_id E = async_id B /\ thread_id E = thread_id B
    /\ _async_thread_ids (objects w2 0%nat) !! uuid4 another_env = None.
Proof.
  destruct (trace_async_function_brackets_call Z None "async_function" None
              "fetch" a_failing_function another_env an_env a_traced_world
              0%nat a_started_writer)
    as (B & wrb & wb & _ & HwB & HB & _ & _ & _ & _ & Heb & Hwb & Hokb & Hregb
        & Hafter).
  - reflexivity.
  - reflexivity.
  - reflexivity.
  - eexists; reflexivity.
  - intros id lane H. vm_compute in H. discriminate.
  - reflexivity.
  - destruct (Hafter wb (Raised (HostError "ValueError")) wrb eq_refl Heb Hwb)
      as (E & wr2 & w2 & H1 & _ & H2 & _ & _ & H3 & H4 & _ & H5).
    + rewrite (write_event_keeps_open _ _ _ _ _ _ HwB). eexists; reflexivity.
    + exact Hokb.
    + exact Hregb.
    + exists B, E, w2. repeat split; assumption.
Defined.

(* ===================================================================== *)
(** * The dependency environment                                          *)
(* ===================================================================== *)

Lemma dict_get_set (key k : string) (value : Value) (d : Dict) :
  dict_get k (dict_set key value d)
  = if String.eqb key k then Some value else dict_get k d.
Proof.
  induction d as [|[k1 v1] d IH]; cbn [dict_set dict_get].
  - reflexivity.
  - destruct (String.eqb k1 key) eqn:E1; cbn [dict_get].
    + apply String.eqb_eq in E1. subst k1.
      destruct (String.eqb key k); reflexivity.
    + destruct (String.eqb k1 k) eqn:E2.
      * apply String.eqb_eq in E2. subst k1.
        apply String.eqb_neq in E1.
        destruct (String.eqb key k) eqn:E3; [|reflexivity].
        apply String.eqb_eq in E3. congruence.
      * exact IH.
Qed.

Lemma dict_get_absent (k : string) (d : Dict) :
  k ∉ List.map fst d -> dict_get k d = None.
Proof.
  induction d as [|[k1 v1] d IH]; intros H; [reflexivity|].
  cbn [List.map fst] in H. apply not_elem_of_cons in H. destruct H as [Hne H].
  cbn [dict_get]. destruct (String.eqb k1 k) eqn:E.
  - apply String.eqb_eq in E. congruence.
  - now apply IH.
Qed.

(** A lookup after [d.update(custom)]: the entry of [custom] when it has
    one, the entry of [d] otherwise. *)
Lemma dict_update_get (custom : Dict) :
  forall (d : Dict) (k : string),
    NoDup (List.map fst custom) ->
    dict_get k (dict_update d custom)
    = match dict_get k custom with
      | Some v => Some v
      | None => dict_get k d
      end.
Proof.
  induction custom as [|[k1 v1] custom IH]; intros d k Hnd; [reflexivity|].
  cbn [List.map fst] in Hnd. apply NoDup_cons in Hnd. destruct Hnd as [Hk1 Hnd].
  unfold dict_update in *. cbn [fold_left dict_get].
  rewrite IH by exact Hnd. rewrite dict_get_set.
  destruct (String.eqb k1 k) eqn:E.
  - apply String.eqb_eq in E. subst k1.
    now rewrite (dict_get_absent k custom Hk1).
  - reflexivity.
Qed.

(** X20. The first [get_deps_env(custom)] returns the platform's system and
    machine names in lower case, the machine [amd64] being renamed
    [x86_64], overridden and extended by the entries of [custom]: a key of
    [custom] gives the value of [custom], any other key the platform's.
    Without an override the machine is never reported as [amd64]. *)
Theorem get_deps_env_lookup (p : Platform) (custom : Dict) (k : string) :
  NoDup (List.map fst custom) ->
  exists machine d,
    get_deps_env p None custom
    = (Some [("system"%string, VStr (lower (platform_system p)));
             ("machine"%string, VStr machine)], Returned d)
    /\ machine = (if String.eqb (lower (platform_machine p)) "amd64"
                  then "x86_64"%string else lower (platform_machine p))
    /\ machine <> "amd64"%string
    /\ dict_get k d
       = match dict_get k custom with
         | Some v => Some v
         | None =>
             dict_get k [("system"%string, VStr (lower (platform_system p)));
                         ("machine"%string, VStr machine)]
         end.
Proof.
  intros Hnd. eexists _, _. split; [reflexivity|]. split; [reflexivity|]. split.
  - destruct (String.eqb (lower (platform_machine p)) "amd64") eqn:E.
    + discriminate.
    + now apply String.eqb_neq in E.
  - now apply dict_update_get.
Qed.

Lemma get_deps_env_lookup_witness :
  exists d,
    (get_deps_env a_windows_platform None [("sdk"%string, VStr "r26")]).2
    = Returned d
    /\ dict_get "machine" d = Some (VStr "x86_64")
    /\ dict_get "system" d = Some (VStr "windows")
    /\ dict_get "sdk" d = Some (VStr "r26").
Proof.
  destruct (get_deps_env_lookup a_windows_platform [("sdk"%string, VStr "r26")]
              "machine") as (machine & d & H & Hm & _ & _).
  - apply (bool_decide_unpack (NoDup (List.map fst [("sdk"%string, VStr "r26")]))).
    vm_compute. exact I.
  - exists d. rewrite H. split; [reflexivity|].
    vm_compute in H. inversion H; subst. repeat split; reflexivity.
Defined.

Lemma deps_env_calls_cached (calls : list (Platform * Dict)) (base : Dict) :
  deps_env_calls calls (Some base)
  = (Some base, List.map (fun pc => Returned (dict_update base pc.2)) calls).
Proof.
  induction calls as [|[p c] calls IH]; [reflexivity|].
  cbn [deps_env_calls get_deps_env init_deps_env]. rewrite IH. reflexivity.
Qed.

(** X21. The dependency environment is computed once.  Over any sequence
    of [get_deps_env] calls that starts with the attribute unset, the
    attribute holds from the first call on the entries of the platform as
    the first call saw it, and every call, the first included, answers with
    these entries updated by its own [custom]: neither a later platform
    nor the [custom] of another call shows in an answer. *)
Theorem deps_env_is_computed_once (p1 : Platform) (custom1 : Dict)
    (calls : list (Platform * Dict)) :
  exists base,
    init_deps_env p1 None = Some base
    /\ deps_env_calls ((p1, custom1) :: calls) None
       = (Some base,
          List.map (fun pc => Returned (dict_update base pc.2))
            ((p1, custom1) :: calls)).
Proof.
  eexists. split; [reflexivity|].
  cbn [deps_env_calls get_deps_env init_deps_env].
  rewrite deps_env_calls_cached. reflexivity.
Qed.

(* ===================================================================== *)
(** * Recording calls that raise, and nested spans                        *)
(* ===================================================================== *)

Lemma _write_event_raises (t : Tracer) (fs : FS) (e : TraceEvent)
    (w : ChromeTraceWriter) (x : exn) :
  enabled t = true -> _writer t = Some w -> is_Some (_file w) ->
  json_dumps (VDict (to_dict e)) = Raised x ->
  exists t1 fs1,
    _write_event t fs e = (t1, fs1, Raised x)
    /\ _active_spans t1 = _active_spans t
    /\ _async_events t1 = _async_events t
    /\ _async_thread_ids t1 = _async_thread_ids t.
Proof.
  intros He Hw [f Hf] Hr.
  rewrite (_write_event_recording t fs e w He Hw).
  rewrite (write_event_failed w fs e f _ Hf Hr). cbn [fst snd].
  eexists _, _. split; [reflexivity|]. repeat split.
Qed.

(** X22. On a started, enabled tracer a recording call whose arguments do
    not serialize raises to the host the [TypeError] that the encoder
    raises on the sanitized arguments: [instant], [async_instant],
    [begin_span] and [async_begin] all do.  [begin_span] and [async_begin]
    register their begin event before they raise, so the registration stays
    although the caller never gets the token, or the id when [async_begin]
    generated it. *)
Theorem recording_calls_raise_on_unserializable_args (env : Env) (t : Tracer)
    (fs : FS) (nm cat id : string) (given : option string) (a : option Dict)
    (w : ChromeTraceWriter) :
  enabled t = true -> _writer t = Some w -> is_Some (_file w) ->
  args_ok a = false ->
  exists d bad,
    a = Some d /\ unencodable bad
    /\ json_dumps (VDict (_serialize_args d)) = Raised (not_serializable bad)
    /\ (instant env t fs nm cat a).2 = Raised (not_serializable bad)
    /\ (async_instant env t fs id nm cat a).2 = Raised (not_serializable bad)
    /\ (begin_span env t fs nm cat a).2 = Raised (not_serializable bad)
    /\ (exists B,
          _active_spans (begin_span env t fs nm cat a).1.1 !! uuid4 env = Some B
          /\ event_type B = DURATION_BEGIN /\ name B = nm)
    /\ (async_begin env t fs nm given cat a).2 = Raised (not_serializable bad)
    /\ (exists B,
          _async_events (async_begin env t fs nm given cat a).1.1
            !! match given with None => uuid4 env | Some i => i end = Some B
          /\ event_type B = ASYNC_START /\ name B = nm).
Proof.
  intros He Hw Hopen Ha.
  destruct (args_refused a Ha) as (d & bad & Hd & Hu & Hrd & Hr).
  exists d, bad. split; [exact Hd|]. split; [exact Hu|]. split; [exact Hrd|].
  split; [|split; [|split; [|split; [|split]]]].
  - unfold instant.
    destruct (_write_event_raises t fs _ w _ He Hw Hopen (Hr env nm INSTANT None None None None cat None))
      as (t1 & fs1 & H & _). now rewrite H.
  - unfold async_instant.
    destruct (_get_async_thread_id_frame t id) as [H1 H2].
    destruct (_get_async_thread_id t id) as [t0 lane]. cbn [fst] in H1, H2.
    destruct (_write_event_raises t0 fs _ w _ (eq_trans H1 He) (eq_trans H2 Hw) Hopen
                (Hr env nm ASYNC_INSTANT None None None (Some lane) cat (Some id)))
      as (t1 & fs1 & H & _). now rewrite H.
  - unfold begin_span.
    destruct (_write_event_raises
                (set_active_spans t
                   (<[uuid4 env := TraceEvent_init env nm DURATION_BEGIN None None
                                     None None cat a None]> (_active_spans t)))
                fs _ w _ He Hw Hopen
                (Hr env nm DURATION_BEGIN None None None None cat None))
      as (t1 & fs1 & H & _). now rewrite H.
  - unfold begin_span.
    destruct (_write_event_raises
                (set_active_spans t
                   (<[uuid4 env := TraceEvent_init env nm DURATION_BEGIN None None
                                     None None cat a None]> (_active_spans t)))
                fs _ w _ He Hw Hopen
                (Hr env nm DURATION_BEGIN None None None None cat None))
      as (t1 & fs1 & H & Hsp & _). rewrite H. cbn [fst snd].
    eexists. rewrite Hsp. cbn [_active_spans set_active_spans].
    rewrite lookup_insert_eq. split; [reflexivity|]. split; reflexivity.
  - unfold async_begin.
    set (i := match given with None => uuid4 env | Some j => j end).
    destruct (_get_async_thread_id_frame t i) as [H1 H2].
    destruct (_get_async_thread_id t i) as [t0 lane]. cbn [fst] in H1, H2.
    destruct (_write_event_raises
                (set_async_events t0
                   (<[i := TraceEvent_init env nm ASYNC_START None None None
                             (Some lane) cat a (Some i)]> (_async_events t0)))
                fs _ w _ (eq_trans H1 He) (eq_trans H2 Hw) Hopen
                (Hr env nm ASYNC_START None None None (Some lane) cat (Some i)))
      as (t1 & fs1 & H & _). now rewrite H.
  - unfold async_begin.
    set (i := match given with None => uuid4 env | Some j => j end).
    destruct (_get_async_thread_id_frame t i) as [H1 H2].
    destruct (_get_async_thread_id t i) as [t0 lane]. cbn [fst] in H1, H2.
    destruct (_write_event_raises
                (set_async_events t0
                   (<[i := TraceEvent_init env nm ASYNC_START None None None
                             (Some lane) cat a (Some i)]> (_async_events t0)))
                fs _ w _ (eq_trans H1 He) (eq_trans H2 Hw) Hopen
                (Hr env nm ASYNC_START None None None (Some lane) cat (Some i)))
      as (t1 & fs1 & H & _ & Hev & _). rewrite H. cbn [fst snd].
    eexists. rewrite Hev. cbn [_async_events set_async_events].
    rewrite lookup_insert_eq. split; [reflexivity|]. split; reflexivity.
Qed.

Lemma recording_calls_raise_on_unserializable_args_witness :
  (async_begin an_env a_started_tracer a_started_fs "fetch" None "net"
     (Some refused_args)).2
  = Raised (TypeError "Object of type object is not JSON serializable")
  /\ exists B,
       _async_events
         (async_begin an_env a_started_tracer a_started_fs "fetch" None "net"
            (Some refused_args)).1.1 !! uuid4 an_env = Some B
       /\ event_type B = ASYNC_START /\ name B = "fetch"%string.
Proof.
  destruct (recording_calls_raise_on_unserializable_args an_env a_started_tracer
              a_started_fs "fetch" "net" "op-1" None (Some refused_args)
              a_started_writer)
    as (d & bad & Hd & _ & Hrd & _ & _ & _ & _ & H1 & H2).
  - reflexivity.
  - reflexivity.
  - eexists; reflexivity.
  - reflexivity.
  - inversion Hd; subst d.
    assert (Hb : not_serializable bad
                 = TypeError "Object of type object is not JSON serializable").
    { assert (H : json_dumps (VDict (_serialize_args refused_args))
                  = Raised (TypeError "Object of type object is not JSON serializable"))
        by (vm_compute; reflexivity).
      rewrite Hrd in H. now inversion H. }
    split; [rewrite H1, Hb; reflexivity | exact H2].
Defined.

Lemma span_returns (A : Type) (enter exit : Env) (t t1 : Tracer) (fs fs1 : FS)
    (nm cat : string) (a : option Dict)
    (body : Tracer -> FS -> Tracer * FS * outcome A) (r : outcome A)
    (w : ChromeTraceWriter) :
  body t fs = (t1, fs1, r) ->
  enabled t1 = true -> _writer t1 = Some w -> is_Some (_file w) ->
  args_ok a = true ->
  exists w2 fs2,
    span enter exit t fs nm cat a body = (set_writer t1 (Some w2), fs2, r)
    /\ write_event w fs1
         (TraceEvent_init exit nm COMPLETE (Some (now enter))
            (Some (now exit - now enter)%Q) None None cat a None)
       = (w2, fs2, Returned tt)
    /\ is_Some (_file w2).
Proof.
  intros Hbody He Hw Hopen Ha.
  set (E := TraceEvent_init exit nm COMPLETE (Some (now enter))
              (Some (now exit - now enter)%Q) None None cat a None).
  destruct (write_event_ok w fs1 E Hopen) as (w2 & fs2 & HwE).
  { unfold E. now rewrite TraceEvent_init_args_ok. }
  exists w2, fs2. split; [|split; [exact HwE|]].
  - unfold span. rewrite Hbody. fold E.
    rewrite (_write_event_recording _ fs1 E w) by assumption.
    rewrite HwE. reflexivity.
  - now rewrite (write_event_keeps_open _ _ _ _ _ _ HwE).
Qed.

(** X23. Spans are written when they end, not when they start: of two
    nested spans the inner one comes first in the file, then the outer one,
    both after what the body wrote, although the outer one carries the
    earlier timestamp; the outcome of the body passes through both. *)
Theorem nested_spans_are_written_inner_first (A : Type)
    (enter_out enter_in exit_in exit_out : Env) (t t1 : Tracer) (fs fs1 : FS)
    (nm_out cat_out nm_in cat_in : string) (a_out a_in : option Dict)
    (body : Tracer -> FS -> Tracer * FS * outcome A) (r : outcome A)
    (w : ChromeTraceWriter) :
  body t fs = (t1, fs1, r) ->
  enabled t1 = true -> _writer t1 = Some w -> is_Some (_file w) ->
  args_ok a_out = true -> args_ok a_in = true ->
  exists E_in E_out w2 fs2 w3 fs3,
    span enter_out exit_out t fs nm_out cat_out a_out
      (fun t fs => span enter_in exit_in t fs nm_in cat_in a_in body)
    = (set_writer t1 (Some w3), fs3, r)
    /\ write_event w fs1 E_in = (w2, fs2, Returned tt)
    /\ write_event w2 fs2 E_out = (w3, fs3, Returned tt)
    /\ name E_in = nm_in /\ name E_out = nm_out
    /\ event_type E_in = COMPLETE /\ event_type E_out = COMPLETE
    /\ timestamp E_in = now enter_in /\ timestamp E_out = now enter_out.
Proof.
  intros Hbody He Hw Hopen Hao Hai.
  destruct (span_returns A enter_in exit_in t t1 fs fs1 nm_in cat_in a_in body r w
              Hbody He Hw Hopen Hai) as (w2 & fs2 & Hin & HwIn & Hopen2).
  destruct (span_returns A enter_out exit_out t (set_writer t1 (Some w2)) fs fs2
              nm_out cat_out a_out
              (fun t fs => span enter_in exit_in t fs nm_in cat_in a_in body) r w2
              Hin He eq_refl Hopen2 Hao) as (w3 & fs3 & Hout & HwOut & _).
  eexists _, _, w2, fs2, w3, fs3.
  split; [exact Hout|]. split; [exact HwIn|]. split; [exact HwOut|].
  repeat split.
Qed.

Lemma nested_spans_are_written_inner_first_witness :
  exists E_in E_out w2 fs2 w3 fs3,
    span an_earlier_env another_env a_started_tracer a_started_fs "outer" "default"
      None
      (fun t fs => span an_env an_env t fs "inner" "default" None a_failing_body)
    = (set_writer a_started_tracer (Some w3), fs3, Raised (HostError "ValueError"))
    /\ write_event a_started_writer a_started_fs E_in = (w2, fs2, Returned tt)
    /\ write_event w2 fs2 E_out = (w3, fs3, Returned tt)
    /\ name E_in = "inner"%string /\ name E_out = "outer"%string.
Proof.
  destruct (nested_spans_are_written_inner_first unit an_earlier_env an_env an_env
              another_env a_started_tracer a_started_tracer a_started_fs
              a_started_fs "outer" "default" "inner" "default" None None
              a_failing_body (Raised (HostError "ValueError")) a_started_writer)
    as (E_in & E_out & w2 & fs2 & w3 & fs3 & H1 & H2 & H3 & H4 & H5 & _).
  - reflexivity.
  - reflexivity.
  - reflexivity.
  - eexists; reflexivity.
  - reflexivity.
  - reflexivity.
  - exists E_in, E_out, w2, fs2, w3, fs3. repeat split; assumption.
Defined.
